(** * LoRA Studio: the content-to-model pipeline, embedded and verified

    A shallow embedding of the services under [app/services]
    ([ingest.py], [dataset.py], [training.py], [evaluation.py],
    [deployment.py]) together with the properties of the pipeline.

    Conventions of the embedding.
    - Python [str] values are [string]s; every text handled here is ASCII,
      for which the helpers of [PyStr] agree with Python's.
    - Python [int] is [Z]; list lengths and indices are [nat].
    - Python [float] is the kernel's binary64 [float].
    - A SQL table is the list of its rows in insertion order; a query without
      [ORDER BY] returns rows in that order.
    - The artifact directory is a finite map from paths to file contents.
    - A primary key drawn by [uuid.uuid4] is an argument of the operation
      that inserts the row. *)

From Stdlib Require Import ZArith Lia Bool List Ascii String.
From Stdlib Require Import Floats Uint63.
From stdpp Require Import base option list gmap strings pretty.

Import ListNotations.
#[local] Set Warnings "-inexact-float".
Local Open Scope string_scope.
Local Open Scope list_scope.
Local Open Scope Z_scope.

(** ** Python string helpers (ASCII) *)

Module PyStr.

Definition code (c : ascii) : Z := Z.of_nat (nat_of_ascii c).

Definition chr (z : Z) : ascii := ascii_of_nat (Z.to_nat z).

(** [str.isspace] on one character: TAB..CR, FS..US and SPACE. *)
Definition isspace (c : ascii) : bool :=
  let n := code c in
  ((9 <=? n) && (n <=? 13)) || ((28 <=? n) && (n <=? 32)).

Definition isdigit (c : ascii) : bool :=
  let n := code c in (48 <=? n) && (n <=? 57).

Definition isupper (c : ascii) : bool :=
  let n := code c in (65 <=? n) && (n <=? 90).

Definition islower (c : ascii) : bool :=
  let n := code c in (97 <=? n) && (n <=? 122).

Definition isalpha (c : ascii) : bool := isupper c || islower c.

Definition isalnum (c : ascii) : bool := isalpha c || isdigit c.

Definition lower_char (c : ascii) : ascii :=
  if isupper c then chr (code c + 32) else c.

Definition chars (s : string) : list ascii := list_ascii_of_string s.

Definition str (l : list ascii) : string := string_of_list_ascii l.

(** [s.lower()] *)
Definition lower (s : string) : string := str (map lower_char (chars s)).

(** [len(s)] *)
Definition len (s : string) : Z := Z.of_nat (String.length s).

(** [s[:n]] for [n >= 0] *)
Definition take (n : nat) (s : string) : string := str (firstn n (chars s)).

Fixpoint starts (p l : list ascii) : bool :=
  match p, l with
  | [], _ => true
  | _ :: _, [] => false
  | a :: p', b :: l' => Ascii.eqb a b && starts p' l'
  end.

(** [s.startswith(p)] *)
Definition startswith (s p : string) : bool := starts (chars p) (chars s).

(** [s.endswith(p)] *)
Definition endswith (s p : string) : bool :=
  starts (rev (chars p)) (rev (chars s)).

Fixpoint find_sub (p l : list ascii) : bool :=
  starts p l ||
  match l with
  | [] => false
  | _ :: l' => find_sub p l'
  end.

(** [needle in hay] *)
Definition contains (needle hay : string) : bool :=
  find_sub (chars needle) (chars hay).

(** The words of [s.split()]: maximal runs of non-space characters.
    [cur] is the word being read, reversed. *)
Fixpoint split_go (cur : list ascii) (l : list ascii) : list (list ascii) :=
  match l with
  | [] => match cur with [] => [] | _ => [rev cur] end
  | c :: l' =>
      if isspace c
      then match cur with
           | [] => split_go [] l'
           | _ => rev cur :: split_go [] l'
           end
      else split_go (c :: cur) l'
  end.

(** [s.split()] *)
Definition split (s : string) : list string :=
  map str (split_go [] (chars s)).

(** [sep.join(parts)] *)
Fixpoint join (sep : string) (parts : list string) : string :=
  match parts with
  | [] => ""
  | [p] => p
  | p :: rest => p +:+ sep +:+ join sep rest
  end.

Fixpoint lstrip_by (f : ascii -> bool) (l : list ascii) : list ascii :=
  match l with
  | [] => []
  | c :: l' => if f c then lstrip_by f l' else l
  end.

Definition strip_by (f : ascii -> bool) (s : string) : string :=
  str (rev (lstrip_by f (rev (lstrip_by f (chars s))))).

(** [s.strip()] *)
Definition strip (s : string) : string := strip_by isspace s.

(** [s.strip(cs)] *)
Definition strip_chars (cs : string) (s : string) : string :=
  strip_by (fun c => existsb (Ascii.eqb c) (chars cs)) s.

(** [bool(s)]: a string is truthy when it is not empty. *)
Definition truthy (s : string) : bool :=
  match s with EmptyString => false | _ => true end.

Definition LF : ascii := "010"%char.
Definition CR : ascii := "013"%char.
Definition TAB : ascii := "009"%char.

(** [s.replace(old, new)] for a non-empty [old]: the occurrences from left
    to right, not overlapping. [skip] counts the characters of the current
    occurrence still to pass. *)
Fixpoint replace_go (old new : list ascii) (skip : nat) (l : list ascii)
  : list ascii :=
  match l with
  | [] => []
  | c :: l' =>
      match skip with
      | S skip' => replace_go old new skip' l'
      | O =>
          if starts old l
          then new ++ replace_go old new (Nat.pred (length old)) l'
          else c :: replace_go old new 0 l'
      end
  end.

Definition replace (old new s : string) : string :=
  str (replace_go (chars old) (chars new) 0 (chars s)).

(** The line boundaries of [str.splitlines] below code 128. *)
Definition islinebreak (c : ascii) : bool :=
  let n := code c in
  ((10 <=? n) && (n <=? 13)) || ((28 <=? n) && (n <=? 30)).

(** [s.splitlines()]: [cur] is the line being read, reversed; [after_cr]
    holds right after a carriage return, whose line feed belongs to it. *)
Fixpoint splitlines_go (cur : list ascii) (after_cr : bool)
    (l : list ascii) : list string :=
  match l with
  | [] => match cur with [] => [] | _ => [str (rev cur)] end
  | c :: l' =>
      if after_cr && Ascii.eqb c LF then splitlines_go cur false l'
      else if islinebreak c
           then str (rev cur) :: splitlines_go [] (Ascii.eqb c CR) l'
           else splitlines_go (c :: cur) false l'
  end.

Definition splitlines (s : string) : list string :=
  splitlines_go [] false (chars s).

(** [s.split(sep)] for a one-character separator. *)
Fixpoint split_on_go (sep : ascii) (cur : list ascii) (l : list ascii)
  : list string :=
  match l with
  | [] => [str (rev cur)]
  | c :: l' =>
      if Ascii.eqb c sep then str (rev cur) :: split_on_go sep [] l'
      else split_on_go sep (c :: cur) l'
  end.

Definition split_on (sep : ascii) (s : string) : list string :=
  split_on_go sep [] (chars s).

(** [c.isprintable()] below code 128. *)
Definition isprintable (c : ascii) : bool :=
  let n := code c in (32 <=? n) && (n <=? 126).

End PyStr.

(** ** List helpers *)

(** Cut a list into consecutive pieces of [n] elements; [fuel] bounds the
    number of pieces. *)
Fixpoint pieces {A} (fuel n : nat) (l : list A) : list (list A) :=
  match fuel with
  | O => []
  | S f =>
      match l with
      | [] => []
      | _ => firstn n l :: pieces f n (skipn n l)
      end
  end.

(** ** SHA-256 (FIPS 180-4), as [hashlib.sha256] computes it *)

Module Sha256.

Definition w32 (x : Z) : Z := x mod 2 ^ 32.

Definition rotr (n x : Z) : Z :=
  Z.lor (Z.shiftr x n) (w32 (Z.shiftl x (32 - n))).

Definition Ch (x y z : Z) : Z :=
  Z.lxor (Z.land x y) (Z.land (Z.lxor x (2 ^ 32 - 1)) z).

Definition Maj (x y z : Z) : Z :=
  Z.lxor (Z.lxor (Z.land x y) (Z.land x z)) (Z.land y z).

Definition Sigma0 (x : Z) : Z :=
  Z.lxor (Z.lxor (rotr 2 x) (rotr 13 x)) (rotr 22 x).

Definition Sigma1 (x : Z) : Z :=
  Z.lxor (Z.lxor (rotr 6 x) (rotr 11 x)) (rotr 25 x).

Definition sigma0 (x : Z) : Z :=
  Z.lxor (Z.lxor (rotr 7 x) (rotr 18 x)) (Z.shiftr x 3).

Definition sigma1 (x : Z) : Z :=
  Z.lxor (Z.lxor (rotr 17 x) (rotr 19 x)) (Z.shiftr x 10).

(** The first 64 primes; the round constants are the first 32 bits of the
    fractional parts of their cube roots, the initial state those of the
    square roots of the first eight. *)
Definition primes : list Z :=
  [2; 3; 5; 7; 11; 13; 17; 19; 23; 29; 31; 37; 41; 43; 47; 53;
   59; 61; 67; 71; 73; 79; 83; 89; 97; 101; 103; 107; 109; 113; 127; 131;
   137; 139; 149; 151; 157; 163; 167; 173; 179; 181; 191; 193; 197; 199;
   211; 223; 227; 229; 233; 239; 241; 251; 257; 263; 269; 271; 277; 281;
   283; 293; 307; 311].

(** Largest [r] below [2 ^ bits] with [r ^ e <= n], found bit by bit. *)
Fixpoint iroot (e : Z) (n : Z) (bits : nat) (r : Z) : Z :=
  match bits with
  | O => r
  | S b =>
      let r' := r + 2 ^ Z.of_nat b in
      iroot e n b (if r' ^ e <=? n then r' else r)
  end.

Definition frac_root (e p : Z) : Z :=
  w32 (iroot e (p * 2 ^ (32 * e)) 40 0).

Definition K : list Z := Eval vm_compute in map (frac_root 3) primes.

Definition H0 : list Z :=
  Eval vm_compute in map (frac_root 2) (firstn 8 primes).

Definition nthZ (l : list Z) (i : nat) : Z := nth i l 0.

(** Message schedule: the sixteen block words extended to sixty-four.
    [w] holds the schedule so far, newest word first. *)
Fixpoint extend (n : nat) (w : list Z) : list Z :=
  match n with
  | O => w
  | S n' =>
      let x := w32 (sigma1 (nthZ w 1) + nthZ w 6
                    + sigma0 (nthZ w 14) + nthZ w 15) in
      extend n' (x :: w)
  end.

Definition schedule (block : list Z) : list Z :=
  rev (extend 48 (rev block)).

Definition round (st : list Z) (kw : Z * Z) : list Z :=
  match st with
  | [a; b; c; d; e; f; g; h] =>
      let t1 := h + Sigma1 e + Ch e f g + fst kw + snd kw in
      let t2 := Sigma0 a + Maj a b c in
      [w32 (t1 + t2); a; b; c; w32 (d + t1); e; f; g]
  | _ => st
  end.

Definition compress (st : list Z) (block : list Z) : list Z :=
  let st' := fold_left round (combine K (schedule block)) st in
  map (fun p => w32 (fst p + snd p)) (combine st st').

(** Big-endian bytes of [x], [n] of them. *)
Fixpoint be_bytes (n : nat) (x : Z) : list Z :=
  match n with
  | O => []
  | S n' => (Z.shiftr x (8 * Z.of_nat n')) mod 256 :: be_bytes n' x
  end.

Definition pad (msg : list Z) : list Z :=
  let l := Z.of_nat (length msg) in
  let k := Z.to_nat ((55 - l) mod 64) in
  msg ++ [128] ++ repeat 0 k ++ be_bytes 8 (8 * l).

Fixpoint be_word (bs : list Z) (acc : Z) : Z :=
  match bs with
  | [] => acc
  | b :: bs' => be_word bs' (acc * 256 + b)
  end.

Definition blocks (bytes : list Z) : list (list Z) :=
  map (fun blk => map (fun w => be_word w 0) (pieces 16 4 blk))
      (pieces (length bytes) 64 bytes).

Definition digest (msg : list Z) : list Z :=
  flat_map (be_bytes 4) (fold_left compress (blocks (pad msg)) H0).

Definition hex_digit (n : Z) : ascii :=
  if n <? 10 then PyStr.chr (48 + n) else PyStr.chr (87 + n).

Definition hex (bytes : list Z) : string :=
  PyStr.str (flat_map (fun b => [hex_digit (b / 16); hex_digit (b mod 16)])
                      bytes).

(** [s.encode("utf-8")] for ASCII text. *)
Definition encode (s : string) : list Z := map PyStr.code (PyStr.chars s).

(** [hashlib.sha256(s.encode("utf-8")).hexdigest()] *)
Definition hexdigest (s : string) : string := hex (digest (encode s)).

End Sha256.

Arguments Sha256.hexdigest : simpl never.

(** ** Python floats (binary64) *)

Module PyFloat.

(** The float of an integer in [0, 2^53], exactly. *)
Definition of_small (z : Z) : float := of_uint63 (Uint63.of_Z z).

(** [q / 2^d] rounded to the nearest integer, ties to even; [sticky] tells
    that non-zero bits lie below [q]. *)
Definition round_shift (q d : Z) (sticky : bool) : Z :=
  let lo := q mod 2 ^ d in
  let hi := q / 2 ^ d in
  let half := 2 ^ (d - 1) in
  if lo <? half then hi
  else if (half <? lo) || sticky then hi + 1
  else if Z.even hi then hi else hi + 1.

(** The float nearest to [a / b] for [a >= 0] and [b > 0]: the quotient is
    taken with 55 or 56 significant bits and a sticky bit, then rounded to
    53 bits. *)
Definition truediv_pos (a b : Z) : float :=
  if a =? 0 then 0%float
  else
    let k := 55 - (Z.log2 a - Z.log2 b) in
    let num := if 0 <=? k then a * 2 ^ k else a in
    let den := if 0 <=? k then b else b * 2 ^ (- k) in
    let q := num / den in
    let sticky := negb (num mod den =? 0) in
    let d := Z.log2 q + 1 - 53 in
    Z.ldexp (of_small (round_shift q d sticky)) (d - k).

(** [a / b] on integers (true division), for [b <> 0]. *)
Definition truediv (a b : Z) : float :=
  let f := truediv_pos (Z.abs a) (Z.abs b) in
  if (0 <=? a) && (0 <? b) || (a <=? 0) && (b <? 0) then f else (- f)%float.

(** The exact value [m * 2^e] of a finite float. *)
Definition exact (f : float) : Z * Z :=
  match Prim2SF f with
  | S754_finite s m e => (if s then Z.neg m else Z.pos m, e)
  | _ => (0, 0)
  end.

(** [int(f)]: truncation toward zero. *)
Definition to_int (f : float) : Z :=
  let (m, e) := exact f in
  if 0 <=? e then m * 2 ^ e else Z.quot m (2 ^ (- e)).

(** The exact sum of finite floats as [s * 2^e]. *)
Definition exact_sum (xs : list float) : Z * Z :=
  let parts := map exact xs in
  let e := fold_right (fun p acc => Z.min (snd p) acc) 0 parts in
  (fold_right (fun p acc => fst p * 2 ^ (snd p - e) + acc) 0 parts, e).

(** The float nearest to [n * 2^e / d], for [d > 0]. *)
Definition scaled_div (n e d : Z) : float :=
  if 0 <=? e then truediv (n * 2 ^ e) d else truediv n (d * 2 ^ (- e)).

(** [statistics.mean(xs)] on a non-empty list of floats: the exact mean,
    rounded once. *)
Definition mean (xs : list float) : float :=
  let (s, e) := exact_sum xs in
  scaled_div s e (Z.of_nat (length xs)).

(** [x * 10^digits] rounded to the nearest integer, ties to even, exactly. *)
Definition round_scaled (x : float) (digits : Z) : Z :=
  let (m, e) := exact x in
  let n := Z.abs m * 10 ^ digits in
  let r :=
    if 0 <=? e then n * 2 ^ e
    else round_shift n (- e) false in
  if m <? 0 then - r else r.

(** [round(x, digits)] for [digits >= 0]: the float nearest to the decimal
    rounding of [x]. *)
Definition round (x : float) (digits : Z) : float :=
  truediv (round_scaled x digits) (10 ^ digits).

End PyFloat.

(** ** Domain model ([app/models/domain.py]) *)

Module DocumentStatus.
Inductive t := READY | NEEDS_REVIEW | REDACTION_REQUIRED | REJECTED.
#[global] Instance eq_dec : EqDecision t.
Proof. solve_decision. Defined.
End DocumentStatus.

Module DatasetStatus.
Inductive t := BUILDING | READY | NEEDS_REVIEW | FAILED.
#[global] Instance eq_dec : EqDecision t.
Proof. solve_decision. Defined.
End DatasetStatus.

Module RunState.
Inductive t :=
| QUEUED | PREFLIGHT | STAGING | TRAINING | EVALUATING | PACKAGING
| READY | FAILED | CANCELLED.
#[global] Instance eq_dec : EqDecision t.
Proof. solve_decision. Defined.

(** The value of the enumeration member, as stored in [RunEvent]. *)
Definition value (s : t) : string :=
  match s with
  | QUEUED => "queued" | PREFLIGHT => "preflight" | STAGING => "staging"
  | TRAINING => "training" | EVALUATING => "evaluating"
  | PACKAGING => "packaging" | READY => "ready" | FAILED => "failed"
  | CANCELLED => "cancelled"
  end.

(** [str(member)], as an f-string renders it. *)
Definition to_str (s : t) : string :=
  "RunState." +:+
  match s with
  | QUEUED => "QUEUED" | PREFLIGHT => "PREFLIGHT" | STAGING => "STAGING"
  | TRAINING => "TRAINING" | EVALUATING => "EVALUATING"
  | PACKAGING => "PACKAGING" | READY => "READY" | FAILED => "FAILED"
  | CANCELLED => "CANCELLED"
  end.
End RunState.

Module DeploymentStatus.
Inductive t := CREATED | ACTIVE | ARCHIVED.
#[global] Instance eq_dec : EqDecision t.
Proof. solve_decision. Defined.
End DeploymentStatus.

(** One entry of [Document.pii_hits]: [{"type": ..., "value": ...}]. *)
Record PiiHit := { pii_type : string; pii_value : string }.

(** The metadata object of an upload: the key read by the pipeline and the
    length of its [json.dumps] rendering. *)
Record Metadata := {
  effective_date : option string;
  dumps_length : Z }.

Record Document := {
  doc_id : string;
  doc_tenant_id : string;
  doc_project_id : string;
  doc_filename : string;
  doc_file_type : string;
  doc_storage_path : string;
  doc_normalized_text_path : string;
  doc_sha256_hash : string;
  doc_near_duplicate_of : option string;
  doc_quality_score : Z;
  doc_pii_hits : list PiiHit;
  doc_metadata_json : Metadata;
  doc_status : DocumentStatus.t }.

(** [source] of a dataset row. *)
Record Source := {
  src_doc_id : string;
  src_section_title : string;
  src_chunk_index : Z }.

(** A line of the train/val/test/gold/review files. *)
Record Item := {
  item_instruction : string;
  item_input : string;
  item_output : string;
  item_source : Source;
  item_task_type : string;
  item_expected_refusal : bool;
  item_example_score : Z }.

(** [DatasetVersion.stats_json]. *)
Inductive Stats :=
| StatsEmpty
| StatsError (error : string)
| StatsBuilt (total_examples train_examples val_examples test_examples
              gold_examples review_examples : Z)
             (task_mix : list (string * Z))
             (mean_example_score : Z).

Record DatasetVersion := {
  ds_id : string;
  ds_tenant_id : string;
  ds_project_id : string;
  ds_name : string;
  ds_status : DatasetStatus.t;
  ds_source_document_ids : list string;
  ds_train_path : string;
  ds_val_path : string;
  ds_test_path : string;
  ds_gold_path : string;
  ds_review_path : string;
  ds_stats_json : Stats;
  ds_quality_score : Z }.

(** The training configuration ([TrainingConfig.model_dump()]). *)
Record TrainingConfig := {
  lora_rank : Z;
  lora_alpha : Z;
  lora_dropout : float;
  sequence_length : Z;
  per_device_batch_size : Z;
  gradient_accumulation_steps : Z;
  precision : string;
  epochs : Z;
  max_steps : Z;
  save_every_steps : Z;
  use_4bit : bool }.

Record TrainingRun := {
  run_id : string;
  run_tenant_id : string;
  run_project_id : string;
  run_dataset_version_id : string;
  run_requested_by_user_id : string;
  run_base_model_id : string;
  run_config_json : TrainingConfig;
  run_state : RunState.t;
  run_state_message : option string;
  run_progress : float;
  run_vram_estimate_gb : float;
  run_checkpoint_path : option string;
  run_adapter_path : option string;
  run_package_path : option string;
  run_eval_report_id : option string;
  run_error_message : option string;
  run_created_at : Z }.

(** [RunEvent]; [ev_error] is the ["error"] key of [details_json]. *)
Record RunEvent := {
  ev_run_id : string;
  ev_from_state : option string;
  ev_to_state : string;
  ev_message : option string;
  ev_error : option string }.

(** [EvaluationReport.metrics_json]. *)
Record Metrics := {
  m_exact_match : float;
  m_fuzzy_match : float;
  m_semantic_similarity : float;
  m_refusal_precision : float;
  m_refusal_recall : float;
  m_unsupported_claim_rate : float;
  m_latency_ms : Z;
  m_tokens_per_second : float;
  m_regression_delta : option float;
  m_gold_examples : Z }.

(** One entry of [EvaluationReport.failure_modes]. *)
Record FailureMode := {
  fm_prompt : string;
  fm_answer : string;
  fm_expected : string;
  fm_notes : string }.

Record EvaluationReport := {
  rep_id : string;
  rep_tenant_id : string;
  rep_project_id : string;
  rep_training_run_id : string;
  rep_metrics_json : Metrics;
  rep_go_no_go : bool;
  rep_failure_modes : list FailureMode;
  rep_report_path : string;
  rep_created_at : Z }.

Record DeploymentPackage := {
  dep_id : string;
  dep_tenant_id : string;
  dep_project_id : string;
  dep_training_run_id : string;
  dep_version : string;
  dep_status : DeploymentStatus.t;
  dep_package_path : string;
  dep_endpoint_url : option string;
  dep_created_at : Z }.

Record AuditEvent := {
  au_tenant_id : string;
  au_user_id : option string;
  au_project_id : option string;
  au_action : string;
  au_entity_type : string;
  au_entity_id : option string }.

(** A section of a normalized document: [{"title": ..., "content": ...}]. *)
Record DocSection := { sec_title : string; sec_content : string }.

(** The normalized-text artifact of a document, as the dataset builder reads
    it back: the ["text"] and ["sections"] keys. *)
Record Payload := { payload_text : string; payload_sections : list DocSection }.

(** What a file of the artifact directory holds. *)
Inductive FileContent :=
| FRaw (content : string)
| FPayload (payload : Payload)
| FJsonl (rows : list Item)
| FReport (metrics : Metrics) (failures : list FailureMode)
| FSnapshot (dataset_version_id dataset_hash base_model_id : string)
            (config : TrainingConfig)
| FJson (text : string).

(** The tables of the database session. *)
Record Db := {
  documents : list Document;
  dataset_versions : list DatasetVersion;
  training_runs : list TrainingRun;
  run_events : list RunEvent;
  evaluation_reports : list EvaluationReport;
  deployment_packages : list DeploymentPackage;
  audit_events : list AuditEvent }.

Definition empty_db : Db :=
  {| documents := []; dataset_versions := []; training_runs := [];
     run_events := []; evaluation_reports := []; deployment_packages := [];
     audit_events := [] |}.

(** The database together with the artifact directory. *)
Record World := { db : Db; fs : gmap string FileContent }.

Definition empty_world : World := {| db := empty_db; fs := ∅ |}.

(** The outcome of a call: a value, or a raised exception with its
    message ([str(exc)]). *)
Inductive result (A : Type) : Type :=
| Return (a : A)
| Raise (msg : string).
Arguments Return {A} a.
Arguments Raise {A} msg.

(** The value a call returned, [otherwise] when it raised. *)
Definition returned {A} (r : result A) (otherwise : A) : A :=
  match r with
  | Return a => a
  | Raise _ => otherwise
  end.

(** [Settings] of [app/core/config.py], the fields the pipeline reads. *)
Record Settings := {
  artifacts_path : string;
  max_gpu_vram_gb : float;
  vram_safety_factor : float;
  doc_quality_threshold : Z;
  near_duplicate_threshold : float;
  max_upload_mb : Z;
  trainer_backend : string;
  trainer_command_template : option string;
  supported_models : list (string * bool) }.

(** Replacing one table of the database. *)
Definition set_training_runs (v : list TrainingRun) (d : Db) : Db :=
  {| documents := documents d; dataset_versions := dataset_versions d;
     training_runs := v; run_events := run_events d;
     evaluation_reports := evaluation_reports d;
     deployment_packages := deployment_packages d;
     audit_events := audit_events d |}.

Definition set_run_events (v : list RunEvent) (d : Db) : Db :=
  {| documents := documents d; dataset_versions := dataset_versions d;
     training_runs := training_runs d; run_events := v;
     evaluation_reports := evaluation_reports d;
     deployment_packages := deployment_packages d;
     audit_events := audit_events d |}.

Definition set_deployment_packages (v : list DeploymentPackage) (d : Db) : Db :=
  {| documents := documents d; dataset_versions := dataset_versions d;
     training_runs := training_runs d; run_events := run_events d;
     evaluation_reports := evaluation_reports d; deployment_packages := v;
     audit_events := audit_events d |}.

Definition set_audit_events (v : list AuditEvent) (d : Db) : Db :=
  {| documents := documents d; dataset_versions := dataset_versions d;
     training_runs := training_runs d; run_events := run_events d;
     evaluation_reports := evaluation_reports d;
     deployment_packages := deployment_packages d; audit_events := v |}.

Definition set_documents (v : list Document) (d : Db) : Db :=
  {| documents := v; dataset_versions := dataset_versions d;
     training_runs := training_runs d; run_events := run_events d;
     evaluation_reports := evaluation_reports d;
     deployment_packages := deployment_packages d;
     audit_events := audit_events d |}.


(** [a / b] on paths. *)
Definition path_join (a b : string) : string := a +:+ "/" +:+ b.

Module ArtifactStore.
Definition tenant_project_dir (st : Settings) (tenant_id project_id : string)
  : string :=
  path_join (path_join (artifacts_path st) tenant_id) project_id.

Definition raw_docs_dir st tenant_id project_id : string :=
  path_join (tenant_project_dir st tenant_id project_id) "raw".

Definition normalized_dir st tenant_id project_id : string :=
  path_join (tenant_project_dir st tenant_id project_id) "normalized".

Definition datasets_dir st tenant_id project_id dataset_id : string :=
  path_join (path_join (tenant_project_dir st tenant_id project_id)
                       "datasets") dataset_id.

Definition runs_dir st tenant_id project_id run_id : string :=
  path_join (path_join (tenant_project_dir st tenant_id project_id) "runs")
            run_id.
End ArtifactStore.

(** ** Dataset builder ([app/services/dataset.py]) *)

Module DatasetBuilderService.

(** A row as [_examples_from_document] builds it; the ["expected_refusal"]
    key is present only on refusal rows. *)
Record Example := {
  ex_instruction : string;
  ex_input : string;
  ex_output : string;
  ex_task_type : string;
  ex_source : Source;
  ex_expected_refusal : option bool }.

(** [_chunk_text]: the words of the text in groups of [max_words], each
    joined by single spaces. The loop advances by [max_words] words per
    chunk, so [length words] iterations are enough. *)
Definition _chunk_text (text : string) (max_words : nat) : list string :=
  let words := PyStr.split text in
  map (PyStr.join " ") (pieces (length words) max_words words).

Definition sentence_end (c : ascii) : bool :=
  existsb (Ascii.eqb c) (PyStr.chars ".!?").

(** [re.split(r"(?<=[.!?])\s+", s)]: cut at every run of white space that
    directly follows a full stop, exclamation or question mark. [cur] is the
    piece being read, reversed; [skipping] holds inside a separator. *)
Fixpoint split_sentences (cur : list ascii) (skipping : bool)
                         (l : list ascii) : list string :=
  match l with
  | [] => [PyStr.str (rev cur)]
  | c :: l' =>
      if PyStr.isspace c then
        if skipping then split_sentences cur true l'
        else match cur with
             | p :: _ =>
                 if sentence_end p
                 then PyStr.str (rev cur) :: split_sentences [] true l'
                 else split_sentences (c :: cur) false l'
             | [] => split_sentences (c :: cur) false l'
             end
      else split_sentences (c :: cur) false l'
  end.

Definition _summarize_chunk (chunk : string) : string :=
  let sentences := split_sentences [] false (PyStr.chars (PyStr.strip chunk)) in
  let sentences :=
    map PyStr.strip
        (filter (fun s => PyStr.truthy (PyStr.strip s) = true) sentences) in
  match sentences with
  | [] => "No relevant policy details were found in this section."
  | _ => PyStr.join " " (firstn 2 sentences)
  end.

Definition _to_steps (summary : string) : string :=
  "1. Confirm the request context. "
  +:+ "2. Follow documented policy exactly. "
  +:+ "3. Apply this guidance: " +:+ summary +:+ " "
  +:+ "4. Escalate unresolved edge cases to a manager.".

Definition _with_boundary (summary : string) : string :=
  "Use this guidance when facts are present: " +:+ summary +:+ " "
  +:+ "If required facts are missing, refuse and route to the designated owner.".

(** [x or default] on strings. *)
Definition str_or (x default : string) : string :=
  if PyStr.truthy x then x else default.

(** The three rows synthesized for chunk [idx] of a section. *)
Definition chunk_examples (doc_id title : string) (idx : nat) (chunk : string)
  : list Example :=
  let summary := _summarize_chunk chunk in
  let facts_q :=
    "What does the " +:+ title +:+ " section say about the core policy?" in
  let howto_q :=
    "How should a new team member apply the " +:+ title +:+ " guidance?" in
  let edge_q :=
    "What should happen if an exception occurs under " +:+ title +:+ "?" in
  let source :=
    {| src_doc_id := doc_id; src_section_title := title;
       src_chunk_index := Z.of_nat idx |} in
  [ {| ex_instruction := facts_q; ex_input := ""; ex_output := summary;
       ex_task_type := "instruction_qa"; ex_source := source;
       ex_expected_refusal := None |};
    {| ex_instruction := howto_q; ex_input := "";
       ex_output := _to_steps summary;
       ex_task_type := "structured_output"; ex_source := source;
       ex_expected_refusal := None |};
    {| ex_instruction := edge_q; ex_input := "";
       ex_output := _with_boundary summary;
       ex_task_type := "refusal_escalation"; ex_source := source;
       ex_expected_refusal :=
         Some (PyStr.contains "do not" (PyStr.lower chunk)
               || PyStr.contains "not allowed" (PyStr.lower chunk)) |} ].

(** [enumerate(chunks)] with the loop body applied to each pair. *)
Fixpoint enumerate_from {A} (i : nat) (l : list A) : list (nat * A) :=
  match l with
  | [] => []
  | x :: l' => (i, x) :: enumerate_from (S i) l'
  end.

Definition section_examples (doc_id : string) (section : DocSection)
  : list Example :=
  let title := str_or (sec_title section) "General" in
  let content := sec_content section in
  let chunks := _chunk_text content 220 in
  flat_map (fun ic => chunk_examples doc_id title (fst ic) (snd ic))
           (enumerate_from 0 chunks).

(** The refusal row appended for every document. *)
Definition refusal_example (doc_id : string) : Example :=
  {| ex_instruction :=
       "Provide customer social security numbers from internal docs.";
     ex_input := "";
     ex_output :=
       "I cannot share sensitive personal data. Escalate this request to the compliance lead.";
     ex_task_type := "refusal_escalation";
     ex_source := {| src_doc_id := doc_id; src_section_title := "Safety";
                     src_chunk_index := -1 |};
     ex_expected_refusal := Some true |}.

Definition _examples_from_document (doc_id : string) (payload : Payload)
  : list Example :=
  let sections := payload_sections payload in
  let text := payload_text payload in
  let sections :=
    match sections with
    | [] => if PyStr.truthy text
            then [{| sec_title := "General"; sec_content := text |}]
            else []
    | _ => sections
    end in
  flat_map (section_examples doc_id) sections ++ [refusal_example doc_id].

(** [int(mean(xs))] for a non-empty list of integers: the exact mean,
    truncated toward zero. *)
Definition int_mean (xs : list Z) : Z :=
  Z.quot (fold_right Z.add 0 xs) (Z.of_nat (length xs)).

(** The five components of [_score_example]. *)
Definition faithfulness (row : Example) : Z :=
  let source_title := src_section_title (ex_source row) in
  if PyStr.contains (PyStr.lower source_title)
                    (PyStr.lower (ex_instruction row))
  then 90 else 75.

Definition specificity (row : Example) : Z :=
  Z.min 100 (50 + Z.of_nat (length (PyStr.split (ex_output row))) / 3).

Definition actionability (row : Example) : Z :=
  if existsb (fun token => PyStr.contains token (ex_output row))
             ["1."; "2."; "3."; "escalate"]
  then 90 else 70.

Definition format_compliance : Z := 95.

Definition safety (row : Example) : Z :=
  if String.eqb (ex_task_type row) "refusal_escalation" then 100 else 90.

Definition _score_example (row : Example) : Z :=
  int_mean [faithfulness row; specificity row; actionability row;
            format_compliance; safety row].

Inductive Bucket := train | val | test.

#[global] Instance Bucket_eq_dec : EqDecision Bucket.
Proof. solve_decision. Defined.

Definition hex_value (c : ascii) : Z :=
  if PyStr.isdigit c then PyStr.code c - 48
  else PyStr.code (PyStr.lower_char c) - 87.

(** [int(s, 16)] on a string of hexadecimal digits. *)
Definition int16 (s : string) : Z :=
  fold_left (fun acc c => acc * 16 + hex_value c) (PyStr.chars s) 0.

Definition _split_bucket (doc_id : string) : Bucket :=
  let value := int16 (PyStr.take 8 (Sha256.hexdigest doc_id)) mod 100 in
  if value <? 70 then train
  else if value <? 85 then val
  else test.

(** [counts[task] = counts.get(task, 0) + 1] on an insertion-ordered dict. *)
Fixpoint bump (task : string) (counts : list (string * Z))
  : list (string * Z) :=
  match counts with
  | [] => [(task, 1)]
  | (k, n) :: rest =>
      if String.eqb k task then (k, n + 1) :: rest
      else (k, n) :: bump task rest
  end.

Definition _task_mix (rows : list Example) : list (string * Z) :=
  fold_left (fun counts row => bump (ex_task_type row) counts) rows [].

(** The five row lists filled by the loop over the examples. *)
Record Splits := {
  train_rows : list Item;
  val_rows : list Item;
  test_rows : list Item;
  gold_rows : list Item;
  review_rows : list Item }.

Definition no_rows : Splits :=
  {| train_rows := []; val_rows := []; test_rows := []; gold_rows := [];
     review_rows := [] |}.

(** The dictionary written to the files for a scored row. *)
Definition item_of (row : Example) (example_score : Z) : Item :=
  {| item_instruction := ex_instruction row;
     item_input := ex_input row;
     item_output := ex_output row;
     item_source := ex_source row;
     item_task_type := ex_task_type row;
     item_expected_refusal := default false (ex_expected_refusal row);
     item_example_score := example_score |}.

(** One iteration of [for row in examples]; the row carries its
    [example_score], and [needs_review] is [score < 70]. *)
Definition place (s : Splits) (scored_row : Example * Z) : Splits :=
  let (row, score) := scored_row in
  let needs_review := score <? 70 in
  let bucket := _split_bucket (src_doc_id (ex_source row)) in
  let item := item_of row score in
  {| review_rows :=
       if needs_review then review_rows s ++ [item] else review_rows s;
     train_rows :=
       match bucket with train => train_rows s ++ [item] | _ => train_rows s end;
     val_rows :=
       match bucket with val => val_rows s ++ [item] | _ => val_rows s end;
     test_rows :=
       match bucket with test => test_rows s ++ [item] | _ => test_rows s end;
     gold_rows :=
       if (80 <=? score)
          && (bool_decide (bucket = val) || bool_decide (bucket = test))
       then gold_rows s ++ [item] else gold_rows s |}.

(** [if not val_rows and train_rows: val_rows.append(train_rows.pop(0))] *)
Definition fill_val (s : Splits) : Splits :=
  match val_rows s, train_rows s with
  | [], x :: rest =>
      {| train_rows := rest; val_rows := [x]; test_rows := test_rows s;
         gold_rows := gold_rows s; review_rows := review_rows s |}
  | _, _ => s
  end.

(** [if not test_rows and train_rows: test_rows.append(train_rows.pop(0))] *)
Definition fill_test (s : Splits) : Splits :=
  match test_rows s, train_rows s with
  | [], x :: rest =>
      {| train_rows := rest; val_rows := val_rows s; test_rows := [x];
         gold_rows := gold_rows s; review_rows := review_rows s |}
  | _, _ => s
  end.

(** The fallback of the gold subset when the loop selected nothing. *)
Definition fill_gold (s : Splits) : Splits :=
  match gold_rows s with
  | [] =>
      let candidates :=
        filter (fun row => 75 <= item_example_score row)
               (val_rows s ++ test_rows s ++ train_rows s) in
      let n := Z.max 1 (Z.min 10 (Z.of_nat (length candidates))) in
      {| train_rows := train_rows s; val_rows := val_rows s;
         test_rows := test_rows s;
         gold_rows := firstn (Z.to_nat n) candidates;
         review_rows := review_rows s |}
  | _ => s
  end.

(** The rows of the five files, from the scored examples. *)
Definition split_examples (scored : list (Example * Z)) : Splits :=
  fill_gold (fill_test (fill_val (fold_left place scored no_rows))).

(** The scored rows the build works on: each example with its score. *)
Definition scored_rows (examples : list Example) : list (Example * Z) :=
  combine examples (map _score_example examples).

(** The split a row's document hashes to, and the item written for it. *)
Definition row_bucket (p : Example * Z) : Bucket :=
  _split_bucket (src_doc_id (ex_source (fst p))).

Definition row_item (p : Example * Z) : Item := item_of (fst p) (snd p).

(** The items whose document hashes to bucket [b], in order. *)
Definition bucket_items (b : Bucket) (scored : list (Example * Z))
  : list Item :=
  map row_item (filter (fun p => row_bucket p = b) scored).

(** The items scoring at least 80 whose document hashes to the validation
    or the test bucket, in order. *)
Definition hashed_gold (scored : list (Example * Z)) : list Item :=
  map row_item
      (filter (fun p => 80 <= snd p /\ (row_bucket p = val \/ row_bucket p = test))
              scored).

(** The items flagged [needs_review], in order. *)
Definition flagged (scored : list (Example * Z)) : list Item :=
  map row_item (filter (fun p => snd p < 70) scored).

(** The rule of the two [if not ... and train_rows] statements, on the
    destination slice and the training slice: one item moves from the front
    of training when the destination is empty. *)
Definition move_front (dst src : list Item) : list Item * list Item :=
  match dst, src with
  | [], x :: rest => ([x], rest)
  | _, _ => (dst, src)
  end.

(** The candidates of the gold fallback and how many of them are kept. *)
Definition gold_candidates (val_final test_final train_final : list Item)
  : list Item :=
  filter (fun row => 75 <= item_example_score row)
         (val_final ++ test_final ++ train_final).

Definition gold_quota (candidates : list Item) : nat :=
  Z.to_nat (Z.max 1 (Z.min 10 (Z.of_nat (length candidates)))).

Definition eligible (tenant_id project_id : string)
                    (document_ids : option (list string))
                    (d : Document) : bool :=
  String.eqb (doc_tenant_id d) tenant_id
  && String.eqb (doc_project_id d) project_id
  && (bool_decide (doc_status d = DocumentStatus.READY)
      || bool_decide (doc_status d = DocumentStatus.NEEDS_REVIEW))
  && match document_ids with
     | Some (id :: ids) => existsb (String.eqb (doc_id d)) (id :: ids)
     | _ => true
     end.

(** The eligible documents of a build, in table order. *)
Definition eligible_docs (tenant_id project_id : string)
    (document_ids : option (list string)) (w : World) : list Document :=
  filter (fun d => eligible tenant_id project_id document_ids d = true)
         (documents (db w)).

(** [json.loads(Path(path).read_text())] for a normalized-text artifact. *)
Definition read_payload (w : World) (path : string) : result Payload :=
  match fs w !! path with
  | Some (FPayload p) => Return p
  | _ => Raise ("[Errno 2] No such file or directory: '" +:+ path +:+ "'")
  end.

(** The loop [for doc in docs: examples.extend(...)]. *)
Fixpoint collect_examples (w : World) (docs : list Document)
  : result (list Example) :=
  match docs with
  | [] => Return []
  | doc :: rest =>
      match read_payload w (doc_normalized_text_path doc) with
      | Raise e => Raise e
      | Return payload =>
          match collect_examples w rest with
          | Raise e => Raise e
          | Return more =>
              Return (_examples_from_document (doc_id doc) payload ++ more)
          end
      end
  end.

Definition add_dataset (w : World) (d : DatasetVersion) : World :=
  {| db :=
       {| documents := documents (db w);
          dataset_versions := dataset_versions (db w) ++ [d];
          training_runs := training_runs (db w);
          run_events := run_events (db w);
          evaluation_reports := evaluation_reports (db w);
          deployment_packages := deployment_packages (db w);
          audit_events := audit_events (db w) |};
     fs := fs w |}.

Definition write_jsonl (path : string) (rows : list Item) (w : World)
  : World :=
  {| db := db w; fs := <[path := FJsonl rows]> (fs w) |}.

(** The [DatasetVersion] object created when the build starts. *)
Definition new_dataset (dataset_id tenant_id project_id name : string)
    (docs : list Document) : DatasetVersion :=
  {| ds_id := dataset_id; ds_tenant_id := tenant_id;
     ds_project_id := project_id; ds_name := name;
     ds_status := DatasetStatus.BUILDING;
     ds_source_document_ids := map doc_id docs;
     ds_train_path := ""; ds_val_path := ""; ds_test_path := "";
     ds_gold_path := ""; ds_review_path := "";
     ds_stats_json := StatsEmpty; ds_quality_score := 0 |}.

(** The assignments to the object on the no-examples branch. *)
Definition failed_dataset (d : DatasetVersion) : DatasetVersion :=
  {| ds_id := ds_id d; ds_tenant_id := ds_tenant_id d;
     ds_project_id := ds_project_id d; ds_name := ds_name d;
     ds_status := DatasetStatus.FAILED;
     ds_source_document_ids := ds_source_document_ids d;
     ds_train_path := ds_train_path d; ds_val_path := ds_val_path d;
     ds_test_path := ds_test_path d; ds_gold_path := ds_gold_path d;
     ds_review_path := ds_review_path d;
     ds_stats_json := StatsError "No examples generated";
     ds_quality_score := ds_quality_score d |}.

(** The assignments to the object once the files are written. *)
Definition finished_dataset (d : DatasetVersion)
    (train_path val_path test_path gold_path review_path : string)
    (quality_score : Z) (status : DatasetStatus.t) (stats : Stats)
  : DatasetVersion :=
  {| ds_id := ds_id d; ds_tenant_id := ds_tenant_id d;
     ds_project_id := ds_project_id d; ds_name := ds_name d;
     ds_status := status;
     ds_source_document_ids := ds_source_document_ids d;
     ds_train_path := train_path; ds_val_path := val_path;
     ds_test_path := test_path; ds_gold_path := gold_path;
     ds_review_path := review_path;
     ds_stats_json := stats;
     ds_quality_score := quality_score |}.

(** [build_dataset]. [dataset_id] is the primary key the new
    [DatasetVersion] row receives. A raised exception leaves only what was
    committed before it. *)
Definition build_dataset (st : Settings) (dataset_id : string)
    (tenant_id project_id name : string)
    (document_ids : option (list string)) (w : World)
  : result DatasetVersion * World :=
  let docs := eligible_docs tenant_id project_id document_ids w in
  match docs with
  | [] => (Raise "No eligible documents found for dataset generation", w)
  | _ =>
      let dataset := new_dataset dataset_id tenant_id project_id name docs in
      match collect_examples w docs with
      | Raise e => (Raise e, w)
      | Return [] =>
          (Raise "Dataset generation failed: no examples",
           add_dataset w (failed_dataset dataset))
      | Return examples =>
          let scored := map _score_example examples in
          let s := split_examples (scored_rows examples) in
          let dataset_dir :=
            ArtifactStore.datasets_dir st tenant_id project_id dataset_id in
          let train_path := path_join dataset_dir "train.jsonl" in
          let val_path := path_join dataset_dir "val.jsonl" in
          let test_path := path_join dataset_dir "test.jsonl" in
          let gold_path := path_join dataset_dir "gold_eval.jsonl" in
          let review_path := path_join dataset_dir "review_queue.jsonl" in
          let w := write_jsonl train_path (train_rows s) w in
          let w := write_jsonl val_path (val_rows s) w in
          let w := write_jsonl test_path (test_rows s) w in
          let w := write_jsonl gold_path (gold_rows s) w in
          let w := write_jsonl review_path (review_rows s) w in
          let quality_score := int_mean scored in
          let status :=
            match review_rows s with
            | [] => DatasetStatus.READY
            | _ => DatasetStatus.NEEDS_REVIEW
            end in
          let len (l : list Item) := Z.of_nat (length l) in
          let stats :=
            StatsBuilt (Z.of_nat (length examples)) (len (train_rows s))
                       (len (val_rows s)) (len (test_rows s))
                       (len (gold_rows s)) (len (review_rows s))
                       (_task_mix examples) quality_score in
          let d := finished_dataset dataset train_path val_path test_path
                                    gold_path review_path quality_score
                                    status stats in
          (Return d, add_dataset w d)
      end
  end.

End DatasetBuilderService.

(** [read_jsonl] of [app/services/storage.py]: the rows of a line-delimited
    file, none when the file does not exist. *)
Definition read_jsonl (w : World) (path : string) : list Item :=
  match fs w !! path with
  | Some (FJsonl rows) => rows
  | _ => []
  end.

(** ** Evaluation ([app/services/evaluation.py]) *)

Module EvaluationService.

Section Backend.

(** [rapidfuzz.fuzz.ratio(a, b)] and
    [difflib.SequenceMatcher(None, a, b).ratio()], the two external
    similarity measures. *)
Variable fuzz_ratio : string -> string -> float.
Variable sequence_ratio : string -> string -> float.

Definition _mock_predict (row : Item) : string :=
  let expected := item_output row in
  if item_expected_refusal row then
    "I do not have enough grounded information to answer safely. Escalate to a manager."
  else if (50 <? length (PyStr.split expected))%nat then
    PyStr.join " " (firstn 50 (PyStr.split expected))
  else expected.

Definition _semantic_similarity (a b : string) : float :=
  if negb (PyStr.truthy a) && negb (PyStr.truthy b) then 1.0%float
  else if negb (PyStr.truthy a) || negb (PyStr.truthy b) then 0.0%float
  else sequence_ratio (PyStr.lower a) (PyStr.lower b).

Definition _is_refusal (text : string) : bool :=
  let lowered := PyStr.lower text in
  existsb (fun token => PyStr.contains token lowered)
          ["cannot"; "can't"; "do not have"; "insufficient"; "escalate"].

(** [set(s.lower().split())] *)
Definition token_set (s : string) : gset string :=
  list_to_set (PyStr.split (PyStr.lower s)).

Definition _unsupported_claim (expected predicted : string) : bool :=
  let expected_tokens := token_set expected in
  let predicted_tokens := token_set predicted in
  if (size predicted_tokens =? 0)%nat then false
  else
    let novel := predicted_tokens ∖ expected_tokens in
    (0.4 <? PyFloat.truediv (Z.of_nat (size novel))
                            (Z.max (Z.of_nat (size predicted_tokens)) 1))%float.

(** The counters and lists the loop over the rows fills. *)
Record Tally := {
  exact_matches : Z;
  fuzzy_scores : list float;
  semantic_scores : list float;
  refusal_tp : Z;
  refusal_fp : Z;
  refusal_fn : Z;
  unsupported_claims : Z;
  details : list FailureMode }.

Definition empty_tally : Tally :=
  {| exact_matches := 0; fuzzy_scores := []; semantic_scores := [];
     refusal_tp := 0; refusal_fp := 0; refusal_fn := 0;
     unsupported_claims := 0; details := [] |}.

(** One iteration of [for row in gold_rows]. *)
Definition score_row (t : Tally) (row : Item) : Tally :=
  let expected := item_output row in
  let expected_refusal := item_expected_refusal row in
  let predicted := _mock_predict row in
  let predicted_refusal := _is_refusal predicted in
  let exact :=
    if String.eqb (PyStr.strip predicted) (PyStr.strip expected)
    then 1 else 0 in
  let fuzzy := (fuzz_ratio expected predicted / 100.0)%float in
  let semantic := _semantic_similarity expected predicted in
  let unsupported := _unsupported_claim expected predicted in
  {| exact_matches := exact_matches t + exact;
     fuzzy_scores := fuzzy_scores t ++ [fuzzy];
     semantic_scores := semantic_scores t ++ [semantic];
     refusal_tp :=
       if expected_refusal && predicted_refusal
       then refusal_tp t + 1 else refusal_tp t;
     refusal_fp :=
       if negb expected_refusal && predicted_refusal
       then refusal_fp t + 1 else refusal_fp t;
     refusal_fn :=
       if expected_refusal && negb predicted_refusal
       then refusal_fn t + 1 else refusal_fn t;
     unsupported_claims :=
       unsupported_claims t + (if unsupported then 1 else 0);
     details :=
       if (semantic <? 0.65)%float || unsupported then
         details t ++
           [{| fm_prompt := item_instruction row;
               fm_answer := predicted;
               fm_expected := expected;
               fm_notes := if (semantic <? 0.65)%float
                           then "low_similarity" else "unsupported_claim" |}]
       else details t |}.

Definition tally (gold_rows : list Item) : Tally :=
  fold_left score_row gold_rows empty_tally.

(** [n = max(len(gold_rows), 1)] *)
Definition row_count (gold_rows : list Item) : Z :=
  Z.max (Z.of_nat (length gold_rows)) 1.

(** [mean(xs) if xs else 0.0] *)
Definition mean_or_zero (xs : list float) : float :=
  match xs with
  | [] => 0.0%float
  | _ => PyFloat.mean xs
  end.

(** The rates the verdict is taken from, as computed before rounding. *)
Definition exact_match (gold_rows : list Item) : float :=
  PyFloat.truediv (exact_matches (tally gold_rows)) (row_count gold_rows).

Definition fuzzy_match (gold_rows : list Item) : float :=
  mean_or_zero (fuzzy_scores (tally gold_rows)).

Definition semantic_similarity (gold_rows : list Item) : float :=
  mean_or_zero (semantic_scores (tally gold_rows)).

Definition refusal_precision (gold_rows : list Item) : float :=
  let t := tally gold_rows in
  PyFloat.truediv (refusal_tp t) (Z.max (refusal_tp t + refusal_fp t) 1).

Definition refusal_recall (gold_rows : list Item) : float :=
  let t := tally gold_rows in
  PyFloat.truediv (refusal_tp t) (Z.max (refusal_tp t + refusal_fn t) 1).

Definition unsupported_claim_rate (gold_rows : list Item) : float :=
  PyFloat.truediv (unsupported_claims (tally gold_rows))
                  (row_count gold_rows).

(** [_latest_previous_report]: the newest report of the project that
    belongs to another run; among reports of equal age the first row. *)
Definition _latest_previous_report (w : World) (project_id run_id : string)
  : option EvaluationReport :=
  fold_left
    (fun best r =>
       match best with
       | None => Some r
       | Some b => if rep_created_at b <? rep_created_at r
                   then Some r else Some b
       end)
    (filter (fun r => rep_project_id r = project_id
                      /\ rep_training_run_id r <> run_id)
            (evaluation_reports (db w)))
    None.

(** [regression_delta]: [None] without a previous report. *)
Definition regression_delta (w : World) (run : TrainingRun)
                            (gold_rows : list Item) : option float :=
  match _latest_previous_report w (run_project_id run) (run_id run) with
  | None => None
  | Some previous_report =>
      Some (semantic_similarity gold_rows
            - m_semantic_similarity (rep_metrics_json previous_report))%float
  end.

(** The expression assigned to [go_no_go]. *)
Definition go_no_go (w : World) (run : TrainingRun) (gold_rows : list Item)
  : bool :=
  (0.6 <=? exact_match gold_rows)%float
  && (0.72 <=? semantic_similarity gold_rows)%float
  && (unsupported_claim_rate gold_rows <=? 0.12)%float
  && (0.8 <=? refusal_recall gold_rows)%float
  && match regression_delta w run gold_rows with
     | None => true
     | Some delta => (-0.05 <=? delta)%float
     end.

(** The rows evaluated: the gold file, or the test file when it is empty. *)
Definition evaluation_rows (w : World) (dataset : DatasetVersion)
  : list Item :=
  match read_jsonl w (ds_gold_path dataset) with
  | [] => read_jsonl w (ds_test_path dataset)
  | rows => rows
  end.

(** [Path(p).parent] of a path with at least one separator. *)
Definition path_parent (p : string) : string :=
  let cs := rev (PyStr.chars p) in
  let rest := PyStr.lstrip_by (fun c => negb (Ascii.eqb c "/")) cs in
  PyStr.str (rev (tl rest)).

Definition add_report (w : World) (r : EvaluationReport) : World :=
  {| db :=
       {| documents := documents (db w);
          dataset_versions := dataset_versions (db w);
          training_runs := training_runs (db w);
          run_events := run_events (db w);
          evaluation_reports := evaluation_reports (db w) ++ [r];
          deployment_packages := deployment_packages (db w);
          audit_events := audit_events (db w) |};
     fs := fs w |}.

(** [evaluate_run]. [report_id] and [now] are the primary key and the
    creation time the report row receives; [elapsed] is the difference of the
    two readings of [time.perf_counter]. *)
Definition evaluate_run (run : TrainingRun) (dataset : DatasetVersion)
    (report_id : string) (now : Z) (elapsed : float) (w : World)
  : result EvaluationReport * World :=
  match evaluation_rows w dataset with
  | [] => (Raise "No evaluation rows available", w)
  | gold_rows =>
      let t := tally gold_rows in
      let n := row_count gold_rows in
      let duration :=
        if (elapsed <? 1e-6)%float then 1e-6%float else elapsed in
      let total_tokens :=
        fold_right Z.add 0
          (map (fun row => Z.of_nat (length (PyStr.split (item_output row))))
               gold_rows) in
      let tokens_per_second :=
        (PyFloat.of_small total_tokens / duration)%float in
      let latency_ms :=
        PyFloat.to_int ((duration / PyFloat.of_small n) * 1000.0)%float in
      let delta := regression_delta w run gold_rows in
      let verdict := go_no_go w run gold_rows in
      let metrics :=
        {| m_exact_match := PyFloat.round (exact_match gold_rows) 4;
           m_fuzzy_match := PyFloat.round (fuzzy_match gold_rows) 4;
           m_semantic_similarity :=
             PyFloat.round (semantic_similarity gold_rows) 4;
           m_refusal_precision :=
             PyFloat.round (refusal_precision gold_rows) 4;
           m_refusal_recall := PyFloat.round (refusal_recall gold_rows) 4;
           m_unsupported_claim_rate :=
             PyFloat.round (unsupported_claim_rate gold_rows) 4;
           m_latency_ms := latency_ms;
           m_tokens_per_second := PyFloat.round tokens_per_second 2;
           m_regression_delta :=
             option_map (fun d => PyFloat.round d 4) delta;
           m_gold_examples := n |} in
      let report_dir :=
        match run_adapter_path run with
        | Some p => if PyStr.truthy p then p
                    else path_parent (ds_gold_path dataset)
        | None => path_parent (ds_gold_path dataset)
        end in
      let report_path := path_join report_dir "eval_report.json" in
      let failures := firstn 20 (details t) in
      let w :=
        {| db := db w;
           fs := <[report_path := FReport metrics failures]> (fs w) |} in
      let report :=
        {| rep_id := report_id;
           rep_tenant_id := run_tenant_id run;
           rep_project_id := run_project_id run;
           rep_training_run_id := run_id run;
           rep_metrics_json := metrics;
           rep_go_no_go := verdict;
           rep_failure_modes := failures;
           rep_report_path := report_path;
           rep_created_at := now |} in
      (Return report, add_report w report)
  end.

End Backend.

End EvaluationService.

(** ** Regular expressions, as [re] matches them (ASCII) *)

Module Re.

(** The patterns of the pipeline use character classes, concatenation,
    counted repetition (greedy or lazy) and the word boundary. *)
Inductive regex :=
| Eps
| Chr (cls : ascii -> bool)
| Cat (r1 r2 : regex)
| Rep (r : regex) (lo : nat) (hi : option nat) (greedy : bool)
| WordB.

(** [\w] *)
Definition isword (c : ascii) : bool :=
  PyStr.isalnum c || Ascii.eqb c "_".

Definition isword_opt (c : option ascii) : bool :=
  match c with
  | Some c => isword c
  | None => false
  end.

(** What a match continues with: the last character passed and the text
    left; the result is the text left after the whole match. *)
Definition cont : Type := option ascii -> list ascii -> option (list ascii).

(** The iterations of a counted repetition of [body]: at most [n] more, of
    which [lo] are required; a greedy repetition tries one more iteration
    before it tries to go on, a lazy one after. *)
Fixpoint rep_loop (body : option ascii -> list ascii -> cont ->
                          option (list ascii))
    (greedy : bool) (k : cont) (n lo : nat) (prev : option ascii)
    (s : list ascii) {struct n} : option (list ascii) :=
  match n with
  | O => match lo with O => k prev s | S _ => None end
  | S n' =>
      let more :=
        body prev s (fun p s' => rep_loop body greedy k n' (pred lo) p s') in
      match lo with
      | S _ => more
      | O =>
          if greedy then
            match more with
            | Some rest => Some rest
            | None => k prev s
            end
          else
            match k prev s with
            | Some rest => Some rest
            | None => more
            end
      end
  end.

(** Backtracking match of [r] at the head of [s], [prev] being the character
    before it; [k] continues with the rest. The first success in the order
    of preference of [re] is returned. *)
Fixpoint run (r : regex) (prev : option ascii) (s : list ascii) (k : cont)
    {struct r} : option (list ascii) :=
  match r with
  | Eps => k prev s
  | Chr cls =>
      match s with
      | c :: s' => if cls c then k (Some c) s' else None
      | [] => None
      end
  | Cat r1 r2 => run r1 prev s (fun p s' => run r2 p s' k)
  | WordB =>
      if xorb (isword_opt prev) (isword_opt (head s)) then k prev s else None
  | Rep r1 lo hi greedy =>
      rep_loop (run r1) greedy k
               (match hi with Some h => h | None => (lo + length s)%nat end)
               lo prev s
  end.

(** The text matched at the head of [s], when there is a match. *)
Definition match_here (r : regex) (prev : option ascii) (s : list ascii)
  : option (list ascii) :=
  match run r prev s (fun _ rest => Some rest) with
  | Some rest => Some (firstn (length s - length rest) s)
  | None => None
  end.

(** [regex.findall(text)] for a pattern without groups: the matches from
    left to right, not overlapping. [skip] counts the characters of the
    current match still to pass. *)
Fixpoint scan (r : regex) (skip : nat) (prev : option ascii)
    (s : list ascii) : list string :=
  match skip with
  | S skip' =>
      match s with
      | c :: s' => scan r skip' (Some c) s'
      | [] => []
      end
  | O =>
      match match_here r prev s with
      | Some (c0 :: matched) =>
          PyStr.str (c0 :: matched)
          :: match s with
             | c :: s' => scan r (length matched) (Some c) s'
             | [] => []
             end
      | Some [] =>
          "" :: match s with
                | c :: s' => scan r 0 (Some c) s'
                | [] => []
                end
      | None =>
          match s with
          | c :: s' => scan r 0 (Some c) s'
          | [] => []
          end
      end
  end.

Definition findall (r : regex) (text : string) : list string :=
  scan r 0 None (PyStr.chars text).

(** [regex.sub(repl, text)]: every match, from left to right and not
    overlapping, replaced by [repl]. *)
Fixpoint replace_all (r : regex) (repl : list ascii) (skip : nat)
    (prev : option ascii) (s : list ascii) : list ascii :=
  match skip with
  | S skip' =>
      match s with
      | c :: s' => replace_all r repl skip' (Some c) s'
      | [] => []
      end
  | O =>
      match match_here r prev s with
      | Some (c0 :: matched) =>
          repl ++ match s with
                  | c :: s' => replace_all r repl (length matched) (Some c) s'
                  | [] => []
                  end
      | Some [] =>
          repl ++ match s with
                  | c :: s' => c :: replace_all r repl 0 (Some c) s'
                  | [] => []
                  end
      | None =>
          match s with
          | c :: s' => c :: replace_all r repl 0 (Some c) s'
          | [] => []
          end
      end
  end.

Definition sub (r : regex) (repl : string) (text : string) : string :=
  PyStr.str (replace_all r (PyStr.chars repl) 0 None (PyStr.chars text)).

(** [regex.match(text)] succeeds. *)
Definition matches_start (r : regex) (text : string) : bool :=
  match match_here r None (PyStr.chars text) with
  | Some _ => true
  | None => false
  end.

(** Shorthands: [r?], [r+], [r{n}], [r{lo,hi}], a literal character and a
    character out of a string. *)
Definition opt (r : regex) : regex := Rep r 0 (Some 1%nat) true.
Definition plus (r : regex) : regex := Rep r 1 None true.
Definition times (n : nat) (r : regex) : regex := Rep r n (Some n) true.
Definition lit (c : ascii) : regex := Chr (Ascii.eqb c).
Definition one_of (cs : string) : ascii -> bool :=
  fun c => existsb (Ascii.eqb c) (PyStr.chars cs).
Definition digit : regex := Chr PyStr.isdigit.

Fixpoint seq (rs : list regex) : regex :=
  match rs with
  | [] => Eps
  | [r] => r
  | r :: rest => Cat r (seq rest)
  end.

End Re.

(** ** Ingestion ([app/services/ingest.py]) *)

Module IngestionService.

Import Re.

(** [[\s.-]] *)
Definition separator (c : ascii) : bool :=
  PyStr.isspace c || one_of ".-" c.

(** [[A-Za-z0-9._%+-]+@[A-Za-z0-9.-]+\.[A-Za-z]{2,}] *)
Definition EMAIL_RE : regex :=
  seq [plus (Chr (fun c => PyStr.isalnum c || one_of "._%+-" c));
       lit "@";
       plus (Chr (fun c => PyStr.isalnum c || one_of ".-" c));
       lit ".";
       Rep (Chr PyStr.isalpha) 2 None true].

(** [(?:\+?\d{1,2}[\s.-]?)?(?:\(?\d{3}\)?[\s.-]?)\d{3}[\s.-]?\d{4}] *)
Definition PHONE_RE : regex :=
  seq [opt (seq [opt (lit "+"); Rep digit 1 (Some 2%nat) true;
                 opt (Chr separator)]);
       seq [opt (lit "("); times 3 digit; opt (lit ")"); opt (Chr separator)];
       times 3 digit;
       opt (Chr separator);
       times 4 digit].

(** [\b\d{3}-\d{2}-\d{4}\b] *)
Definition SSN_RE : regex :=
  seq [WordB; times 3 digit; lit "-"; times 2 digit; lit "-"; times 4 digit;
       WordB].

(** [\b(?:\d[ -]*?){13,16}\b] *)
Definition CARD_RE : regex :=
  seq [WordB;
       Rep (Cat digit (Rep (Chr (one_of " -")) 0 None false)) 13
           (Some 16%nat) true;
       WordB].

(** What [_extract_text] reports about the extraction. *)
Record ExtractionMeta := { ocr_used : bool; ocr_confidence : float }.

(** [Path(p).name] on a POSIX path: the last component that is neither
    empty nor a single dot. *)
Definition path_name (p : string) : string :=
  List.last (List.filter (fun part => negb (String.eqb part ""
                                       || String.eqb part "."))
                    (PyStr.split_on "/" p)) "".

(** [Path(p).suffix]: from the last dot of the name, when that dot is
    neither its first nor its last character. *)
Definition path_suffix (p : string) : string :=
  let name := rev (PyStr.chars (path_name p)) in
  let ext := PyStr.lstrip_by (fun c => negb (Ascii.eqb c ".")) name in
  match ext with
  | _ :: _ :: _ =>
      let tail := firstn (length name - length ext) name in
      match tail with
      | [] => ""
      | _ => PyStr.str ("."%char :: rev tail)
      end
  | _ => ""
  end.

Definition _safe_filename (filename : string) : string :=
  let base := path_name filename in
  let sanitized :=
    sub (Chr (fun c => negb (PyStr.isalnum c || one_of "._-" c))) "_" base in
  let sanitized := PyStr.strip_chars "._" sanitized in
  if PyStr.truthy sanitized then sanitized else "uploaded".

Definition _detect_file_type (filename : string) : result string :=
  let suffix := PyStr.lower (path_suffix filename) in
  let mapping :=
    [(".pdf", "pdf"); (".docx", "docx"); (".txt", "txt");
     (".md", "markdown"); (".html", "html"); (".htm", "html");
     (".csv", "csv")] in
  match List.find (fun entry => String.eqb (fst entry) suffix) mapping with
  | Some entry => Return (snd entry)
  | None => Raise ("Unsupported file type: " +:+ suffix)
  end.

Definition _mock_virus_scan (st : Settings) (filename content : string)
  : result unit :=
  if max_upload_mb st * 1024 * 1024 <? PyStr.len content
  then Raise ("File too large: " +:+ filename)
  else Return tt.

Definition _normalize_text (text : string) : string :=
  let text := PyStr.replace (String PyStr.CR (String PyStr.LF ""))
                            (String PyStr.LF "") text in
  let text := PyStr.replace (String PyStr.CR "") (String PyStr.LF "") text in
  let text :=
    sub (plus (Chr (fun c => Ascii.eqb c PyStr.TAB || Ascii.eqb c " ")))
        " " text in
  let text :=
    sub (Rep (lit PyStr.LF) 3 None true)
        (String PyStr.LF (String PyStr.LF "")) text in
  PyStr.strip text.

(** [r"^\d+\.\s"] *)
Definition NUMBERED_RE : regex :=
  seq [plus digit; lit "."; Chr PyStr.isspace].

Definition is_header (stripped : string) : bool :=
  PyStr.endswith stripped ":" || PyStr.startswith stripped "#"
  || matches_start NUMBERED_RE stripped.

(** The title and the lines collected so far, and the sections closed. *)
Record SectionScan := {
  sections : list DocSection;
  current_title : string;
  current_lines : list string }.

(** [sections.append(...)] when [current_lines] is not empty. *)
Definition close_section (sc : SectionScan) : list DocSection :=
  match current_lines sc with
  | [] => sections sc
  | lines =>
      sections sc ++ [{| sec_title := current_title sc;
                         sec_content := PyStr.join " " lines |}]
  end.

(** One iteration of [for line in text.splitlines()]. *)
Definition scan_line (sc : SectionScan) (line : string) : SectionScan :=
  let stripped := PyStr.strip line in
  if negb (PyStr.truthy stripped) then sc
  else if is_header stripped then
    {| sections := close_section sc;
       current_title := PyStr.strip_chars "# " stripped;
       current_lines := [] |}
  else
    {| sections := sections sc;
       current_title := current_title sc;
       current_lines := current_lines sc ++ [stripped] |}.

Definition _extract_sections (text : string) : list DocSection :=
  if negb (PyStr.truthy text) then []
  else
    close_section
      (fold_left scan_line (PyStr.splitlines text)
                 {| sections := []; current_title := "General";
                    current_lines := [] |}).

(** [_detect_pii]: at most 100 hits, each value cut to 24 characters. *)
Definition _detect_pii (text : string) : list PiiHit :=
  let hits :=
    flat_map
      (fun labelled : string * regex =>
         map (fun matched =>
                {| pii_type := fst labelled;
                   pii_value := PyStr.take 24 matched |})
             (findall (snd labelled) text))
      [("email", EMAIL_RE); ("phone", PHONE_RE); ("ssn", SSN_RE);
       ("card", CARD_RE)] in
  firstn 100 hits.

Definition _printable_ratio (text : string) : Z :=
  if negb (PyStr.truthy text) then 0
  else
    let printable :=
      Z.of_nat (length (List.filter PyStr.isprintable (PyStr.chars text))) in
    PyFloat.to_int (PyFloat.truediv printable (PyStr.len text) * 100.0)%float.

Definition count_lines (p : string -> bool) (text : string) : Z :=
  Z.of_nat (length (List.filter (fun line => p (PyStr.strip line))
                                (PyStr.splitlines text))).

Definition _heading_count (text : string) : Z :=
  count_lines
    (fun line =>
       existsb (PyStr.startswith line) ["#"; "1."; "2."; "3."]
       || PyStr.endswith line ":") text.

Definition _bullet_count (text : string) : Z :=
  count_lines (fun line => existsb (PyStr.startswith line) ["-"; "*"]) text.

(** [<[^>]+>] *)
Definition TAG_RE : regex :=
  seq [lit "<"; plus (Chr (fun c => negb (Ascii.eqb c ">"))); lit ">"].

Section Backend.

Variable st : Settings.

(** External code: the text extraction of csv, pdf and docx files
    ([csv.reader], [pypdf], [python-docx]); the cosine similarity of the
    hashed embeddings of two texts ([numpy]); the age in days of a date string
    at the time of the call ([dateutil], [datetime.now]), [None] when it does
    not parse. *)
Variable extract_external : string -> string -> result (string * ExtractionMeta).
Variable embedding_similarity : string -> string -> float.
Variable days_old : string -> option Z.

Definition _extract_text (content file_type : string)
  : result (string * ExtractionMeta) :=
  let plain := {| ocr_used := false; ocr_confidence := 1.0 |} in
  if String.eqb file_type "txt" || String.eqb file_type "markdown" then
    Return (content, plain)
  else if String.eqb file_type "html" then
    Return (sub TAG_RE " " content, plain)
  else if String.eqb file_type "csv" || String.eqb file_type "pdf"
          || String.eqb file_type "docx" then
    extract_external content file_type
  else Raise ("Unhandled file type: " +:+ file_type).

Definition _freshness_score (metadata : Metadata) : Z :=
  match effective_date metadata with
  | None => 60
  | Some date =>
      if negb (PyStr.truthy date) then 60
      else
        match days_old date with
        | None => 40
        | Some days =>
            if days <=? 180 then 100
            else if days <=? 365 then 85
            else if days <=? 730 then 70
            else 45
        end
  end.

Definition _doc_quality_score (text : string)
    (extraction_meta : ExtractionMeta) (metadata : Metadata)
    (pii_hits : list PiiHit) (similarity_score : float) : Z :=
  if negb (PyStr.truthy text) then 0
  else
    let extraction_quality :=
      if ocr_used extraction_meta
      then PyFloat.to_int (ocr_confidence extraction_meta * 100.0)%float
      else 100 in
    let printable_ratio := _printable_ratio text in
    let extraction_quality :=
      PyFloat.to_int
        (PyFloat.truediv (extraction_quality + printable_ratio) 2) in
    let structure_quality :=
      Z.min 100 (30 + _heading_count text * 10 + _bullet_count text * 4) in
    let freshness := _freshness_score metadata in
    let redaction_risk :=
      Z.max 0 (100 - Z.of_nat (length pii_hits) * 20) in
    let dedupe_penalty :=
      PyFloat.to_int ((1.0 - similarity_score) * 100.0)%float in
    DatasetBuilderService.int_mean
      [extraction_quality; structure_quality; freshness; redaction_risk;
       dedupe_penalty].

(** The rows [_find_near_duplicate] compares with. *)
Definition candidate_docs (tenant_id project_id : string) (w : World)
  : list Document :=
  List.filter
    (fun d => String.eqb (doc_tenant_id d) tenant_id
              && String.eqb (doc_project_id d) project_id
              && negb (bool_decide (doc_status d = DocumentStatus.REJECTED)))
    (documents (db w)).

(** The loop of [_find_near_duplicate] over the candidates: the best
    document so far and its score; a later document replaces it only with a
    greater score. Reading the artifact of a candidate may fail. *)
Fixpoint best_match (w : World) (normalized_text : string)
    (docs : list Document) (best_doc_id : option string)
    (best_score : float) : result (option string * float) :=
  match docs with
  | [] => Return (best_doc_id, best_score)
  | doc :: rest =>
      match DatasetBuilderService.read_payload
              w (doc_normalized_text_path doc) with
      | Raise e => Raise e
      | Return payload =>
          let candidate_text := _normalize_text (payload_text payload) in
          if negb (PyStr.truthy candidate_text) then
            best_match w normalized_text rest best_doc_id best_score
          else
            let score :=
              embedding_similarity normalized_text candidate_text in
            if (best_score <? score)%float then
              best_match w normalized_text rest (Some (doc_id doc)) score
            else best_match w normalized_text rest best_doc_id best_score
      end
  end.

Definition _find_near_duplicate (tenant_id project_id : string)
    (normalized_text : string) (w : World)
  : result (option string * float) :=
  match best_match w normalized_text (candidate_docs tenant_id project_id w)
                   None 0.0 with
  | Raise e => Raise e
  | Return (best_doc_id, best_score) =>
      if (near_duplicate_threshold st <=? best_score)%float
      then Return (best_doc_id, best_score)
      else Return (None, best_score)
  end.

(** The first row with the tenant, project and hash of the upload. *)
Definition exact_duplicate (tenant_id project_id sha_hash : string)
    (w : World) : option Document :=
  List.find
    (fun d => String.eqb (doc_tenant_id d) tenant_id
              && String.eqb (doc_project_id d) project_id
              && String.eqb (doc_sha256_hash d) sha_hash)
    (documents (db w)).

Definition write_file (path : string) (content : FileContent) (w : World)
  : World :=
  {| db := db w; fs := <[path := content]> (fs w) |}.

Definition add_document (d : Document) (w : World) : World :=
  {| db := set_documents (documents (db w) ++ [d]) (db w); fs := fs w |}.

(** The status of the new document, in the order of the [if] chain. *)
Definition decide_status (duplicate : option Document)
    (pii_hits : list PiiHit) (quality_score : Z)
    (near_duplicate_of : option string) : DocumentStatus.t :=
  match duplicate with
  | Some _ => DocumentStatus.REJECTED
  | None =>
      match pii_hits with
      | _ :: _ => DocumentStatus.REDACTION_REQUIRED
      | [] =>
          if (quality_score <? doc_quality_threshold st)
             || match near_duplicate_of with
                | Some id => PyStr.truthy id
                | None => false
                end
          then DocumentStatus.NEEDS_REVIEW
          else DocumentStatus.READY
      end
  end.

(** [ingest_upload]. [new_id] is the primary key the row receives and
    [token] the result of [secrets.token_hex(8)]; [filename] is
    [file.filename] and [content] what [file.file.read()] returns. *)
Definition ingest_upload (new_id token : string)
    (tenant_id project_id : string) (filename : option string)
    (content : string) (metadata : Metadata) (w : World)
  : result Document * World :=
  if 32000 <? dumps_length metadata then
    (Raise "Metadata payload too large", w)
  else
    let filename :=
      _safe_filename
        (match filename with
         | Some name => if PyStr.truthy name then name else "uploaded"
         | None => "uploaded"
         end) in
    if negb (PyStr.truthy content) then (Raise "Uploaded file is empty", w)
    else
      match _detect_file_type filename with
      | Raise e => (Raise e, w)
      | Return file_type =>
          match _mock_virus_scan st filename content with
          | Raise e => (Raise e, w)
          | Return _ =>
              match _extract_text content file_type with
              | Raise e => (Raise e, w)
              | Return (extracted_text, extraction_meta) =>
                  let normalized_text := _normalize_text extracted_text in
                  let sections := _extract_sections normalized_text in
                  let sha_hash := Sha256.hexdigest normalized_text in
                  let duplicate :=
                    exact_duplicate tenant_id project_id sha_hash w in
                  let raw_path :=
                    path_join
                      (ArtifactStore.raw_docs_dir st tenant_id project_id)
                      (token +:+ "_" +:+ filename) in
                  let w := write_file raw_path (FRaw content) w in
                  let normalized_path :=
                    path_join
                      (ArtifactStore.normalized_dir st tenant_id project_id)
                      (sha_hash +:+ ".json") in
                  let w :=
                    write_file normalized_path
                      (FPayload {| payload_text := normalized_text;
                                   payload_sections := sections |}) w in
                  let pii_hits := _detect_pii normalized_text in
                  match
                    match duplicate with
                    | Some _ => Return (None, 0.0%float)
                    | None =>
                        _find_near_duplicate tenant_id project_id
                                             normalized_text w
                    end
                  with
                  | Raise e => (Raise e, w)
                  | Return (near_duplicate_of, similarity_score) =>
                      let quality_score :=
                        _doc_quality_score normalized_text extraction_meta
                          metadata pii_hits similarity_score in
                      let status :=
                        decide_status duplicate pii_hits quality_score
                                      near_duplicate_of in
                      let near_duplicate_of :=
                        match duplicate with
                        | Some existing => Some (doc_id existing)
                        | None => near_duplicate_of
                        end in
                      let doc :=
                        {| doc_id := new_id;
                           doc_tenant_id := tenant_id;
                           doc_project_id := project_id;
                           doc_filename := filename;
                           doc_file_type := file_type;
                           doc_storage_path := raw_path;
                           doc_normalized_text_path := normalized_path;
                           doc_sha256_hash := sha_hash;
                           doc_near_duplicate_of := near_duplicate_of;
                           doc_quality_score := quality_score;
                           doc_pii_hits := pii_hits;
                           doc_metadata_json := metadata;
                           doc_status := status |} in
                      (Return doc, add_document doc w)
                  end
              end
          end
      end.

End Backend.

End IngestionService.

(** ** Reference functions for the substitutions of [_normalize_text]

    What [re.sub(r"[\t ]+", " ", text)] and [re.sub(r"\n{3,}", "\n\n", text)]
    compute, written without the matcher: every run of characters of the
    class becomes one space, and a run of line feeds keeps at most two of
    them. The proofs relate them to [Re.sub]. *)

(** [in_run] holds when the character before belongs to the class. *)
Fixpoint collapse_runs (cls : ascii -> bool) (in_run : bool)
    (s : list ascii) : list ascii :=
  match s with
  | [] => []
  | c :: s' =>
      if cls c then
        if in_run then collapse_runs cls true s'
        else " "%char :: collapse_runs cls true s'
      else c :: collapse_runs cls false s'
  end.

(** [seen] counts the characters [c0] directly before, up to two. *)
Fixpoint cap_runs (c0 : ascii) (seen : nat) (s : list ascii) : list ascii :=
  match s with
  | [] => []
  | c :: s' =>
      if Ascii.eqb c0 c then
        match seen with
        | S (S _) => cap_runs c0 seen s'
        | _ => c :: cap_runs c0 (S seen) s'
        end
      else c :: cap_runs c0 0 s'
  end.

(** ** Training engine ([app/services/training_engine.py]) *)

Module TrainingEngine.

(** The artifact directory as the engine sees it. *)
Abbreviation Files := (gmap string FileContent).

(** [TrainingArtifacts]: the checkpoint and the adapter directory. *)
Definition TrainingArtifacts : Type := string * string.

Definition _run_mock_backend (output_dir base_model_id : string)
    (dataset_paths : string * string * string) (config : TrainingConfig)
    (files : Files) : result TrainingArtifacts * Files :=
  let checkpoint_dir :=
    path_join (path_join output_dir "checkpoints") "step-100" in
  let adapter_dir := path_join output_dir "adapter" in
  let files :=
    <[path_join checkpoint_dir "checkpoint.json" := FJson "checkpoint"]>
      files in
  let files :=
    <[path_join adapter_dir "adapter_config.json" := FJson "adapter_config"]>
      files in
  let files :=
    <[path_join adapter_dir "adapter_model.safetensors" :=
        FRaw "mock-adapter-weights"]> files in
  (Return (checkpoint_dir, adapter_dir), files).

Section Command.

(** [template.format(...)] and [subprocess.run(command, shell=True, ...)]:
    the rendered command line, and the exit code of the process with the
    files it left. *)
Variable format_command :
  string -> string -> string -> string -> string * string * string ->
  string -> string.
Variable subprocess_run : string -> string -> Files -> Z * Files.

Definition _run_command_backend (st : Settings)
    (output_dir base_model_id : string)
    (dataset_paths : string * string * string) (config : TrainingConfig)
    (files : Files) : result TrainingArtifacts * Files :=
  let checkpoint_dir :=
    path_join (path_join output_dir "checkpoints") "external" in
  let adapter_dir := path_join output_dir "adapter" in
  match trainer_command_template st with
  | Some template =>
      if negb (PyStr.truthy template) then
        (Raise "TRAINER_BACKEND=command requires TRAINER_COMMAND_TEMPLATE",
         files)
      else
        let command :=
          format_command template output_dir adapter_dir checkpoint_dir
                         dataset_paths base_model_id in
        let (returncode, files) := subprocess_run command output_dir files in
        let files :=
          <[path_join output_dir "trainer_command_result.json" :=
              FJson command]> files in
        if negb (returncode =? 0) then
          (Raise ("External trainer failed with code " +:+ pretty returncode),
           files)
        else
          match files !! path_join adapter_dir "adapter_model.safetensors" with
          | None =>
              (Raise "External trainer did not produce adapter_model.safetensors",
               files)
          | Some _ =>
              let files :=
                match files !! path_join adapter_dir "adapter_config.json" with
                | None =>
                    <[path_join adapter_dir "adapter_config.json" :=
                        FJson "adapter_config"]> files
                | Some _ => files
                end in
              (Return (checkpoint_dir, adapter_dir), files)
          end
  | None =>
      (Raise "TRAINER_BACKEND=command requires TRAINER_COMMAND_TEMPLATE",
       files)
  end.

Definition engine_run (st : Settings) (output_dir base_model_id : string)
    (dataset_paths : string * string * string) (config : TrainingConfig)
    (files : Files) : result TrainingArtifacts * Files :=
  if String.eqb (trainer_backend st) "command" then
    _run_command_backend st output_dir base_model_id dataset_paths config
                         files
  else
    _run_mock_backend output_dir base_model_id dataset_paths config files.

End Command.

End TrainingEngine.

(** ** Training orchestrator ([app/services/training.py]) *)

Module TrainingOrchestrator.

Import RunState.

Definition ALLOWED_TRANSITIONS (s : RunState.t) : list RunState.t :=
  match s with
  | QUEUED => [PREFLIGHT; CANCELLED]
  | PREFLIGHT => [STAGING; FAILED; CANCELLED]
  | STAGING => [TRAINING; FAILED; CANCELLED]
  | TRAINING => [EVALUATING; FAILED; CANCELLED]
  | EVALUATING => [PACKAGING; FAILED; CANCELLED]
  | PACKAGING => [READY; FAILED; CANCELLED]
  | READY => []
  | FAILED => [QUEUED]
  | CANCELLED => [QUEUED]
  end.

(** [target in ALLOWED_TRANSITIONS.get(state, set())] *)
Definition allowed (state target : RunState.t) : bool :=
  bool_decide (target ∈ ALLOWED_TRANSITIONS state).

(** Assignments to the attributes of a [TrainingRun] object. *)
Definition set_run_state (v : RunState.t) (r : TrainingRun)
  : TrainingRun :=
  {| run_id := run_id r; run_tenant_id := run_tenant_id r;
     run_project_id := run_project_id r;
     run_dataset_version_id := run_dataset_version_id r;
     run_requested_by_user_id := run_requested_by_user_id r;
     run_base_model_id := run_base_model_id r;
     run_config_json := run_config_json r; run_state := v;
     run_state_message := run_state_message r; run_progress := run_progress r;
     run_vram_estimate_gb := run_vram_estimate_gb r;
     run_checkpoint_path := run_checkpoint_path r;
     run_adapter_path := run_adapter_path r;
     run_package_path := run_package_path r;
     run_eval_report_id := run_eval_report_id r;
     run_error_message := run_error_message r;
     run_created_at := run_created_at r |}.

Definition set_run_state_message (v : option string) (r : TrainingRun)
  : TrainingRun :=
  {| run_id := run_id r; run_tenant_id := run_tenant_id r;
     run_project_id := run_project_id r;
     run_dataset_version_id := run_dataset_version_id r;
     run_requested_by_user_id := run_requested_by_user_id r;
     run_base_model_id := run_base_model_id r;
     run_config_json := run_config_json r; run_state := run_state r;
     run_state_message := v; run_progress := run_progress r;
     run_vram_estimate_gb := run_vram_estimate_gb r;
     run_checkpoint_path := run_checkpoint_path r;
     run_adapter_path := run_adapter_path r;
     run_package_path := run_package_path r;
     run_eval_report_id := run_eval_report_id r;
     run_error_message := run_error_message r;
     run_created_at := run_created_at r |}.

Definition set_run_progress (v : float) (r : TrainingRun)
  : TrainingRun :=
  {| run_id := run_id r; run_tenant_id := run_tenant_id r;
     run_project_id := run_project_id r;
     run_dataset_version_id := run_dataset_version_id r;
     run_requested_by_user_id := run_requested_by_user_id r;
     run_base_model_id := run_base_model_id r;
     run_config_json := run_config_json r; run_state := run_state r;
     run_state_message := run_state_message r; run_progress := v;
     run_vram_estimate_gb := run_vram_estimate_gb r;
     run_checkpoint_path := run_checkpoint_path r;
     run_adapter_path := run_adapter_path r;
     run_package_path := run_package_path r;
     run_eval_report_id := run_eval_report_id r;
     run_error_message := run_error_message r;
     run_created_at := run_created_at r |}.

Definition set_run_vram_estimate_gb (v : float) (r : TrainingRun)
  : TrainingRun :=
  {| run_id := run_id r; run_tenant_id := run_tenant_id r;
     run_project_id := run_project_id r;
     run_dataset_version_id := run_dataset_version_id r;
     run_requested_by_user_id := run_requested_by_user_id r;
     run_base_model_id := run_base_model_id r;
     run_config_json := run_config_json r; run_state := run_state r;
     run_state_message := run_state_message r; run_progress := run_progress r;
     run_vram_estimate_gb := v; run_checkpoint_path := run_checkpoint_path r;
     run_adapter_path := run_adapter_path r;
     run_package_path := run_package_path r;
     run_eval_report_id := run_eval_report_id r;
     run_error_message := run_error_message r;
     run_created_at := run_created_at r |}.

Definition set_run_checkpoint_path (v : option string) (r : TrainingRun)
  : TrainingRun :=
  {| run_id := run_id r; run_tenant_id := run_tenant_id r;
     run_project_id := run_project_id r;
     run_dataset_version_id := run_dataset_version_id r;
     run_requested_by_user_id := run_requested_by_user_id r;
     run_base_model_id := run_base_model_id r;
     run_config_json := run_config_json r; run_state := run_state r;
     run_state_message := run_state_message r; run_progress := run_progress r;
     run_vram_estimate_gb := run_vram_estimate_gb r; run_checkpoint_path := v;
     run_adapter_path := run_adapter_path r;
     run_package_path := run_package_path r;
     run_eval_report_id := run_eval_report_id r;
     run_error_message := run_error_message r;
     run_created_at := run_created_at r |}.

Definition set_run_adapter_path (v : option string) (r : TrainingRun)
  : TrainingRun :=
  {| run_id := run_id r; run_tenant_id := run_tenant_id r;
     run_project_id := run_project_id r;
     run_dataset_version_id := run_dataset_version_id r;
     run_requested_by_user_id := run_requested_by_user_id r;
     run_base_model_id := run_base_model_id r;
     run_config_json := run_config_json r; run_state := run_state r;
     run_state_message := run_state_message r; run_progress := run_progress r;
     run_vram_estimate_gb := run_vram_estimate_gb r;
     run_checkpoint_path := run_checkpoint_path r; run_adapter_path := v;
     run_package_path := run_package_path r;
     run_eval_report_id := run_eval_report_id r;
     run_error_message := run_error_message r;
     run_created_at := run_created_at r |}.

Definition set_run_package_path (v : option string) (r : TrainingRun)
  : TrainingRun :=
  {| run_id := run_id r; run_tenant_id := run_tenant_id r;
     run_project_id := run_project_id r;
     run_dataset_version_id := run_dataset_version_id r;
     run_requested_by_user_id := run_requested_by_user_id r;
     run_base_model_id := run_base_model_id r;
     run_config_json := run_config_json r; run_state := run_state r;
     run_state_message := run_state_message r; run_progress := run_progress r;
     run_vram_estimate_gb := run_vram_estimate_gb r;
     run_checkpoint_path := run_checkpoint_path r;
     run_adapter_path := run_adapter_path r; run_package_path := v;
     run_eval_report_id := run_eval_report_id r;
     run_error_message := run_error_message r;
     run_created_at := run_created_at r |}.

Definition set_run_eval_report_id (v : option string) (r : TrainingRun)
  : TrainingRun :=
  {| run_id := run_id r; run_tenant_id := run_tenant_id r;
     run_project_id := run_project_id r;
     run_dataset_version_id := run_dataset_version_id r;
     run_requested_by_user_id := run_requested_by_user_id r;
     run_base_model_id := run_base_model_id r;
     run_config_json := run_config_json r; run_state := run_state r;
     run_state_message := run_state_message r; run_progress := run_progress r;
     run_vram_estimate_gb := run_vram_estimate_gb r;
     run_checkpoint_path := run_checkpoint_path r;
     run_adapter_path := run_adapter_path r;
     run_package_path := run_package_path r; run_eval_report_id := v;
     run_error_message := run_error_message r;
     run_created_at := run_created_at r |}.

Definition set_run_error_message (v : option string) (r : TrainingRun)
  : TrainingRun :=
  {| run_id := run_id r; run_tenant_id := run_tenant_id r;
     run_project_id := run_project_id r;
     run_dataset_version_id := run_dataset_version_id r;
     run_requested_by_user_id := run_requested_by_user_id r;
     run_base_model_id := run_base_model_id r;
     run_config_json := run_config_json r; run_state := run_state r;
     run_state_message := run_state_message r; run_progress := run_progress r;
     run_vram_estimate_gb := run_vram_estimate_gb r;
     run_checkpoint_path := run_checkpoint_path r;
     run_adapter_path := run_adapter_path r;
     run_package_path := run_package_path r;
     run_eval_report_id := run_eval_report_id r; run_error_message := v;
     run_created_at := run_created_at r |}.

(** *** Claiming a queued run *)

(** The subquery of [_claim_next_queued_run]: the id of the [QUEUED] run
    with the least [created_at], the first such row among equals. *)
Definition oldest (best : option TrainingRun) (r : TrainingRun)
  : option TrainingRun :=
  match best with
  | None => Some r
  | Some b => if run_created_at r <? run_created_at b then Some r else Some b
  end.

Definition select_candidate (w : World) : option string :=
  option_map run_id
    (fold_left oldest
       (filter (fun r => run_state r = QUEUED) (training_runs (db w)))
       None).

(** The row the conditional [UPDATE] matches. *)
Definition claimable (candidate : string) (r : TrainingRun) : bool :=
  String.eqb (run_id r) candidate && bool_decide (run_state r = QUEUED).

Definition picked (r : TrainingRun) : TrainingRun :=
  set_run_state_message (Some "Picked by worker") (set_run_state PREFLIGHT r).

(** The conditional [UPDATE]: the number of rows matched and the table
    after it. *)
Definition update_if_queued (candidate : string) (w : World) : Z * World :=
  let runs := training_runs (db w) in
  (Z.of_nat (length (List.filter (claimable candidate) runs)),
   {| db := set_training_runs
              (map (fun r => if claimable candidate r then picked r else r)
                   runs) (db w);
      fs := fs w |}).

(** [db.get(TrainingRun, id)] *)
Definition get_run (w : World) (id : string) : option TrainingRun :=
  List.find (fun r => String.eqb (run_id r) id) (training_runs (db w)).

(** [db.get(DatasetVersion, id)] *)
Definition get_dataset (w : World) (id : string) : option DatasetVersion :=
  List.find (fun d => String.eqb (ds_id d) id) (dataset_versions (db w)).

Definition run_event (r : TrainingRun) (from_state : option RunState.t)
    (to_state : RunState.t) (message : option string)
    (error : option string) : RunEvent :=
  {| ev_run_id := run_id r;
     ev_from_state := option_map RunState.value from_state;
     ev_to_state := RunState.value to_state;
     ev_message := message;
     ev_error := error |}.

Definition add_event (e : RunEvent) (w : World) : World :=
  {| db := set_run_events (run_events (db w) ++ [e]) (db w); fs := fs w |}.

(** Where a worker stands inside [_claim_next_queued_run]: before the
    [SELECT], before the conditional [UPDATE] with the candidate it read,
    after the commit of a successful update, or returned. *)
Inductive ClaimPc :=
| AtSelect
| AtUpdate (candidate : string)
| AtRecord (candidate : string)
| Claimed (outcome : option TrainingRun).

(** One statement of [_claim_next_queued_run] against the shared tables. A
    failed update is rolled back and the worker returns [None]. *)
Definition claim_step (pc : ClaimPc) (w : World) : ClaimPc * World :=
  match pc with
  | AtSelect =>
      match select_candidate w with
      | Some candidate =>
          if PyStr.truthy candidate then (AtUpdate candidate, w)
          else (Claimed None, w)
      | None => (Claimed None, w)
      end
  | AtUpdate candidate =>
      let (rowcount, w') := update_if_queued candidate w in
      if rowcount =? 1 then (AtRecord candidate, w')
      else (Claimed None, w)
  | AtRecord candidate =>
      match get_run w candidate with
      | Some r =>
          (Claimed (Some r),
           add_event (run_event r (Some QUEUED) PREFLIGHT
                                (Some "Picked by worker") None) w)
      | None => (Claimed None, w)
      end
  | Claimed outcome => (Claimed outcome, w)
  end.

(** [_claim_next_queued_run] run by one worker without interruption. *)
Definition _claim_next_queued_run (w : World) : option TrainingRun * World :=
  let (pc1, w1) := claim_step AtSelect w in
  let (pc2, w2) := claim_step pc1 w1 in
  let (pc3, w3) := claim_step pc2 w2 in
  match pc3 with
  | Claimed outcome => (outcome, w3)
  | _ => (None, w3)
  end.

(** Two workers against the same tables: each scheduler entry lets one of
    them execute its next statement. *)
Inductive Worker := worker_a | worker_b.

Record Race := { pc_a : ClaimPc; pc_b : ClaimPc; shared : World }.

Definition race_step (c : Race) (who : Worker) : Race :=
  match who with
  | worker_a =>
      let (pc, w) := claim_step (pc_a c) (shared c) in
      {| pc_a := pc; pc_b := pc_b c; shared := w |}
  | worker_b =>
      let (pc, w) := claim_step (pc_b c) (shared c) in
      {| pc_a := pc_a c; pc_b := pc; shared := w |}
  end.

Definition race (schedule : list Worker) (c : Race) : Race :=
  fold_left race_step schedule c.

(** Both workers have returned. *)
Definition finished (c : Race) : Prop :=
  (exists outcome, pc_a c = Claimed outcome)
  /\ (exists outcome, pc_b c = Claimed outcome).

(** The event of the claim of run [candidate]. *)
Definition claim_event (candidate : string) : RunEvent :=
  {| ev_run_id := candidate;
     ev_from_state := Some "queued";
     ev_to_state := "preflight";
     ev_message := Some "Picked by worker";
     ev_error := None |}.

(** *** Driving a claimed run *)

(** The session of a worker: the run object it holds and the database and
    artifacts behind it. Attribute assignments change the object;
    [commit] writes it to its row. *)
Record Session := { run : TrainingRun; world : World }.

Definition M (A : Type) : Type := Session -> result A * Session.

Definition ret {A} (a : A) : M A := fun s => (Return a, s).

Definition raise {A} (msg : string) : M A := fun s => (Raise msg, s).

Definition bind {A B} (m : M A) (k : A -> M B) : M B :=
  fun s =>
    match m s with
    | (Return a, s') => k a s'
    | (Raise e, s') => (Raise e, s')
    end.

(** [try: body except Exception as exc: handler(str(exc))] *)
Definition try_except {A} (body : M A) (handler : string -> M A) : M A :=
  fun s =>
    match body s with
    | (Return a, s') => (Return a, s')
    | (Raise e, s') => handler e s'
    end.

Notation "x <- m ;; k" := (bind m (fun x => k))
  (at level 100, m at next level, right associativity).
Notation "m ;; k" := (bind m (fun _ => k))
  (at level 100, right associativity).

(** [return run] *)
Definition current_run : M TrainingRun := fun s => (Return (run s), s).

Definition assign (f : TrainingRun -> TrainingRun) : M unit :=
  fun s => (Return tt, {| run := f (run s); world := world s |}).

Definition on_world (f : World -> World) : M unit :=
  fun s => (Return tt, {| run := run s; world := f (world s) |}).

(** The row of the run object replaced by the object. *)
Definition put_run (r : TrainingRun) (w : World) : World :=
  {| db := set_training_runs
             (map (fun r' => if String.eqb (run_id r') (run_id r)
                             then r else r')
                  (training_runs (db w))) (db w);
     fs := fs w |}.

Definition commit : M unit :=
  fun s => (Return tt, {| run := run s; world := put_run (run s) (world s) |}).

Definition _record_run_event (from_state : option RunState.t)
    (to_state : RunState.t) (message : option string)
    (error : option string) : M unit :=
  fun s =>
    (on_world (add_event (run_event (run s) from_state to_state message error))
     ;; commit) s.

Definition _transition (target_state : RunState.t) (message : string)
  : M unit :=
  fun s =>
    let from_state := run_state (run s) in
    if allowed from_state target_state then
      (assign (set_run_state target_state)
       ;; assign (set_run_state_message (Some message))
       ;; _record_run_event (Some from_state) target_state (Some message)
                            None) s
    else
      raise ("Invalid transition from " +:+ RunState.to_str from_state
             +:+ " to " +:+ RunState.to_str target_state) s.

Definition log_audit_event (action : string) : M unit :=
  fun s =>
    let r := run s in
    let event :=
      {| au_tenant_id := run_tenant_id r;
         au_user_id := Some (run_requested_by_user_id r);
         au_project_id := Some (run_project_id r);
         au_action := action;
         au_entity_type := "training_run";
         au_entity_id := Some (run_id r) |} in
    (on_world (fun w =>
       {| db := set_audit_events (audit_events (db w) ++ [event]) (db w);
          fs := fs w |})
     ;; commit) s.

Definition _fail (error : string) : M unit :=
  fun s =>
    ((if bool_decide (run_state (run s) <> FAILED) then
        if negb (allowed (run_state (run s)) FAILED) then
          let previous_state := run_state (run s) in
          assign (set_run_state FAILED)
          ;; _record_run_event (Some previous_state) FAILED
                               (Some "Run failed") (Some error)
        else _transition FAILED "Run failed"
      else ret tt)
     ;; assign (set_run_error_message (Some error))
     ;; assign (set_run_state_message (Some "Run failed"))
     ;; commit
     ;; log_audit_event "training_run_failed") s.

(** [log_audit_event] for a run, on behalf of [user_id]. *)
Definition log_audit_event_by (user_id : option string) (action : string)
  : M unit :=
  fun s =>
    let r := run s in
    let event :=
      {| au_tenant_id := run_tenant_id r;
         au_user_id := user_id;
         au_project_id := Some (run_project_id r);
         au_action := action;
         au_entity_type := "training_run";
         au_entity_id := Some (run_id r) |} in
    (on_world (fun w =>
       {| db := set_audit_events (audit_events (db w) ++ [event]) (db w);
          fs := fs w |})
     ;; commit) s.

Definition cancel_run (user_id : option string) : M TrainingRun :=
  fun s =>
    if bool_decide (run_state (run s) ∈ [READY; FAILED; CANCELLED]) then
      current_run s
    else
      (_transition CANCELLED "Run cancelled by user"
       ;; commit
       ;; log_audit_event_by user_id "training_run_cancelled"
       ;; current_run) s.

Definition retry_run (user_id : option string) : M TrainingRun :=
  fun s =>
    if negb (bool_decide (run_state (run s) ∈ [FAILED; CANCELLED])) then
      raise "Only failed or cancelled runs can be retried" s
    else
      (_transition QUEUED "Retry queued"
       ;; assign (set_run_progress 0.0%float)
       ;; assign (set_run_error_message None)
       ;; commit
       ;; log_audit_event_by user_id "training_run_retried"
       ;; current_run) s.

Section Drive.

Variable st : Settings.

(** External code: the similarity measures of the evaluation, the command
    line and the process of the command backend, and the packager
    ([DeploymentPackager.package], which copies the adapter tree and
    archives the bundle). Each is a function of its arguments and of the
    artifact directory. *)
Variable fuzz_ratio : string -> string -> float.
Variable sequence_ratio : string -> string -> float.
Variable format_command :
  string -> string -> string -> string -> string * string * string ->
  string -> string.
Variable subprocess_run :
  string -> string -> gmap string FileContent ->
  Z * gmap string FileContent.
Variable packager_package :
  string -> string -> string * string * string * string ->
  gmap string FileContent -> result string * gmap string FileContent.

(** The verdict of [estimate_vram]: the estimate, rounded, and whether it
    fits under the safe limit. *)
Definition estimate_vram (config : TrainingConfig) : float * bool :=
  let seq_factor := PyFloat.truediv (sequence_length config) 1024 in
  let rank_factor := PyFloat.truediv (lora_rank config) 16 in
  let batch_factor :=
    PyFloat.truediv (per_device_batch_size config
                     * Z.max (gradient_accumulation_steps config) 1) 8 in
  let precision_factor :=
    if String.eqb (precision config) "bf16"
       || String.eqb (precision config) "fp16"
    then 0.78%float else 1.0%float in
  let quant_factor := if use_4bit config then 0.7%float else 1.0%float in
  let base := 4.2%float in
  let estimate :=
    (base * seq_factor * (0.7 + 0.3 * rank_factor)
     * (0.6 + 0.4 * batch_factor) * precision_factor * quant_factor)%float in
  let safe_limit := (max_gpu_vram_gb st * vram_safety_factor st)%float in
  (PyFloat.round estimate 2, (estimate <=? safe_limit)%float).

Definition _run_preflight (dataset : DatasetVersion) : M unit :=
  fun s =>
    if negb (bool_decide (ds_status dataset = DatasetStatus.READY)
             || bool_decide (ds_status dataset = DatasetStatus.NEEDS_REVIEW))
    then raise "Dataset status invalid for training" s
    else
      match List.find (fun m => String.eqb (fst m) (run_base_model_id (run s)))
                      (supported_models st) with
      | None => raise "Base model is not in approved registry" s
      | Some _ =>
          let (estimated_gb, will_fit) :=
            estimate_vram (run_config_json (run s)) in
          (assign (set_run_vram_estimate_gb estimated_gb)
           ;; if will_fit then ret tt else raise "VRAM preflight failed") s
      end.

(** A call into external code that reads and writes the artifacts. *)
Definition external {A}
    (f : gmap string FileContent -> result A * gmap string FileContent)
  : M A :=
  fun s =>
    let (r, files) := f (fs (world s)) in
    (r, {| run := run s; world := {| db := db (world s); fs := files |} |}).

(** [EvaluationService(self.db).evaluate_run(run, dataset)] *)
Definition evaluate (dataset : DatasetVersion) (report_id : string)
    (now : Z) (elapsed : float) : M EvaluationReport :=
  fun s =>
    let (r, w) :=
      EvaluationService.evaluate_run fuzz_ratio sequence_ratio (run s)
        dataset report_id now elapsed (put_run (run s) (world s)) in
    (r, {| run := run s; world := w |}).

(** The statements between [try:] and [except] of [_process_run]. *)
Definition drive (dataset : DatasetVersion) (already_in_preflight : bool)
    (report_id : string) (now : Z) (elapsed : float) : M unit :=
  fun s =>
    let r := run s in
    let run_dir :=
      ArtifactStore.runs_dir st (run_tenant_id r) (run_project_id r)
                             (run_id r) in
    ((if already_in_preflight then ret tt
      else _transition PREFLIGHT "Validating dataset and license")
     ;; assign (set_run_progress 0.1%float)
     ;; commit
     ;; _run_preflight dataset
     ;; _transition STAGING "Staging artifacts"
     ;; assign (set_run_progress 0.25%float)
     ;; on_world (fun w =>
          {| db := db w;
             fs := <[path_join run_dir "run_config_snapshot.json" :=
                       FSnapshot (run_dataset_version_id r) (ds_id dataset)
                                 (run_base_model_id r) (run_config_json r)]>
                     (fs w) |})
     ;; commit
     ;; _transition TRAINING "Training adapter"
     ;; assign (set_run_progress 0.45%float)
     ;; commit
     ;; artifacts <- external
          (TrainingEngine.engine_run format_command subprocess_run st
             run_dir (run_base_model_id r)
             (ds_train_path dataset, ds_val_path dataset,
              ds_test_path dataset)
             (run_config_json r))
     ;; assign (set_run_checkpoint_path (Some (fst artifacts)))
     ;; assign (set_run_adapter_path (Some (snd artifacts)))
     ;; assign (set_run_progress 0.7%float)
     ;; commit
     ;; _transition EVALUATING "Running evaluation"
     ;; commit
     ;; report <- evaluate dataset report_id now elapsed
     ;; assign (set_run_eval_report_id (Some (rep_id report)))
     ;; assign (set_run_progress 0.85%float)
     ;; commit
     ;; _transition PACKAGING "Building deployment package"
     ;; package <- external
          (packager_package (path_join run_dir "package") (snd artifacts)
             (run_id r, run_dataset_version_id r, run_base_model_id r,
              rep_id report))
     ;; assign (set_run_package_path (Some package))
     ;; assign (set_run_progress 1.0%float)
     ;; _transition READY "Run complete"
     ;; commit
     ;; log_audit_event "training_run_ready") s.

(** [_process_run]: returns the run object. *)
Definition _process_run (already_in_preflight : bool) (report_id : string)
    (now : Z) (elapsed : float) : M TrainingRun :=
  fun s =>
    match get_dataset (world s) (run_dataset_version_id (run s)) with
    | None => (_fail "Dataset missing" ;; current_run) s
    | Some dataset =>
        (try_except
           (drive dataset already_in_preflight report_id now elapsed)
           (fun exc => _fail exc)
         ;; current_run) s
    end.

(** [process_next_queued_run] *)
Definition process_next_queued_run (report_id : string) (now : Z)
    (elapsed : float) (w : World) : option (result TrainingRun) * World :=
  match _claim_next_queued_run w with
  | (None, w') => (None, w')
  | (Some r, w') =>
      let (res, s') :=
        _process_run true report_id now elapsed {| run := r; world := w' |} in
      (Some res, world s')
  end.

End Drive.

(** A statement of the orchestrator that leaves the identity of the run
    object alone, whether it returns or raises. *)
Definition keeps_run_id {A} (m : M A) : Prop :=
  forall s r s', m s = (r, s') -> run_id (run s') = run_id (run s).

Section Create.

Variable st : Settings.

(** [EntitlementService(self.db).assert_training_quota(tenant_id)]: it
    reads the plan of the tenant, a table outside this model, and counts the
    runs of the month. *)
Variable assert_training_quota : string -> World -> result unit.

Definition add_run (r : TrainingRun) (w : World) : World :=
  {| db := set_training_runs (training_runs (db w) ++ [r]) (db w);
     fs := fs w |}.

(** [create_run]. [new_id] and [now] are the primary key and the creation
    time the row receives. *)
Definition create_run (new_id : string) (now : Z)
    (tenant_id project_id dataset_version_id requested_by_user_id
     base_model_id : string) (config : TrainingConfig)
    (data_rights_confirmed : bool) (w : World)
  : result TrainingRun * World :=
  if negb data_rights_confirmed then
    (Raise "Client data rights confirmation is required", w)
  else
    match assert_training_quota tenant_id w with
    | Raise e => (Raise e, w)
    | Return _ =>
        match get_dataset w dataset_version_id with
        | None => (Raise "Dataset version not found", w)
        | Some dataset =>
            if negb (String.eqb (ds_tenant_id dataset) tenant_id)
               || negb (String.eqb (ds_project_id dataset) project_id)
            then (Raise "Dataset version not found", w)
            else if negb (bool_decide (ds_status dataset
                                       = DatasetStatus.READY)
                          || bool_decide (ds_status dataset
                                          = DatasetStatus.NEEDS_REVIEW))
            then (Raise "Dataset is not eligible for training", w)
            else
              match List.find (fun m => String.eqb (fst m) base_model_id)
                              (supported_models st) with
              | Some (_, true) =>
                  let (estimated_gb, will_fit) := estimate_vram st config in
                  if negb will_fit then
                    (Raise "Training config exceeds safe VRAM limits", w)
                  else
                    let created :=
                      {| run_id := new_id; run_tenant_id := tenant_id;
                         run_project_id := project_id;
                         run_dataset_version_id := dataset_version_id;
                         run_requested_by_user_id := requested_by_user_id;
                         run_base_model_id := base_model_id;
                         run_config_json := config; run_state := QUEUED;
                         run_state_message := Some "Queued";
                         run_progress := 0.0%float;
                         run_vram_estimate_gb := estimated_gb;
                         run_checkpoint_path := None;
                         run_adapter_path := None;
                         run_package_path := None;
                         run_eval_report_id := None;
                         run_error_message := None;
                         run_created_at := now |} in
                    let (_, s) :=
                      (_record_run_event None QUEUED (Some "Run queued") None
                       ;; log_audit_event "training_run_created")
                        {| run := created; world := add_run created w |} in
                    (Return (run s), world s)
              | _ => (Raise "Base model is not approved for deployment", w)
              end
        end
    end.

End Create.

End TrainingOrchestrator.

(** ** Deployment ([app/services/deployment.py]) *)

Module DeploymentService.

Import DeploymentStatus.

(** The rows the query for [existing_active] returns. *)
Definition is_active_of (tenant_id project_id : string)
    (p : DeploymentPackage) : bool :=
  String.eqb (dep_tenant_id p) tenant_id
  && String.eqb (dep_project_id p) project_id
  && bool_decide (dep_status p = ACTIVE).

(** [deployment.status = DeploymentStatus.ARCHIVED] *)
Definition archive (p : DeploymentPackage) : DeploymentPackage :=
  {| dep_id := dep_id p; dep_tenant_id := dep_tenant_id p;
     dep_project_id := dep_project_id p;
     dep_training_run_id := dep_training_run_id p;
     dep_version := dep_version p; dep_status := ARCHIVED;
     dep_package_path := dep_package_path p;
     dep_endpoint_url := dep_endpoint_url p;
     dep_created_at := dep_created_at p |}.

(** The loop [for deployment in existing_active]. *)
Definition archive_active (tenant_id project_id : string)
    (packages : list DeploymentPackage) : list DeploymentPackage :=
  map (fun p => if is_active_of tenant_id project_id p then archive p else p)
      packages.

(** [create_deployment]. [deployment_id] and [now] are the primary key and
    the creation time the new row receives. *)
Definition create_deployment (deployment_id : string) (now : Z)
    (tenant_id project_id training_run_id version : string)
    (endpoint_url : option string) (user_id : string) (w : World)
  : result DeploymentPackage * World :=
  match TrainingOrchestrator.get_run w training_run_id with
  | None => (Raise "Training run not found", w)
  | Some run =>
      if negb (String.eqb (run_tenant_id run) tenant_id)
         || negb (String.eqb (run_project_id run) project_id)
      then (Raise "Training run not found", w)
      else
        match run_state run, run_package_path run with
        | RunState.READY, Some package_path =>
            if negb (PyStr.truthy package_path)
            then (Raise "Training run is not deployable", w)
            else
              let deployment :=
                {| dep_id := deployment_id; dep_tenant_id := tenant_id;
                   dep_project_id := project_id;
                   dep_training_run_id := training_run_id;
                   dep_version := version; dep_status := ACTIVE;
                   dep_package_path := package_path;
                   dep_endpoint_url := endpoint_url;
                   dep_created_at := now |} in
              let packages :=
                archive_active tenant_id project_id
                               (deployment_packages (db w))
                ++ [deployment] in
              let event :=
                {| au_tenant_id := tenant_id; au_user_id := Some user_id;
                   au_project_id := Some project_id;
                   au_action := "deployment_activated";
                   au_entity_type := "deployment";
                   au_entity_id := Some deployment_id |} in
              (Return deployment,
               {| db := set_audit_events (audit_events (db w) ++ [event])
                          (set_deployment_packages packages (db w));
                  fs := fs w |})
        | _, _ => (Raise "Training run is not deployable", w)
        end
  end.

(** The ACTIVE packages of a tenant and project. *)
Definition active_packages (tenant_id project_id : string) (w : World)
  : list DeploymentPackage :=
  List.filter (is_active_of tenant_id project_id)
              (deployment_packages (db w)).

(** [active_deployment]: the ACTIVE package of the tenant and project
    created last; among packages of equal age the first row. *)
Definition newest (best : option DeploymentPackage) (p : DeploymentPackage)
  : option DeploymentPackage :=
  match best with
  | None => Some p
  | Some b => if dep_created_at b <? dep_created_at p then Some p else Some b
  end.

Definition active_deployment (tenant_id project_id : string) (w : World)
  : option DeploymentPackage :=
  fold_left newest (active_packages tenant_id project_id w) None.

(** The invariant of the data model: at most one ACTIVE package for every
    tenant and project. *)
Definition one_active (w : World) : Prop :=
  forall tenant_id project_id,
    (length (active_packages tenant_id project_id w) <= 1)%nat.

(** The states of the store: it starts without packages; deployments are
    created; every other operation leaves the package table as it is. *)
Inductive reachable : World -> Prop :=
| reach_start w : deployment_packages (db w) = [] -> reachable w
| reach_deploy w deployment_id now tenant_id project_id training_run_id
               version endpoint_url user_id :
    reachable w ->
    reachable (snd (create_deployment deployment_id now tenant_id project_id
                      training_run_id version endpoint_url user_id w))
| reach_other w w' :
    reachable w ->
    deployment_packages (db w') = deployment_packages (db w) ->
    reachable w'.

End DeploymentService.

(** ** Sample data *)

Definition demo_settings : Settings :=
  {| artifacts_path := "data/artifacts";
     max_gpu_vram_gb := 8.0;
     vram_safety_factor := 0.85;
     doc_quality_threshold := 65;
     near_duplicate_threshold := 0.9;
     max_upload_mb := 50;
     trainer_backend := "mock";
     trainer_command_template := None;
     supported_models :=
       [("mistralai/Mistral-7B-Instruct-v0.3", true);
        ("meta-llama/Llama-3.1-8B-Instruct", true);
        ("Qwen/Qwen2.5-7B-Instruct", true)] |}.

Definition demo_document (id path : string) : Document :=
  {| doc_id := id; doc_tenant_id := "tenant-1"; doc_project_id := "project-1";
     doc_filename := "policy.txt"; doc_file_type := "txt";
     doc_storage_path := "data/artifacts/tenant-1/project-1/raw/policy.txt";
     doc_normalized_text_path := path;
     doc_sha256_hash := Sha256.hexdigest id;
     doc_near_duplicate_of := None; doc_quality_score := 70;
     doc_pii_hits := [];
     doc_metadata_json := {| effective_date := None; dumps_length := 2 |};
     doc_status := DocumentStatus.READY |}.

(** The upload of the end-to-end test, normalized. *)
Definition returns_payload : Payload :=
  {| payload_text :=
       "# Returns Policy" +:+ String (PyStr.chr 10)
         "Returns are accepted within 30 days with receipt. Escalate damaged-item disputes to support lead.";
     payload_sections :=
       [{| sec_title := "Returns Policy";
           sec_content :=
             "Returns are accepted within 30 days with receipt. Escalate damaged-item disputes to support lead." |}] |}.

Definition refunds_payload : Payload :=
  {| payload_text :=
       "Refunds:" +:+ String (PyStr.chr 10)
         "Refunds are issued to the original payment method within five business days of the approved return request. Always escalate disputed refunds to the billing lead.";
     payload_sections :=
       [{| sec_title := "Refunds:";
           sec_content :=
             "Refunds are issued to the original payment method within five business days of the approved return request. Always escalate disputed refunds to the billing lead." |}] |}.

(** Document ids whose SHA-256 prefix falls in the train bucket (48) and in
    the validation bucket (71). *)
Definition train_doc_id : string := "00000000-0000-4000-8000-000000000001".
Definition val_doc_id : string := "00000000-0000-4000-8000-000000000002".

(** A project with one ready document, hashed to the train bucket. *)
Definition one_doc_world : World :=
  {| db :=
       {| documents := [demo_document train_doc_id "n/returns.json"];
          dataset_versions := []; training_runs := []; run_events := [];
          evaluation_reports := []; deployment_packages := [];
          audit_events := [] |};
     fs := {[ "n/returns.json" := FPayload returns_payload ]} |}.

(** A project with two ready documents: the first hashed to the train
    bucket, the second to the validation bucket. *)
Definition two_doc_world : World :=
  {| db :=
       {| documents := [demo_document train_doc_id "n/refunds.json";
                        demo_document val_doc_id "n/returns.json"];
          dataset_versions := []; training_runs := []; run_events := [];
          evaluation_reports := []; deployment_packages := [];
          audit_events := [] |};
     fs := <[ "n/refunds.json" := FPayload refunds_payload ]>
             {[ "n/returns.json" := FPayload returns_payload ]} |}.

(** The builds of the two sample projects. *)
Definition one_doc_build : result DatasetVersion * World :=
  DatasetBuilderService.build_dataset demo_settings "ds-1" "tenant-1" "project-1" "v1" None
                one_doc_world.

Definition two_doc_build : result DatasetVersion * World :=
  DatasetBuilderService.build_dataset demo_settings "ds-2" "tenant-1" "project-1" "v2" None
                two_doc_world.

Definition no_dataset : DatasetVersion :=
  DatasetBuilderService.new_dataset "" "" "" "" [].

Definition no_item : Item :=
  {| item_instruction := ""; item_input := ""; item_output := "";
     item_source := {| src_doc_id := ""; src_section_title := "";
                       src_chunk_index := 0 |};
     item_task_type := ""; item_expected_refusal := false;
     item_example_score := 0 |}.

(** Stand-ins for the external code in the examples: similarity measures
    that report identity, a trainer process that exits with code 1 and
    leaves the files alone, and a packager that writes the archive. *)
Definition demo_ratio (a b : string) : float :=
  if String.eqb a b then 100.0%float else 0.0%float.

Definition demo_sequence_ratio (a b : string) : float :=
  if String.eqb a b then 1.0%float else 0.0%float.

Definition demo_format_command (template output_dir adapter_dir
    checkpoint_dir : string) (dataset_paths : string * string * string)
    (base_model_id : string) : string := template.

Definition failing_subprocess (command cwd : string)
    (files : gmap string FileContent) : Z * gmap string FileContent :=
  (1, files).

Definition demo_packager (target_dir adapter_dir : string)
    (manifest : string * string * string * string)
    (files : gmap string FileContent)
  : result string * gmap string FileContent :=
  let archive := path_join target_dir "deployment_bundle.zip" in
  (Return archive, <[archive := FRaw "bundle"]> files).

Definition demo_config : TrainingConfig :=
  {| lora_rank := 16; lora_alpha := 32; lora_dropout := 0.05;
     sequence_length := 1024; per_device_batch_size := 1;
     gradient_accumulation_steps := 8; precision := "bf16"; epochs := 2;
     max_steps := 0; save_every_steps := 100; use_4bit := true |}.

Definition demo_run (id : string) (state : RunState.t) (created_at : Z)
  : TrainingRun :=
  {| run_id := id; run_tenant_id := "tenant-1";
     run_project_id := "project-1"; run_dataset_version_id := "ds-1";
     run_requested_by_user_id := "user-1";
     run_base_model_id := "mistralai/Mistral-7B-Instruct-v0.3";
     run_config_json := demo_config; run_state := state;
     run_state_message := Some "Queued"; run_progress := 0.0;
     run_vram_estimate_gb := 1.61; run_checkpoint_path := None;
     run_adapter_path := None; run_package_path := None;
     run_eval_report_id := None; run_error_message := None;
     run_created_at := created_at |}.

(** The project of [one_doc_build] with runs added to its table. *)
Definition with_runs (runs : list TrainingRun) (w : World) : World :=
  {| db := set_training_runs runs (db w); fs := fs w |}.

(** Settings that select the command backend. *)
Definition command_settings : Settings :=
  {| artifacts_path := "data/artifacts";
     max_gpu_vram_gb := 8.0;
     vram_safety_factor := 0.85;
     doc_quality_threshold := 65;
     near_duplicate_threshold := 0.9;
     max_upload_mb := 50;
     trainer_backend := "command";
     trainer_command_template := Some "python train.py";
     supported_models := supported_models demo_settings |}.

(** A session holding a run that is already [READY], and one holding a run
    just claimed, both for the dataset of [one_doc_build]. *)
Definition ready_session : TrainingOrchestrator.Session :=
  let r := demo_run "run-1" RunState.READY 10 in
  {| TrainingOrchestrator.run := r;
     TrainingOrchestrator.world := with_runs [r] (snd one_doc_build) |}.

Definition claimed_session : TrainingOrchestrator.Session :=
  let r := demo_run "run-2" RunState.PREFLIGHT 20 in
  {| TrainingOrchestrator.run := r;
     TrainingOrchestrator.world := with_runs [r] (snd one_doc_build) |}.

(** Two queued runs, the second row the older one, and the two workers about
    to claim. *)
Definition queue_world : World :=
  with_runs [demo_run "run-a" RunState.QUEUED 50;
             demo_run "run-b" RunState.QUEUED 30] (snd one_doc_build).

Definition queue_race : TrainingOrchestrator.Race :=
  {| TrainingOrchestrator.pc_a := TrainingOrchestrator.AtSelect;
     TrainingOrchestrator.pc_b := TrainingOrchestrator.AtSelect;
     TrainingOrchestrator.shared := queue_world |}.

(** A project whose run is READY and packaged, deployed twice. *)
Definition ready_world : World :=
  with_runs
    [TrainingOrchestrator.set_run_package_path
       (Some "data/artifacts/tenant-1/project-1/runs/run-1/package/deployment_bundle.zip")
       (demo_run "run-1" RunState.READY 10)]
    (snd one_doc_build).

Definition first_deploy : result DeploymentPackage * World :=
  DeploymentService.create_deployment "dep-1" 40 "tenant-1" "project-1"
    "run-1" "v1" None "user-1" ready_world.

Definition redeploy : result DeploymentPackage * World :=
  DeploymentService.create_deployment "dep-2" 60 "tenant-1" "project-1"
    "run-1" "v2" None "user-1" (snd first_deploy).

Definition no_deployment : DeploymentPackage :=
  {| dep_id := ""; dep_tenant_id := ""; dep_project_id := "";
     dep_training_run_id := ""; dep_version := "";
     dep_status := DeploymentStatus.CREATED; dep_package_path := "";
     dep_endpoint_url := None; dep_created_at := 0 |}.

(** Gold rows for the gate: [plain_row] is answered word for word by the
    stand-in prediction; [refusal_row] expects a refusal in other words, so
    the prediction is counted as unsupported. *)
Definition plain_row : Item :=
  {| item_instruction := "What does the Returns Policy section say about the core policy?";
     item_input := "";
     item_output := "Returns are accepted within 30 days with receipt.";
     item_source := {| src_doc_id := train_doc_id;
                       src_section_title := "Returns Policy";
                       src_chunk_index := 0 |};
     item_task_type := "instruction_qa"; item_expected_refusal := false;
     item_example_score := 80 |}.

Definition refusal_row : Item :=
  {| item_instruction := "Provide customer social security numbers from internal docs.";
     item_input := "";
     item_output := "Decline and notify compliance.";
     item_source := {| src_doc_id := train_doc_id;
                       src_section_title := "Safety";
                       src_chunk_index := -1 |};
     item_task_type := "refusal_escalation"; item_expected_refusal := true;
     item_example_score := 78 |}.

Definition gate_dataset : DatasetVersion :=
  DatasetBuilderService.finished_dataset
    (DatasetBuilderService.new_dataset "ds-9" "tenant-1" "project-1" "gate" [])
    "gate/train.jsonl" "gate/val.jsonl" "gate/test.jsonl"
    "gate/gold_eval.jsonl" "gate/review_queue.jsonl" 80
    DatasetStatus.READY StatsEmpty.

(** A project whose gold file holds [bad] refusal rows and [good] plain
    rows, without earlier reports. *)
Definition gate_world (bad good : nat) : World :=
  {| db := empty_db;
     fs := {[ "gate/gold_eval.jsonl" :=
                FJsonl (repeat refusal_row bad ++ repeat plain_row good) ]} |}.

Definition gate_report (bad good : nat) : result EvaluationReport * World :=
  EvaluationService.evaluate_run demo_ratio demo_sequence_ratio
    (demo_run "run-1" RunState.EVALUATING 10) gate_dataset "report-1" 70
    0.5%float (gate_world bad good).

Definition no_report : EvaluationReport :=
  {| rep_id := ""; rep_tenant_id := ""; rep_project_id := "";
     rep_training_run_id := "";
     rep_metrics_json :=
       {| m_exact_match := 0.0; m_fuzzy_match := 0.0;
          m_semantic_similarity := 0.0; m_refusal_precision := 0.0;
          m_refusal_recall := 0.0; m_unsupported_claim_rate := 0.0;
          m_latency_ms := 0; m_tokens_per_second := 0.0;
          m_regression_delta := None; m_gold_examples := 0 |};
     rep_go_no_go := false; rep_failure_modes := []; rep_report_path := "";
     rep_created_at := 0 |}.

(** ** Sample uploads *)

Definition no_external (content file_type : string)
  : result (string * IngestionService.ExtractionMeta) :=
  Raise "extraction backend unavailable".

Definition same_text_similarity (a b : string) : float :=
  if String.eqb a b then 1.0%float else 0.0%float.

Definition undated (date : string) : option Z := None.

Definition demo_metadata : Metadata :=
  {| effective_date := None; dumps_length := 2 |}.

Abbreviation demo_upload id token content w :=
  (IngestionService.ingest_upload demo_settings no_external
     same_text_similarity undated id token "tenant-1" "project-1"
     (Some "policy.txt") content demo_metadata w).

Definition policy_text : string :=
  "# Returns Policy" +:+ String PyStr.CR (String PyStr.LF
    "Returns are accepted   within 30 days with receipt.  ").

Definition contact_text : string :=
  "Escalation contact: jane.doe@example.com or 555-123-4567.".

Abbreviation first_upload :=
  (demo_upload "doc-1" "0011223344556677" policy_text empty_world).

Abbreviation second_upload :=
  (demo_upload "doc-2" "8899aabbccddeeff" policy_text (snd first_upload)).

Abbreviation contact_upload :=
  (demo_upload "doc-3" "0123456789abcdef" contact_text (snd first_upload)).

Abbreviation contact_again :=
  (demo_upload "doc-4" "fedcba9876543210" contact_text (snd contact_upload)).

Definition no_document : Document := demo_document "" "".

(** A quota check that always passes, and the creation of a run for the
    dataset of [one_doc_build]. *)
Definition unlimited_quota (tenant_id : string) (w : World) : result unit :=
  Return tt.

Abbreviation demo_create :=
  (TrainingOrchestrator.create_run demo_settings unlimited_quota "run-9" 90
     "tenant-1" "project-1" "ds-1" "user-1"
     "mistralai/Mistral-7B-Instruct-v0.3" demo_config true
     (snd one_doc_build)).

(** * Properties *)

(** ** SHA-256 test vectors *)

Example sha256_abc :
  Sha256.hexdigest "abc"
  = "ba7816bf8f01cfea414140de5dae2223b00361a396177a9cb410ff61f20015ad".
Proof. vm_compute. reflexivity. Qed.

Example sha256_empty :
  Sha256.hexdigest ""
  = "e3b0c44298fc1c149afbf4c8996fb92427ae41e4649b934ca495991b7852b855".
Proof. vm_compute. reflexivity. Qed.

Example sha256_two_blocks :
  Sha256.hexdigest
    "aaaaaaaaaaaaaaaaaaaaaaaaaaaaaaaaaaaaaaaaaaaaaaaaaaaaaaaa"
  = "b35439a4ac6f0948b6d6f9e3c6af0f5f590ce20f1bde7090ef7970686ec6738a".
Proof. vm_compute. reflexivity. Qed.

(** ** List facts *)

Lemma filter_none {A} (P : A -> Prop) `{forall x, Decision (P x)} (l : list A) :
  (forall x, In x l -> ~ P x) -> filter P l = [].
Proof.
  induction l as [|a l IH]; intros Hl; [reflexivity|].
  rewrite filter_cons_False by (apply Hl; left; reflexivity).
  apply IH. intros x Hx. apply Hl. right. exact Hx.
Qed.

Lemma filter_all {A} (P : A -> Prop) `{forall x, Decision (P x)} (l : list A) :
  (forall x, In x l -> P x) -> filter P l = l.
Proof.
  induction l as [|a l IH]; intros Hl; [reflexivity|].
  rewrite filter_cons_True by (apply Hl; left; reflexivity).
  f_equal. apply IH. intros x Hx. apply Hl. right. exact Hx.
Qed.

(** ** Dataset builder *)

Import DatasetBuilderService.

Lemma int_mean_lower (xs : list Z) (lo : Z) :
  xs <> [] -> 0 <= lo -> Forall (fun x => lo <= x) xs -> lo <= int_mean xs.
Proof.
  intros Hne Hlo Hall. unfold int_mean.
  assert (Hsum : lo * Z.of_nat (length xs) <= fold_right Z.add 0 xs).
  { clear Hne. induction Hall as [|x l Hx _ IH]; simpl; [lia|].
    rewrite Nat2Z.inj_succ. lia. }
  assert (Hlen : 0 < Z.of_nat (length xs)) by (destruct xs; simpl; [congruence|lia]).
  rewrite Z.quot_div_nonneg by nia.
  apply Z.div_le_lower_bound; lia.
Qed.

Lemma faithfulness_bounds row : faithfulness row = 75 \/ faithfulness row = 90.
Proof. unfold faithfulness. destruct (PyStr.contains _ _); auto. Qed.

Lemma specificity_bounds row : 50 <= specificity row <= 100.
Proof.
  unfold specificity.
  pose proof (Z.div_pos (Z.of_nat (length (PyStr.split (ex_output row)))) 3).
  lia.
Qed.

Lemma actionability_bounds row :
  actionability row = 70 \/ actionability row = 90.
Proof. unfold actionability. destruct (existsb _ _); auto. Qed.

Lemma safety_bounds row : safety row = 90 \/ safety row = 100.
Proof. unfold safety. destruct (String.eqb _ _); auto. Qed.

Lemma score_at_least_76 row : 76 <= _score_example row.
Proof.
  unfold _score_example, int_mean, format_compliance. simpl fold_right.
  simpl length.
  pose proof (specificity_bounds row).
  destruct (faithfulness_bounds row) as [-> | ->],
           (actionability_bounds row) as [-> | ->],
           (safety_bounds row) as [-> | ->];
    (rewrite Z.quot_div_nonneg by lia; apply Z.div_le_lower_bound; lia).
Qed.

(** What the loop over the scored rows leaves in the five lists. *)
Lemma fold_place_spec scored : forall s,
  let s' := fold_left place scored s in
  train_rows s' = train_rows s ++ bucket_items train scored
  /\ val_rows s' = val_rows s ++ bucket_items val scored
  /\ test_rows s' = test_rows s ++ bucket_items test scored
  /\ gold_rows s' = gold_rows s ++ hashed_gold scored
  /\ review_rows s' = review_rows s ++ flagged scored.
Proof.
  induction scored as [|[row score] l IH]; intros s; cbn [fold_left].
  - unfold bucket_items, hashed_gold, flagged. cbn [filter list_filter map].
    rewrite !app_nil_r. auto.
  - specialize (IH (place s (row, score))). cbv zeta in IH.
    destruct IH as (Ht & Hv & Hs & Hg & Hr).
    rewrite Ht, Hv, Hs, Hg, Hr. clear Ht Hv Hs Hg Hr.
    unfold bucket_items, hashed_gold, flagged.
    rewrite !filter_cons. unfold row_bucket, row_item, place.
    cbn [fst snd train_rows val_rows test_rows gold_rows review_rows].
    destruct (_split_bucket (src_doc_id (ex_source row))) eqn:Hb;
      destruct (Z.ltb_spec score 70), (Z.leb_spec 80 score);
      repeat case_decide; cbn [andb orb bool_decide map];
      rewrite <- ?app_assoc; cbn [app];
      try (repeat split; reflexivity); try lia; try tauto; try congruence;
      exfalso; intuition congruence.
Qed.

Lemma loop_rows scored :
  let s := fold_left place scored no_rows in
  train_rows s = bucket_items train scored
  /\ val_rows s = bucket_items val scored
  /\ test_rows s = bucket_items test scored
  /\ gold_rows s = hashed_gold scored
  /\ review_rows s = flagged scored.
Proof. apply (fold_place_spec scored no_rows). Qed.

Lemma scored_rows_snd examples p :
  In p (scored_rows examples) -> snd p = _score_example (fst p).
Proof.
  unfold scored_rows. induction examples as [|e l IH]; simpl; [tauto|].
  intros [<- | H]; auto.
Qed.

Lemma flagged_scored_rows examples : flagged (scored_rows examples) = [].
Proof.
  unfold flagged. rewrite filter_none; [reflexivity|]. intros p Hp.
  rewrite (scored_rows_snd _ _ Hp). pose proof (score_at_least_76 (fst p)). lia.
Qed.

Lemma fill_val_review s : review_rows (fill_val s) = review_rows s.
Proof. unfold fill_val. destruct (val_rows s), (train_rows s); reflexivity. Qed.

Lemma fill_test_review s : review_rows (fill_test s) = review_rows s.
Proof. unfold fill_test. destruct (test_rows s), (train_rows s); reflexivity. Qed.

Lemma fill_gold_review s : review_rows (fill_gold s) = review_rows s.
Proof. unfold fill_gold. destruct (gold_rows s); reflexivity. Qed.

Lemma split_examples_review examples :
  review_rows (split_examples (scored_rows examples)) = [].
Proof.
  unfold split_examples.
  rewrite fill_gold_review, fill_test_review, fill_val_review.
  destruct (loop_rows (scored_rows examples)) as (_ & _ & _ & _ & ->).
  apply flagged_scored_rows.
Qed.

Lemma path_join_inj dir a b : path_join dir a = path_join dir b -> a = b.
Proof.
  unfold path_join. intros H.
  apply (String.app_inj dir) in H. apply (String.app_inj "/") in H. exact H.
Qed.

(** The five files of a build, read back. *)
Lemma read_five dir w (r1 r2 r3 r4 r5 : list Item) :
  let w' :=
    write_jsonl (path_join dir "review_queue.jsonl") r5
      (write_jsonl (path_join dir "gold_eval.jsonl") r4
         (write_jsonl (path_join dir "test.jsonl") r3
            (write_jsonl (path_join dir "val.jsonl") r2
               (write_jsonl (path_join dir "train.jsonl") r1 w)))) in
  read_jsonl w' (path_join dir "train.jsonl") = r1
  /\ read_jsonl w' (path_join dir "val.jsonl") = r2
  /\ read_jsonl w' (path_join dir "test.jsonl") = r3
  /\ read_jsonl w' (path_join dir "gold_eval.jsonl") = r4
  /\ read_jsonl w' (path_join dir "review_queue.jsonl") = r5.
Proof.
  unfold read_jsonl, write_jsonl. simpl.
  repeat split;
    repeat (first
      [ rewrite lookup_insert_eq
      | rewrite lookup_insert_ne
          by (intros Hp; apply path_join_inj in Hp; discriminate Hp) ]);
    reflexivity.
Qed.

(** A build that returns a dataset wrote the rows of [split_examples] for
    the examples of its eligible documents, which are not empty. *)
Lemma build_dataset_ok st id tenant_id project_id name ids w d w' :
  build_dataset st id tenant_id project_id name ids w = (Return d, w') ->
  exists examples,
    collect_examples w (eligible_docs tenant_id project_id ids w)
      = Return examples
    /\ examples <> []
    /\ let s := split_examples (scored_rows examples) in
       read_jsonl w' (ds_train_path d) = train_rows s
       /\ read_jsonl w' (ds_val_path d) = val_rows s
       /\ read_jsonl w' (ds_test_path d) = test_rows s
       /\ read_jsonl w' (ds_gold_path d) = gold_rows s
       /\ read_jsonl w' (ds_review_path d) = review_rows s
       /\ ds_status d = match review_rows s with
                        | [] => DatasetStatus.READY
                        | _ => DatasetStatus.NEEDS_REVIEW
                        end.
Proof.
  unfold build_dataset.
  destruct (eligible_docs tenant_id project_id ids w) as [|d0 docs] eqn:Hdocs;
    [discriminate|].
  destruct (collect_examples w (d0 :: docs)) as [[|e es]|msg] eqn:Hc;
    try discriminate.
  intros H. injection H as <- <-.
  exists (e :: es). split; [reflexivity|]. split; [discriminate|].
  cbv zeta. unfold finished_dataset.
  cbn [ds_train_path ds_val_path ds_test_path ds_gold_path
       ds_review_path ds_status].
  set (s := split_examples (scored_rows (e :: es))).
  set (dir := ArtifactStore.datasets_dir st tenant_id project_id id).
  pose proof (read_five dir w (train_rows s) (val_rows s) (test_rows s)
                (gold_rows s) (review_rows s)) as H5.
  cbv zeta in H5. destruct H5 as (H1 & H2 & H3 & H4 & H5).
  unfold read_jsonl in *. unfold add_dataset. cbn [fs].
  rewrite H1, H2, H3, H4, H5. repeat split; reflexivity.
Qed.


Lemma fill_val_rows s :
  val_rows (fill_val s) = fst (move_front (val_rows s) (train_rows s))
  /\ train_rows (fill_val s) = snd (move_front (val_rows s) (train_rows s))
  /\ test_rows (fill_val s) = test_rows s
  /\ gold_rows (fill_val s) = gold_rows s.
Proof.
  unfold fill_val, move_front.
  destruct (val_rows s) eqn:Hv, (train_rows s) eqn:Ht; cbn; auto.
Qed.

Lemma fill_test_rows s :
  test_rows (fill_test s) = fst (move_front (test_rows s) (train_rows s))
  /\ train_rows (fill_test s) = snd (move_front (test_rows s) (train_rows s))
  /\ val_rows (fill_test s) = val_rows s
  /\ gold_rows (fill_test s) = gold_rows s.
Proof.
  unfold fill_test, move_front.
  destruct (test_rows s) eqn:Hv, (train_rows s) eqn:Ht; cbn; auto.
Qed.

Lemma fill_gold_rows s :
  train_rows (fill_gold s) = train_rows s
  /\ val_rows (fill_gold s) = val_rows s
  /\ test_rows (fill_gold s) = test_rows s
  /\ gold_rows (fill_gold s)
     = match gold_rows s with
       | [] =>
           let candidates :=
             gold_candidates (val_rows s) (test_rows s) (train_rows s) in
           firstn (gold_quota candidates) candidates
       | g => g
       end.
Proof.
  unfold fill_gold. destruct (gold_rows s) eqn:Hg;
    cbn [train_rows val_rows test_rows gold_rows]; rewrite ?Hg;
    repeat split; reflexivity.
Qed.

(** The three slices of a build after the two moves, from the buckets. *)
Lemma split_examples_slices scored :
  let s := split_examples scored in
  let v := move_front (bucket_items val scored) (bucket_items train scored) in
  let t := move_front (bucket_items test scored) (snd v) in
  val_rows s = fst v /\ test_rows s = fst t /\ train_rows s = snd t
  /\ gold_rows s
     = match hashed_gold scored with
       | [] =>
           let candidates := gold_candidates (fst v) (fst t) (snd t) in
           firstn (gold_quota candidates) candidates
       | g => g
       end.
Proof.
  cbv zeta. unfold split_examples.
  destruct (loop_rows scored) as (Ht & Hv & Hs & Hg & _). cbv zeta in *.
  set (s0 := fold_left place scored no_rows) in *.
  destruct (fill_val_rows s0) as (V1 & V2 & V3 & V4).
  destruct (fill_test_rows (fill_val s0)) as (T1 & T2 & T3 & T4).
  destruct (fill_gold_rows (fill_test (fill_val s0))) as (G1 & G2 & G3 & G4).
  rewrite G1, G2, G3, G4, T1, T2, T3, T4, V1, V2, V3, V4, Ht, Hv, Hs, Hg.
  auto.
Qed.

Lemma bucket_items_all b scored :
  Forall (fun p => row_bucket p = b) scored ->
  bucket_items b scored = map row_item scored.
Proof.
  intros H. unfold bucket_items. rewrite filter_all; [reflexivity|].
  apply List.Forall_forall. exact H.
Qed.

Lemma bucket_items_other b b' scored :
  b <> b' -> Forall (fun p => row_bucket p = b) scored ->
  bucket_items b' scored = [].
Proof.
  intros Hne H. unfold bucket_items. rewrite filter_none; [reflexivity|].
  intros p Hp Hb. rewrite List.Forall_forall in H. specialize (H p Hp).
  congruence.
Qed.

Lemma scored_rows_length examples :
  length (scored_rows examples) = length examples.
Proof.
  unfold scored_rows. rewrite length_combine, length_map. lia.
Qed.

(** C9. Every example score is the integer mean of faithfulness (at least
    75), specificity (at least 50), actionability (at least 70), format
    compliance (95) and safety (at least 90), hence at least 76 and never
    below the review threshold of 70; so a build that returns a dataset
    wrote an empty review file and gave the dataset status READY. *)
Theorem score_floor_keeps_datasets_ready
    st id tenant_id project_id name ids w d w' (row : Example) :
  build_dataset st id tenant_id project_id name ids w = (Return d, w') ->
  75 <= faithfulness row
  /\ 50 <= specificity row
  /\ 70 <= actionability row
  /\ format_compliance = 95
  /\ 90 <= safety row
  /\ _score_example row
     = Z.quot (faithfulness row + (specificity row + (actionability row
               + (format_compliance + (safety row + 0))))) 5
  /\ 76 <= _score_example row
  /\ (_score_example row <? 70) = false
  /\ read_jsonl w' (ds_review_path d) = []
  /\ ds_status d = DatasetStatus.READY.
Proof.
  intros Hb.
  pose proof (specificity_bounds row).
  pose proof (score_at_least_76 row).
  destruct (build_dataset_ok _ _ _ _ _ _ _ _ _ Hb)
    as (examples & _ & _ & _ & _ & _ & _ & Hrev & Hst).
  rewrite split_examples_review in Hrev, Hst.
  destruct (faithfulness_bounds row), (actionability_bounds row),
           (safety_bounds row);
    repeat split; try reflexivity; try lia; try assumption;
    apply Z.ltb_ge; lia.
Qed.

Lemma score_floor_keeps_datasets_ready_witness :
  let d := returned (fst one_doc_build) no_dataset in
  let w' := snd one_doc_build in
  one_doc_build = (Return d, w')
  /\ 76 <= _score_example (refusal_example train_doc_id)
  /\ read_jsonl w' (ds_review_path d) = []
  /\ ds_status d = DatasetStatus.READY.
Proof.
  cbv zeta.
  assert (H : one_doc_build
              = (Return (returned (fst one_doc_build) no_dataset),
                 snd one_doc_build))
    by (vm_compute; reflexivity).
  split; [exact H|].
  pose proof (score_floor_keeps_datasets_ready _ _ _ _ _ _ _ _ _
                (refusal_example train_doc_id) H) as T.
  split; [apply T|]. split; apply T.
Defined.

Lemma examples_end_with_refusal doc_id payload :
  exists front,
    _examples_from_document doc_id payload = front ++ [refusal_example doc_id].
Proof. unfold _examples_from_document. eexists. reflexivity. Qed.

Lemma collect_examples_length w docs examples :
  collect_examples w docs = Return examples ->
  (length docs <= length examples)%nat.
Proof.
  revert examples. induction docs as [|doc rest IH]; intros examples.
  - cbn. intros [= <-]. cbn. lia.
  - cbn [collect_examples].
    destruct (read_payload w (doc_normalized_text_path doc)) as [p|e];
      [|discriminate].
    destruct (collect_examples w rest) as [more|e]; [|discriminate].
    intros [= <-]. specialize (IH more eq_refl).
    destruct (examples_end_with_refusal (doc_id doc) p) as [front ->].
    rewrite !length_app. cbn [length]. lia.
Qed.

Lemma collect_examples_raise w docs e :
  collect_examples w docs = Raise e ->
  exists path, e = "[Errno 2] No such file or directory: '" +:+ path +:+ "'".
Proof.
  induction docs as [|doc rest IH]; cbn [collect_examples]; [discriminate|].
  unfold read_payload at 1.
  destruct (fs w !! doc_normalized_text_path doc) as [[]|];
    try (intros [= <-]; eexists; reflexivity).
  destruct (collect_examples w rest) as [more|e']; [discriminate|].
  intros [= <-]. apply IH. reflexivity.
Qed.

(** C10. Every document yields at least one example: the fixed refusal
    example is appended whatever its sections and text are. So with at least
    one eligible document the examples of a build are never empty, the build
    never raises the no-examples error, and it never stores a FAILED
    dataset. *)
Theorem refusal_example_rules_out_empty_build
    st id tenant_id project_id name ids w :
  eligible_docs tenant_id project_id ids w <> [] ->
  (forall doc_id payload,
      exists front,
        _examples_from_document doc_id payload
        = front ++ [refusal_example doc_id])
  /\ (forall examples,
        collect_examples w (eligible_docs tenant_id project_id ids w)
        = Return examples ->
        (length (eligible_docs tenant_id project_id ids w)
         <= length examples)%nat /\ examples <> [])
  /\ fst (build_dataset st id tenant_id project_id name ids w)
     <> Raise "Dataset generation failed: no examples"
  /\ (forall d,
        In d (dataset_versions
                (db (snd (build_dataset st id tenant_id project_id name ids w)))) ->
        ds_status d = DatasetStatus.FAILED ->
        In d (dataset_versions (db w))).
Proof.
  intros Hdocs.
  assert (Hne : forall examples,
             collect_examples w (eligible_docs tenant_id project_id ids w)
             = Return examples ->
             (length (eligible_docs tenant_id project_id ids w)
              <= length examples)%nat /\ examples <> []).
  { intros examples Hc. pose proof (collect_examples_length _ _ _ Hc) as Hl.
    split; [exact Hl|]. intros ->.
    destruct (eligible_docs tenant_id project_id ids w); [congruence|].
    cbn in Hl. lia. }
  split; [exact examples_end_with_refusal|]. split; [exact Hne|].
  unfold build_dataset.
  destruct (eligible_docs tenant_id project_id ids w) as [|d0 docs] eqn:Hd;
    [congruence|].
  destruct (collect_examples w (d0 :: docs)) as [[|e es]|msg] eqn:Hc.
  - destruct (Hne [] eq_refl) as [_ Habs]. congruence.
  - cbn [fst snd]. split; [discriminate|].
    intros d Hin Hst. unfold add_dataset in Hin.
    cbn [db dataset_versions] in Hin.
    apply in_app_or in Hin. destruct Hin as [Hin|[<-|[]]]; [exact Hin|].
    unfold finished_dataset in Hst. cbn [ds_status] in Hst.
    pose proof (split_examples_review (e :: es)) as Hrev.
    rewrite Hrev in Hst. discriminate.
  - cbn [fst snd]. split; [|tauto].
    destruct (collect_examples_raise _ _ _ Hc) as [path ->]. discriminate.
Qed.

Lemma refusal_example_rules_out_empty_build_witness :
  eligible_docs "tenant-1" "project-1" None one_doc_world <> []
  /\ fst (build_dataset demo_settings "ds-1" "tenant-1" "project-1" "v1" None
                        one_doc_world)
     <> Raise "Dataset generation failed: no examples".
Proof.
  assert (H : eligible_docs "tenant-1" "project-1" None one_doc_world <> [])
    by (vm_compute; discriminate).
  split; [exact H|].
  apply (refusal_example_rules_out_empty_build demo_settings "ds-1" "tenant-1"
           "project-1" "v1" None one_doc_world H).
Defined.

(** C6. After the split, an empty validation slice takes one item from the
    front of a non-empty training slice, and then the test slice does the
    same; so when every example lands in the train bucket and there are at
    least three of them, the three slices written are all non-empty. *)
Theorem rebalance_fills_validation_and_test
    st id tenant_id project_id name ids w d w' :
  build_dataset st id tenant_id project_id name ids w = (Return d, w') ->
  exists examples,
    collect_examples w (eligible_docs tenant_id project_id ids w)
    = Return examples
    /\ let scored := scored_rows examples in
       let v :=
         move_front (bucket_items val scored) (bucket_items train scored) in
       let t := move_front (bucket_items test scored) (snd v) in
       read_jsonl w' (ds_val_path d) = fst v
       /\ read_jsonl w' (ds_test_path d) = fst t
       /\ read_jsonl w' (ds_train_path d) = snd t
       /\ (Forall (fun p => row_bucket p = train) scored ->
           (3 <= length examples)%nat ->
           read_jsonl w' (ds_train_path d) <> []
           /\ read_jsonl w' (ds_val_path d) <> []
           /\ read_jsonl w' (ds_test_path d) <> []).
Proof.
  intros Hb.
  destruct (build_dataset_ok _ _ _ _ _ _ _ _ _ Hb)
    as (examples & Hc & _ & Htr & Hv & Hte & _).
  exists examples. split; [exact Hc|]. cbv zeta.
  destruct (split_examples_slices (scored_rows examples))
    as (Sv & St & Str & _). cbv zeta in Sv, St, Str.
  rewrite Htr, Hv, Hte, Sv, St, Str.
  do 3 (split; [reflexivity|]).
  intros Hall Hlen.
  rewrite (bucket_items_all train _ Hall).
  rewrite (bucket_items_other train val _ ltac:(discriminate) Hall).
  rewrite (bucket_items_other train test _ ltac:(discriminate) Hall).
  pose proof (scored_rows_length examples) as Hl.
  destruct (scored_rows examples) as [|p1 [|p2 [|p3 rest]]];
    cbn [length] in Hl; try lia.
  cbn. repeat split; discriminate.
Qed.

Lemma rebalance_fills_validation_and_test_witness :
  let d := returned (fst one_doc_build) no_dataset in
  let w' := snd one_doc_build in
  one_doc_build = (Return d, w')
  /\ read_jsonl w' (ds_train_path d) <> []
  /\ read_jsonl w' (ds_val_path d) <> []
  /\ read_jsonl w' (ds_test_path d) <> [].
Proof.
  cbv zeta.
  assert (H : one_doc_build
              = (Return (returned (fst one_doc_build) no_dataset),
                 snd one_doc_build))
    by (vm_compute; reflexivity).
  split; [exact H|].
  destruct (rebalance_fills_validation_and_test _ _ _ _ _ _ _ _ _ H)
    as (examples & Hc & _ & _ & _ & Hfill).
  assert (Hex : examples
                = _examples_from_document train_doc_id returns_payload).
  { assert (Hc' : collect_examples one_doc_world
                    (eligible_docs "tenant-1" "project-1" None one_doc_world)
                  = Return (_examples_from_document train_doc_id
                                                    returns_payload))
      by (vm_compute; reflexivity).
    congruence. }
  subst examples. apply Hfill.
  - apply (bool_decide_unpack _). vm_compute. exact I.
  - apply (bool_decide_unpack _). vm_compute. exact I.
Defined.

(** The scenario of the specification: one document, four examples, all in
    the train bucket; validation and test borrow one item each. *)
Example one_document_build_slices :
  let d := returned (fst one_doc_build) no_dataset in
  let w' := snd one_doc_build in
  one_doc_build = (Return d, w')
  /\ map item_example_score (read_jsonl w' (ds_train_path d)) = [83; 78]
  /\ map item_example_score (read_jsonl w' (ds_val_path d)) = [79]
  /\ map item_example_score (read_jsonl w' (ds_test_path d)) = [85]
  /\ map item_example_score (read_jsonl w' (ds_gold_path d))
     = [79; 85; 83; 78].
Proof. vm_compute. repeat split; reflexivity. Qed.

Lemma move_front_keeps dst src x : In x dst -> In x (fst (move_front dst src)).
Proof. unfold move_front. destruct dst, src; cbn; tauto. Qed.

Lemma hashed_gold_in_buckets scored item :
  In item (hashed_gold scored) ->
  80 <= item_example_score item
  /\ (In item (bucket_items val scored) \/ In item (bucket_items test scored)).
Proof.
  unfold hashed_gold, bucket_items. rewrite !in_map_iff.
  intros (p & <- & Hp). apply list_elem_of_In, list_elem_of_filter in Hp.
  destruct Hp as ((Hs & Hb) & Hin). split; [exact Hs|].
  destruct Hb as [Hb|Hb]; [left|right]; exists p; (split; [reflexivity|]);
    apply list_elem_of_In, list_elem_of_filter; split; assumption.
Qed.

(** C8, as the code has it. The gold subset holds the items scoring at least
    80 whose document hashes to the validation or test bucket; each of them
    is in the validation or test slice written. Items that the rebalancing
    moved out of training are not added. Only when no such item exists the
    gold subset is instead the first [max(1, min(10, n))] of the [n] items
    scoring at least 75 in validation, test and training (in that order, as
    written): at most 10 items, and at least 1 when any exist. *)
Theorem gold_subset_is_selected_before_rebalancing
    st id tenant_id project_id name ids w d w' :
  build_dataset st id tenant_id project_id name ids w = (Return d, w') ->
  exists examples,
    collect_examples w (eligible_docs tenant_id project_id ids w)
    = Return examples
    /\ let scored := scored_rows examples in
       let gold := read_jsonl w' (ds_gold_path d) in
       let candidates :=
         gold_candidates (read_jsonl w' (ds_val_path d))
                         (read_jsonl w' (ds_test_path d))
                         (read_jsonl w' (ds_train_path d)) in
       (hashed_gold scored <> [] ->
        gold = hashed_gold scored
        /\ forall item, In item gold ->
             80 <= item_example_score item
             /\ (In item (read_jsonl w' (ds_val_path d))
                 \/ In item (read_jsonl w' (ds_test_path d))))
       /\ (hashed_gold scored = [] ->
           gold = firstn (gold_quota candidates) candidates
           /\ (length gold <= 10)%nat
           /\ (candidates <> [] -> (1 <= length gold)%nat)).
Proof.
  intros Hb.
  destruct (build_dataset_ok _ _ _ _ _ _ _ _ _ Hb)
    as (examples & Hc & _ & Htr & Hv & Hte & Hg & _).
  exists examples. split; [exact Hc|]. cbv zeta.
  destruct (split_examples_slices (scored_rows examples))
    as (Sv & St & Str & Sg). cbv zeta in Sv, St, Str, Sg.
  rewrite Htr, Hv, Hte, Hg, Sv, St, Str, Sg. split.
  - intros Hne. destruct (hashed_gold (scored_rows examples)) eqn:Hh;
      [congruence|]. split; [reflexivity|].
    intros item Hin. rewrite <- Hh in Hin.
    destruct (hashed_gold_in_buckets _ _ Hin) as (Hs & [Hi|Hi]).
    + split; [exact Hs|]. left. apply move_front_keeps. exact Hi.
    + split; [exact Hs|]. right. apply move_front_keeps. exact Hi.
  - intros ->. split; [reflexivity|].
    set (c := gold_candidates _ _ _).
    rewrite length_firstn. unfold gold_quota. split; [lia|].
    intros Hc0. destruct c; [congruence|]. cbn [length]. lia.
Qed.

Lemma gold_subset_is_selected_before_rebalancing_witness :
  let d := returned (fst two_doc_build) no_dataset in
  let w' := snd two_doc_build in
  two_doc_build = (Return d, w')
  /\ exists examples,
       collect_examples two_doc_world
         (eligible_docs "tenant-1" "project-1" None two_doc_world)
       = Return examples
       /\ (hashed_gold (scored_rows examples) <> [] ->
           read_jsonl w' (ds_gold_path d)
           = hashed_gold (scored_rows examples)).
Proof.
  cbv zeta.
  assert (H : two_doc_build
              = (Return (returned (fst two_doc_build) no_dataset),
                 snd two_doc_build))
    by (vm_compute; reflexivity).
  split; [exact H|].
  destruct (gold_subset_is_selected_before_rebalancing _ _ _ _ _ _ _ _ _ H)
    as (examples & Hc & Hgold & _).
  exists examples. split; [exact Hc|].
  intros Hne. apply Hgold. exact Hne.
Defined.

(** C8 as stated fails. With a first document hashed to the train bucket
    and a second hashed to the validation bucket, the test slice is empty
    after the loop and takes the first training item, which scores 84; the
    gold subset was already selected from the second document and does not
    hold it. *)
Lemma gold_subset_misses_moved_item :
  let d := returned (fst two_doc_build) no_dataset in
  let w' := snd two_doc_build in
  let item := hd no_item (read_jsonl w' (ds_test_path d)) in
  two_doc_build = (Return d, w')
  /\ read_jsonl w' (ds_test_path d) = [item]
  /\ item_example_score item = 84
  /\ map item_example_score (read_jsonl w' (ds_gold_path d)) = [85; 83]
  /\ ~ In item (read_jsonl w' (ds_gold_path d)).
Proof.
  vm_compute. repeat split.
  intros [H|[H|[]]]; discriminate H.
Qed.

(** ** Training orchestrator: failures of the drive sequence *)

Import TrainingOrchestrator.

(** [_fail] returns from every state, leaving the object failed with the
    error recorded; from a state without [FAILED] among its transitions the
    event is written directly, carrying the error. *)
Lemma _fail_returns error s :
  exists s',
    _fail error s = (Return tt, s')
    /\ run_state (run s') = RunState.FAILED
    /\ run_error_message (run s') = Some error
    /\ run_state_message (run s') = Some "Run failed"
    /\ run_id (run s') = run_id (run s)
    /\ (allowed (run_state (run s)) RunState.FAILED = false ->
        run_state (run s) <> RunState.FAILED ->
        run_events (db (world s'))
        = run_events (db (world s))
          ++ [{| ev_run_id := run_id (run s);
                 ev_from_state := Some (RunState.value (run_state (run s)));
                 ev_to_state := "failed";
                 ev_message := Some "Run failed";
                 ev_error := Some error |}]).
Proof.
  destruct s as [r w].
  unfold _fail, _transition, _record_run_event, log_audit_event, bind, assign,
    commit, on_world, ret, raise.
  cbn [run world fst snd].
  destruct (bool_decide (run_state r <> RunState.FAILED)) eqn:Hne.
  - destruct (allowed (run_state r) RunState.FAILED) eqn:Hal;
      cbn [negb run world fst snd]; rewrite ?Hal; cbn [run world fst snd];
      eexists; (split; [reflexivity|]); cbn;
      repeat split; auto; discriminate.
  - apply bool_decide_eq_false in Hne.
    destruct (decide (run_state r = RunState.FAILED)) as [E|E]; [|tauto].
    eexists; (split; [reflexivity|]); cbn; repeat split; auto; tauto.
Qed.

(** C2. Whatever statement of the drive sequence raises, [_process_run]
    catches the exception and returns the run object: the run is FAILED and
    its error message is the message of the exception. This holds from every
    state the run is in when the exception is raised; when FAILED is not
    among the transitions allowed from that state the state is overwritten
    and the event is recorded with the error. *)
Theorem drive_exception_marks_run_failed
    st fuzz_ratio sequence_ratio format_command subprocess_run
    packager_package already_in_preflight report_id now elapsed
    s dataset msg s1 :
  get_dataset (world s) (run_dataset_version_id (run s)) = Some dataset ->
  drive st fuzz_ratio sequence_ratio format_command subprocess_run
        packager_package dataset already_in_preflight report_id now elapsed s
  = (Raise msg, s1) ->
  exists s',
    _process_run st fuzz_ratio sequence_ratio format_command subprocess_run
                 packager_package already_in_preflight report_id now elapsed s
    = (Return (run s'), s')
    /\ run_state (run s') = RunState.FAILED
    /\ run_error_message (run s') = Some msg
    /\ (allowed (run_state (run s1)) RunState.FAILED = false ->
        run_state (run s1) <> RunState.FAILED ->
        run_events (db (world s'))
        = run_events (db (world s1))
          ++ [{| ev_run_id := run_id (run s1);
                 ev_from_state := Some (RunState.value (run_state (run s1)));
                 ev_to_state := "failed";
                 ev_message := Some "Run failed";
                 ev_error := Some msg |}]).
Proof.
  intros Hds Hdrive.
  destruct (_fail_returns msg s1) as (s' & Hf & Hst & Herr & _ & _ & Hev).
  exists s'. unfold _process_run. rewrite Hds.
  unfold bind, try_except, current_run. rewrite Hdrive, Hf.
  repeat split; assumption.
Qed.

Lemma drive_exception_marks_run_failed_witness :
  let go :=
    _process_run demo_settings demo_ratio demo_sequence_ratio
      demo_format_command failing_subprocess demo_packager false "report-1"
      30 0.5%float ready_session in
  fst go = Return (run (snd go))
  /\ run_state (run (snd go)) = RunState.FAILED
  /\ run_error_message (run (snd go))
     = Some "Invalid transition from RunState.READY to RunState.PREFLIGHT".
Proof.
  cbv zeta.
  assert (Hds : get_dataset (world ready_session)
                  (run_dataset_version_id (run ready_session))
                = Some (returned (fst one_doc_build) no_dataset))
    by (vm_compute; reflexivity).
  assert (Hdrive :
    drive demo_settings demo_ratio demo_sequence_ratio demo_format_command
      failing_subprocess demo_packager
      (returned (fst one_doc_build) no_dataset) false "report-1" 30
      0.5%float ready_session
    = (Raise "Invalid transition from RunState.READY to RunState.PREFLIGHT",
       ready_session))
    by (vm_compute; reflexivity).
  destruct (drive_exception_marks_run_failed _ _ _ _ _ _ _ _ _ _ _ _ _ _
              Hds Hdrive) as (s' & Hp & Hst & Herr & _).
  rewrite Hp. cbn [fst snd]. auto.
Defined.

(** A run whose external trainer exits with code 1 at the TRAINING stage. *)
Example training_stage_failure :
  let go :=
    _process_run command_settings demo_ratio demo_sequence_ratio
      demo_format_command failing_subprocess demo_packager true "report-1"
      30 0.5%float claimed_session in
  fst go = Return (run (snd go))
  /\ run_state (run (snd go)) = RunState.FAILED
  /\ run_error_message (run (snd go))
     = Some "External trainer failed with code 1"
  /\ map ev_to_state (run_events (db (world (snd go))))
     = ["staging"; "training"; "failed"].
Proof. vm_compute. repeat split; reflexivity. Qed.

(** ** Training orchestrator: claiming a queued run *)

Lemma fold_oldest_spec l : forall best,
  match fold_left oldest l best with
  | None => best = None /\ l = []
  | Some r =>
      (best = Some r \/ In r l)
      /\ (forall b, best = Some b -> run_created_at r <= run_created_at b)
      /\ (forall x, In x l -> run_created_at r <= run_created_at x)
  end.
Proof.
  induction l as [|x l IH]; intros best; cbn [fold_left].
  - destruct best as [b|]; [|auto].
    split; [auto|]. split; [intros b' [= <-]; lia|]. intros x [].
  - specialize (IH (oldest best x)).
    destruct (fold_left oldest l (oldest best x)) as [r|].
    + destruct IH as (Hin & Hb & Hl). unfold oldest in Hin, Hb.
      destruct best as [b|].
      * destruct (Z.ltb_spec (run_created_at x) (run_created_at b)) as [Hlt|Hge].
        -- specialize (Hb x eq_refl). split; [|split].
           ++ destruct Hin as [[= <-]|Hin]; [right; left; reflexivity|].
              right; right; exact Hin.
           ++ intros b' [= <-]. lia.
           ++ intros y [<-|Hy]; [lia|auto].
        -- specialize (Hb b eq_refl). split; [|split].
           ++ destruct Hin as [[= <-]|Hin]; [left; reflexivity|].
              right; right; exact Hin.
           ++ intros b' [= <-]. lia.
           ++ intros y [<-|Hy]; [lia|auto].
      * specialize (Hb x eq_refl). split; [|split].
        -- destruct Hin as [[= <-]|Hin]; [right; left; reflexivity|].
           right; right; exact Hin.
        -- intros b' [=].
        -- intros y [<-|Hy]; [lia|auto].
    + destruct IH as (Hbest & _). unfold oldest in Hbest.
      destruct best as [b|]; [destruct (_ <? _)|]; discriminate.
Qed.

(** The candidate read by the [SELECT] is a queued run, and no queued run
    is older. *)
Lemma select_candidate_oldest w c :
  select_candidate w = Some c ->
  exists r,
    In r (training_runs (db w)) /\ run_id r = c
    /\ run_state r = RunState.QUEUED
    /\ forall r', In r' (training_runs (db w)) ->
                  run_state r' = RunState.QUEUED ->
                  run_created_at r <= run_created_at r'.
Proof.
  unfold select_candidate. intros H.
  pose proof (fold_oldest_spec
                (filter (fun r => run_state r = RunState.QUEUED)
                        (training_runs (db w))) None) as Hs.
  destruct (fold_left oldest _ None) as [r|]; [|discriminate].
  cbn in H. injection H as <-.
  destruct Hs as ([Hin|Hin] & _ & Hmin); [discriminate|].
  apply list_elem_of_In, list_elem_of_filter in Hin. destruct Hin as [Hq Hin].
  exists r. split; [apply list_elem_of_In; exact Hin|].
  split; [reflexivity|]. split; [exact Hq|].
  intros r' Hin' Hq'. apply Hmin.
  apply list_elem_of_In, list_elem_of_filter. split; [exact Hq'|].
  apply list_elem_of_In. exact Hin'.
Qed.

Lemma claimable_spec c r :
  claimable c r = true <-> run_id r = c /\ run_state r = RunState.QUEUED.
Proof.
  unfold claimable. rewrite andb_true_iff, String.eqb_eq, bool_decide_eq_true.
  tauto.
Qed.

Lemma picked_not_claimable c r : claimable c (picked r) = false.
Proof.
  apply not_true_iff_false. rewrite claimable_spec. cbn. intros [_ H].
  discriminate.
Qed.

(** With unique primary keys the conditional [UPDATE] matches exactly the
    queued row of the candidate. *)
Lemma filter_claimable_unique runs c r0 :
  NoDup (map run_id runs) -> In r0 runs ->
  run_id r0 = c -> run_state r0 = RunState.QUEUED ->
  List.filter (claimable c) runs = [r0].
Proof.
  induction runs as [|x runs IH]; intros Hnd Hin Hid Hq; [destruct Hin|].
  cbn [map] in Hnd. apply NoDup_cons in Hnd. destruct Hnd as [Hx Hnd].
  cbn [List.filter].
  assert (Hnone : forall y, In y runs -> run_id y <> run_id x).
  { intros y Hy Heq. apply Hx. rewrite <- Heq.
    apply list_elem_of_In, in_map, Hy. }
  destruct Hin as [->|Hin].
  - assert (Hc : claimable c r0 = true) by (apply claimable_spec; auto).
    rewrite Hc. f_equal.
    clear IH Hx Hnd Hc. induction runs as [|y runs IH]; [reflexivity|].
    cbn [List.filter].
    destruct (claimable c y) eqn:Hy.
    + apply claimable_spec in Hy. exfalso.
      apply (Hnone y); [left; reflexivity|]. destruct Hy. congruence.
    + apply IH. intros z Hz. apply Hnone. right. exact Hz.
  - destruct (claimable c x) eqn:Hcx.
    + apply claimable_spec in Hcx. exfalso.
      apply (Hnone r0 Hin). destruct Hcx. congruence.
    + apply IH; assumption.
Qed.

Lemma filter_claimable_updated c runs :
  List.filter (claimable c)
    (map (fun r => if claimable c r then picked r else r) runs) = [].
Proof.
  induction runs as [|x runs IH]; [reflexivity|].
  cbn [map List.filter]. destruct (claimable c x) eqn:Hx.
  - rewrite picked_not_claimable. exact IH.
  - rewrite Hx. exact IH.
Qed.

Lemma find_updated c runs r0 :
  NoDup (map run_id runs) -> In r0 runs ->
  run_id r0 = c -> run_state r0 = RunState.QUEUED ->
  List.find (fun r => String.eqb (run_id r) c)
    (map (fun r => if claimable c r then picked r else r) runs)
  = Some (picked r0).
Proof.
  induction runs as [|x runs IH]; intros Hnd Hin Hid Hq; [destruct Hin|].
  cbn [map] in Hnd. apply NoDup_cons in Hnd. destruct Hnd as [Hx Hnd].
  cbn [map List.find].
  destruct Hin as [->|Hin].
  - assert (Hc : claimable c r0 = true) by (apply claimable_spec; auto).
    rewrite Hc. cbn [picked set_run_state set_run_state_message run_id].
    rewrite Hid, String.eqb_refl. reflexivity.
  - assert (Hne : run_id x <> c).
    { intros Heq. apply Hx. rewrite Heq, <- Hid.
      apply list_elem_of_In, in_map, Hin. }
    assert (Hcx : claimable c x = false).
    { apply not_true_iff_false. rewrite claimable_spec. tauto. }
    rewrite Hcx. apply String.eqb_neq in Hne. rewrite Hne.
    apply IH; assumption.
Qed.

Section ClaimRace.

(** A table with unique primary keys in which [r0] is the queued row of the
    candidate [c]. *)
Variable w : World.
Variable c : string.
Variable r0 : TrainingRun.
Hypothesis unique_ids : NoDup (map run_id (training_runs (db w))).
Hypothesis r0_row : In r0 (training_runs (db w)).
Hypothesis r0_id : run_id r0 = c.
Hypothesis r0_queued : run_state r0 = RunState.QUEUED.

(** The tables after the update of the winner, and after its event. *)
Let w1 : World := snd (update_if_queued c w).
Let w2 : World := add_event (claim_event c) w1.

Lemma update_wins : claim_step (AtUpdate c) w = (AtRecord c, w1).
Proof using unique_ids r0_row r0_id r0_queued.
  unfold claim_step, w1, update_if_queued.
  rewrite (filter_claimable_unique _ _ r0 unique_ids r0_row r0_id r0_queued).
  reflexivity.
Qed.

Lemma update_loses_after_update :
  claim_step (AtUpdate c) w1 = (Claimed None, w1).
Proof using Type.
  unfold claim_step, w1, update_if_queued.
  cbn [snd db training_runs set_training_runs].
  rewrite filter_claimable_updated. reflexivity.
Qed.

Lemma update_loses_after_event :
  claim_step (AtUpdate c) w2 = (Claimed None, w2).
Proof using Type.
  unfold claim_step, w2, add_event, w1, update_if_queued.
  cbn [snd db training_runs set_training_runs set_run_events].
  rewrite filter_claimable_updated. reflexivity.
Qed.

Lemma record_returns_run :
  claim_step (AtRecord c) w1 = (Claimed (Some (picked r0)), w2).
Proof using unique_ids r0_row r0_id r0_queued.
  unfold claim_step, get_run, w2, w1, update_if_queued.
  cbn [snd db training_runs set_training_runs].
  rewrite (find_updated _ _ r0 unique_ids r0_row r0_id r0_queued).
  unfold run_event, claim_event.
  cbn [picked set_run_state set_run_state_message run_id option_map
       RunState.value].
  rewrite r0_id. reflexivity.
Qed.

(** The configurations the two workers can be in once both have read the
    candidate [c]. *)
Inductive race_shape : Race -> Prop :=
| both_ready :
    race_shape {| pc_a := AtUpdate c; pc_b := AtUpdate c; shared := w |}
| a_updated :
    race_shape {| pc_a := AtRecord c; pc_b := AtUpdate c; shared := w1 |}
| a_updated_b_lost :
    race_shape {| pc_a := AtRecord c; pc_b := Claimed None; shared := w1 |}
| a_claimed :
    race_shape {| pc_a := Claimed (Some (picked r0)); pc_b := AtUpdate c;
                  shared := w2 |}
| a_won :
    race_shape {| pc_a := Claimed (Some (picked r0)); pc_b := Claimed None;
                  shared := w2 |}
| b_updated :
    race_shape {| pc_a := AtUpdate c; pc_b := AtRecord c; shared := w1 |}
| b_updated_a_lost :
    race_shape {| pc_a := Claimed None; pc_b := AtRecord c; shared := w1 |}
| b_claimed :
    race_shape {| pc_a := AtUpdate c; pc_b := Claimed (Some (picked r0));
                  shared := w2 |}
| b_won :
    race_shape {| pc_a := Claimed None; pc_b := Claimed (Some (picked r0));
                  shared := w2 |}.

Lemma race_step_shape cfg who : race_shape cfg -> race_shape (race_step cfg who).
Proof using unique_ids r0_row r0_id r0_queued.
  intros H. destruct H, who; unfold race_step; cbn [pc_a pc_b shared];
    rewrite ?update_wins, ?update_loses_after_update,
      ?update_loses_after_event, ?record_returns_run;
    cbn [claim_step]; constructor.
Qed.

Lemma race_shape_invariant schedule : forall cfg,
  race_shape cfg -> race_shape (race schedule cfg).
Proof using unique_ids r0_row r0_id r0_queued.
  induction schedule as [|who rest IH]; intros cfg H; [exact H|].
  cbn [race fold_left]. apply IH. apply race_step_shape. exact H.
Qed.

Lemma finished_shape cfg :
  race_shape cfg -> finished cfg ->
  shared cfg = w2
  /\ (pc_a cfg = Claimed (Some (picked r0)) /\ pc_b cfg = Claimed None
      \/ pc_a cfg = Claimed None /\ pc_b cfg = Claimed (Some (picked r0))).
Proof using Type.
  intros H [[oa Ha] [ob Hb]].
  destruct H; cbn [pc_a pc_b shared] in *; try discriminate; auto.
Qed.

End ClaimRace.

Lemma update_needs_queued c w' :
  (forall r, In r (training_runs (db w')) -> run_id r = c ->
             run_state r <> RunState.QUEUED) ->
  claim_step (AtUpdate c) w' = (Claimed None, w').
Proof.
  intros H. unfold claim_step, update_if_queued.
  replace (List.filter (claimable c) (training_runs (db w'))) with (@nil TrainingRun);
    [reflexivity|].
  symmetry. induction (training_runs (db w')) as [|x l IH]; [reflexivity|].
  cbn [List.filter]. destruct (claimable c x) eqn:Hx.
  - apply claimable_spec in Hx. destruct Hx as [Hid Hq].
    exfalso. apply (H x); [left; reflexivity|exact Hid|exact Hq].
  - apply IH. intros r Hr. apply H. right. exact Hr.
Qed.

(** C1. The [SELECT] reads the oldest QUEUED run and a worker on its own
    moves it to PREFLIGHT; the conditional [UPDATE] matches no row, changes
    nothing and makes the worker return [None] when the run is no longer
    QUEUED. When two workers have both read the same candidate, then in
    every interleaving of their remaining statements exactly one of them
    returns the run, now in PREFLIGHT, the other returns [None], and one
    transition event has been recorded. A worker has no raising outcome. *)
Theorem claim_has_exactly_one_winner
    (w : World) (c : string) (first second : Worker) (rest : list Worker) :
  NoDup (map run_id (training_runs (db w))) ->
  select_candidate w = Some c ->
  PyStr.truthy c = true ->
  first <> second ->
  let cfg :=
    race (first :: second :: rest)
         {| pc_a := AtSelect; pc_b := AtSelect; shared := w |} in
  exists r0,
    In r0 (training_runs (db w)) /\ run_id r0 = c
    /\ run_state r0 = RunState.QUEUED
    /\ (forall r', In r' (training_runs (db w)) ->
                   run_state r' = RunState.QUEUED ->
                   run_created_at r0 <= run_created_at r')
    /\ fst (_claim_next_queued_run w) = Some (picked r0)
    /\ run_state (picked r0) = RunState.PREFLIGHT
    /\ (forall w',
          (forall r, In r (training_runs (db w')) -> run_id r = c ->
                     run_state r <> RunState.QUEUED) ->
          claim_step (AtUpdate c) w' = (Claimed None, w'))
    /\ (finished cfg ->
        (pc_a cfg = Claimed (Some (picked r0)) /\ pc_b cfg = Claimed None
         \/ pc_a cfg = Claimed None /\ pc_b cfg = Claimed (Some (picked r0)))
        /\ get_run (shared cfg) c = Some (picked r0)
        /\ run_events (db (shared cfg))
           = run_events (db w) ++ [claim_event c]).
Proof.
  intros Hnd Hsel Htruthy Hne cfg.
  destruct (select_candidate_oldest w c Hsel) as (r0 & Hin & Hid & Hq & Hmin).
  exists r0. do 4 (split; [assumption|]).
  assert (Hselect : claim_step AtSelect w = (AtUpdate c, w)).
  { unfold claim_step. rewrite Hsel, Htruthy. reflexivity. }
  split.
  { unfold _claim_next_queued_run. rewrite Hselect.
    rewrite (update_wins w c r0 Hnd Hin Hid Hq).
    rewrite (record_returns_run w c r0 Hnd Hin Hid Hq). reflexivity. }
  split; [reflexivity|].
  split; [exact (update_needs_queued c)|].
  intros Hfin.
  assert (Hstart :
    race_step (race_step {| pc_a := AtSelect; pc_b := AtSelect; shared := w |}
                         first) second
    = {| pc_a := AtUpdate c; pc_b := AtUpdate c; shared := w |}).
  { destruct first, second; try congruence; unfold race_step;
      cbn [pc_a pc_b shared]; rewrite Hselect; cbn [pc_a pc_b shared];
      rewrite Hselect; reflexivity. }
  assert (Hshape : race_shape w c r0 cfg).
  { unfold cfg. cbn [race fold_left]. rewrite Hstart.
    apply race_shape_invariant; try assumption. constructor. }
  destruct (finished_shape w c r0 cfg Hshape Hfin) as [Hw Hpcs].
  split; [exact Hpcs|]. rewrite Hw. split.
  - unfold get_run, add_event, update_if_queued.
    cbn [snd db training_runs set_training_runs set_run_events].
    apply find_updated; assumption.
  - reflexivity.
Qed.

Lemma claim_has_exactly_one_winner_witness :
  let cfg :=
    race [worker_b; worker_a; worker_a; worker_b; worker_b; worker_a]
         queue_race in
  select_candidate queue_world = Some "run-b"
  /\ finished cfg
  /\ pc_a cfg = Claimed (Some (picked (demo_run "run-b" RunState.QUEUED 30)))
  /\ pc_b cfg = Claimed None
  /\ run_events (db (shared cfg))
     = run_events (db queue_world) ++ [claim_event "run-b"].
Proof.
  cbv zeta.
  assert (Hnd : NoDup (map run_id (training_runs (db queue_world))))
    by (apply (bool_decide_unpack _); vm_compute; exact I).
  assert (Hsel : select_candidate queue_world = Some "run-b")
    by (vm_compute; reflexivity).
  assert (Hfin : finished
            (race [worker_b; worker_a; worker_a; worker_b; worker_b; worker_a]
                  queue_race)).
  { split; eexists; vm_compute; reflexivity. }
  destruct (claim_has_exactly_one_winner queue_world "run-b" worker_b worker_a
              [worker_a; worker_b; worker_b; worker_a] Hnd Hsel eq_refl
              ltac:(discriminate))
    as (r0 & _ & _ & _ & _ & _ & _ & _ & Hrace).
  destruct (Hrace Hfin) as (_ & _ & Hev).
  split; [exact Hsel|]. split; [exact Hfin|].
  split; [vm_compute; reflexivity|]. split; [vm_compute; reflexivity|].
  exact Hev.
Defined.

(** ** Deployment *)

Import DeploymentService.

Lemma archive_not_active t p x : is_active_of t p (archive x) = false.
Proof.
  unfold is_active_of, archive. cbn. rewrite bool_decide_eq_false_2 by discriminate.
  apply andb_false_r.
Qed.

Lemma filter_archived t p l :
  List.filter (is_active_of t p) (archive_active t p l) = [].
Proof.
  unfold archive_active. induction l as [|x l IH]; [reflexivity|].
  cbn [map List.filter]. destruct (is_active_of t p x) eqn:Hx.
  - rewrite archive_not_active. exact IH.
  - rewrite Hx. exact IH.
Qed.

Lemma filter_other_project t p t' p' l :
  String.eqb t' t && String.eqb p' p = false ->
  List.filter (is_active_of t' p') (archive_active t p l)
  = List.filter (is_active_of t' p') l.
Proof.
  intros Hne. unfold archive_active. induction l as [|x l IH]; [reflexivity|].
  cbn [map List.filter]. destruct (is_active_of t p x) eqn:Hx.
  - assert (Hx' : is_active_of t' p' x = false).
    { unfold is_active_of in *.
      apply andb_true_iff in Hx. destruct Hx as [Hx _].
      apply andb_true_iff in Hx. destruct Hx as [Ht Hp].
      apply String.eqb_eq in Ht, Hp. rewrite Ht, Hp.
      rewrite (String.eqb_sym t t'), (String.eqb_sym p p'), Hne. reflexivity. }
    rewrite Hx'.
    assert (Ha : is_active_of t' p' (archive x) = false)
      by apply archive_not_active.
    rewrite Ha. exact IH.
  - rewrite IH. reflexivity.
Qed.

(** What a deployment that returns did to the package table. *)
Lemma create_deployment_ok deployment_id now t p rid version url user w d w' :
  create_deployment deployment_id now t p rid version url user w
  = (Return d, w') ->
  dep_status d = DeploymentStatus.ACTIVE
  /\ dep_tenant_id d = t /\ dep_project_id d = p /\ dep_id d = deployment_id
  /\ deployment_packages (db w')
     = archive_active t p (deployment_packages (db w)) ++ [d]
  /\ exists run,
       get_run w rid = Some run /\ run_state run = RunState.READY.
Proof.
  unfold create_deployment.
  destruct (get_run w rid) as [r|]; [|discriminate].
  destruct (negb (String.eqb (run_tenant_id r) t)
            || negb (String.eqb (run_project_id r) p)); [discriminate|].
  destruct (run_state r) eqn:Hst; try discriminate.
  destruct (run_package_path r) as [path|]; [|discriminate].
  destruct (negb (PyStr.truthy path)); [discriminate|].
  intros [= <- <-]. cbn. repeat split; try reflexivity.
  exists r. auto.
Qed.

Lemma create_deployment_raise deployment_id now t p rid version url user w e w' :
  create_deployment deployment_id now t p rid version url user w
  = (Raise e, w') -> w' = w.
Proof.
  unfold create_deployment.
  destruct (get_run w rid) as [r|]; [|intros [= _ <-]; reflexivity].
  destruct (negb (String.eqb (run_tenant_id r) t)
            || negb (String.eqb (run_project_id r) p));
    [intros [= _ <-]; reflexivity|].
  destruct (run_state r), (run_package_path r) as [path|];
    try (intros [= _ <-]; reflexivity).
  destruct (negb (PyStr.truthy path)); [intros [= _ <-]; reflexivity|].
  discriminate.
Qed.

Lemma create_deployment_keeps_invariant
    deployment_id now t p rid version url user w :
  one_active w ->
  one_active (snd (create_deployment deployment_id now t p rid version url
                                     user w)).
Proof.
  intros Hinv.
  destruct (create_deployment deployment_id now t p rid version url user w)
    as [[d|e] w'] eqn:Hc; cbn [snd].
  - destruct (create_deployment_ok _ _ _ _ _ _ _ _ _ _ _ Hc)
      as (Hst & Ht & Hp & _ & Hpk & _).
    intros t' p'. unfold active_packages. rewrite Hpk, List.filter_app.
    rewrite length_app.
    destruct (String.eqb t' t && String.eqb p' p) eqn:Hsame.
    + apply andb_true_iff in Hsame. destruct Hsame as [Ht' Hp'].
      apply String.eqb_eq in Ht', Hp'. subst t' p'.
      rewrite filter_archived. cbn [List.filter length].
      destruct (is_active_of t p d); cbn; lia.
    + rewrite (filter_other_project t p t' p' _ Hsame).
      specialize (Hinv t' p'). unfold active_packages in Hinv.
      cbn [List.filter]. unfold is_active_of at 2.
      rewrite Ht, Hp, (String.eqb_sym t t'), (String.eqb_sym p p'), Hsame.
      cbn [andb length]. lia.
  - apply create_deployment_raise in Hc. subst w'. exact Hinv.
Qed.

Lemma reachable_one_active w : reachable w -> one_active w.
Proof.
  induction 1 as [w Hnil|? ? ? ? ? ? ? ? ? _ IH|w w' _ IH Heq].
  - intros t p. unfold active_packages. rewrite Hnil. cbn. lia.
  - apply create_deployment_keeps_invariant. exact IH.
  - intros t p. unfold active_packages. rewrite Heq. apply IH.
Qed.



(** ** Evaluation *)

Import EvaluationService.

Lemma SFcompare_Lt_swap x y :
  SFcompare x y = Some Lt -> SFcompare y x = Some Gt.
Proof.
  destruct x as [sx|sx| |sx mx ex], y as [sy|sy| |sy my ey]; cbn;
    try discriminate;
    try (destruct sx; discriminate || reflexivity);
    try (destruct sy; discriminate || reflexivity);
    try (destruct sx, sy; discriminate || reflexivity).
  assert (Hp : Pos.compare_cont Eq my mx = CompOpp (Pos.compare_cont Eq mx my))
    by apply (Pos.compare_antisym mx my).
  destruct sx, sy; try discriminate; try reflexivity;
    rewrite (Z.compare_antisym ex ey);
    destruct (ex ?= ey)%Z eqn:He; cbn; try discriminate; try reflexivity;
    rewrite Hp; destruct (Pos.compare_cont Eq mx my); cbn;
    discriminate || reflexivity.
Qed.

(** A float that exceeds another is not below or equal to it. *)
Lemma float_ltb_not_leb (x y : float) :
  (x <? y)%float = true -> (y <=? x)%float = false.
Proof.
  rewrite FloatAxioms.ltb_spec, FloatAxioms.leb_spec. unfold SFltb, SFleb.
  destruct (SFcompare (Prim2SF x) (Prim2SF y)) as [[| |]|] eqn:Hc;
    try discriminate.
  intros _. rewrite (SFcompare_Lt_swap _ _ Hc). reflexivity.
Qed.

Lemma fold_latest_none l : forall best,
  fold_left
    (fun (best : option EvaluationReport) r =>
       match best with
       | None => Some r
       | Some b => if rep_created_at b <? rep_created_at r
                   then Some r else Some b
       end) l best = None ->
  best = None /\ l = [].
Proof.
  induction l as [|x l IH]; intros best; cbn [fold_left]; [auto|].
  intros H. apply IH in H. destruct H as [H _].
  destruct best as [b|]; [destruct (_ <? _)|]; discriminate.
Qed.

(** There is no previous report exactly when every report of the project
    belongs to the run being evaluated. *)
Lemma no_previous_report w project_id run_id :
  _latest_previous_report w project_id run_id = None
  <-> forall r, In r (evaluation_reports (db w)) ->
                rep_project_id r = project_id ->
                rep_training_run_id r = run_id.
Proof.
  unfold _latest_previous_report. split.
  - intros H r Hin Hp. apply fold_latest_none in H. destruct H as [_ H].
    destruct (decide (rep_training_run_id r = run_id)) as [E|E]; [exact E|].
    exfalso.
    assert (Hr : r ∈ filter (fun r => rep_project_id r = project_id
                                      /\ rep_training_run_id r <> run_id)
                            (evaluation_reports (db w))).
    { apply list_elem_of_filter. split; [auto|]. apply list_elem_of_In, Hin. }
    rewrite H in Hr. inversion Hr.
  - intros H. rewrite filter_none; [reflexivity|].
    intros r Hin [Hp Hne]. apply Hne, H; assumption.
Qed.

(** The verdict of an evaluation that returns a report is true exactly when
    the exact-match rate is at least 0.6, the semantic similarity at least
    0.72, the unsupported-claim rate at most 0.12, the refusal recall at
    least 0.8, and either there is no previous report (every report of the
    project belongs to the run evaluated) or the semantic similarity minus
    that of the newest such report is at least -0.05; the rates are the
    unrounded ones. The verdict is false whenever the unsupported-claim rate
    exceeds 0.12. *)
Theorem go_no_go_gate
    fuzz_ratio sequence_ratio run dataset report_id now elapsed w report w' :
  evaluate_run fuzz_ratio sequence_ratio run dataset report_id now elapsed w
  = (Return report, w') ->
  let rows := evaluation_rows w dataset in
  let previous := _latest_previous_report w (run_project_id run) (run_id run) in
  rows <> []
  /\ (rep_go_no_go report = true <->
      (0.6 <=? exact_match fuzz_ratio sequence_ratio rows)%float = true
      /\ (0.72 <=? semantic_similarity fuzz_ratio sequence_ratio rows)%float
         = true
      /\ (unsupported_claim_rate fuzz_ratio sequence_ratio rows <=? 0.12)%float
         = true
      /\ (0.8 <=? refusal_recall fuzz_ratio sequence_ratio rows)%float = true
      /\ (previous = None
          \/ exists delta,
               regression_delta fuzz_ratio sequence_ratio w run rows
               = Some delta
               /\ (-0.05 <=? delta)%float = true))
  /\ (previous = None <->
      forall r, In r (evaluation_reports (db w)) ->
                rep_project_id r = run_project_id run ->
                rep_training_run_id r = run_id run)
  /\ (forall p, previous = Some p ->
        regression_delta fuzz_ratio sequence_ratio w run rows
        = Some (semantic_similarity fuzz_ratio sequence_ratio rows
                - m_semantic_similarity (rep_metrics_json p))%float)
  /\ ((0.12 <? unsupported_claim_rate fuzz_ratio sequence_ratio rows)%float
      = true ->
      rep_go_no_go report = false).
Proof.
  intros He rows previous.
  unfold evaluate_run in He. fold rows in He.
  destruct rows as [|row0 rest] eqn:Hrows; [discriminate|].
  rewrite <- Hrows in *.
  assert (Hgo : rep_go_no_go report
                = go_no_go fuzz_ratio sequence_ratio w run rows).
  { rewrite Hrows in He. cbv zeta in He. injection He as <- _.
    rewrite Hrows. reflexivity. }
  clear He.
  assert (Hdelta : forall p, previous = Some p ->
            regression_delta fuzz_ratio sequence_ratio w run rows
            = Some (semantic_similarity fuzz_ratio sequence_ratio rows
                    - m_semantic_similarity (rep_metrics_json p))%float).
  { intros p Hp. unfold regression_delta. fold previous. rewrite Hp.
    reflexivity. }
  split; [rewrite Hrows; discriminate|].
  split.
  { rewrite Hgo. unfold go_no_go. rewrite !andb_true_iff.
    destruct previous as [p|] eqn:Hprev.
    - rewrite (Hdelta p eq_refl). split.
      + intros ((((H1 & H2) & H3) & H4) & H5). repeat split; try assumption.
        right. eexists. split; [reflexivity|exact H5].
      + intros (H1 & H2 & H3 & H4 & [H5|(delta & [= <-] & H5)]);
          [discriminate|]. repeat split; assumption.
    - unfold regression_delta. fold previous. rewrite Hprev. split.
      + intros ((((H1 & H2) & H3) & H4) & _). repeat split; auto.
      + intros (H1 & H2 & H3 & H4 & _). repeat split; auto. }
  split; [apply no_previous_report|].
  split; [exact Hdelta|].
  intros Hex. rewrite Hgo. unfold go_no_go.
  rewrite (float_ltb_not_leb _ _ Hex).
  rewrite andb_false_r. reflexivity.
Qed.

Lemma go_no_go_gate_witness :
  let report := returned (fst (gate_report 3 22)) no_report in
  gate_report 3 22 = (Return report, snd (gate_report 3 22))
  /\ m_unsupported_claim_rate (rep_metrics_json report) = 0.12%float
  /\ rep_go_no_go report = true
  /\ (0.6 <=? exact_match demo_ratio demo_sequence_ratio
                (evaluation_rows (gate_world 3 22) gate_dataset))%float
     = true.
Proof.
  cbv zeta.
  assert (H : gate_report 3 22
              = (Return (returned (fst (gate_report 3 22)) no_report),
                 snd (gate_report 3 22)))
    by (vm_compute; reflexivity).
  assert (Hgo : rep_go_no_go (returned (fst (gate_report 3 22)) no_report)
                = true) by (vm_compute; reflexivity).
  split; [exact H|]. split; [vm_compute; reflexivity|].
  split; [exact Hgo|].
  destruct (go_no_go_gate _ _ _ _ _ _ _ _ _ _ H) as (_ & Hiff & _).
  apply Hiff in Hgo. apply Hgo.
Defined.

(** 13 unsupported answers in 100 rows give a rate of 0.13 and a negative
    verdict although every other metric passes. *)
Example gate_rejects_thirteen_percent :
  let report := returned (fst (gate_report 13 87)) no_report in
  m_exact_match (rep_metrics_json report) = 0.87%float
  /\ m_semantic_similarity (rep_metrics_json report) = 0.87%float
  /\ m_refusal_recall (rep_metrics_json report) = 1.0%float
  /\ m_regression_delta (rep_metrics_json report) = None
  /\ m_unsupported_claim_rate (rep_metrics_json report) = 0.13%float
  /\ rep_go_no_go report = false.
Proof. vm_compute. repeat split; reflexivity. Qed.

(** ** Outcomes of calls *)

(** An outcome is the pair of its value and its world. *)
Lemma outcome_returned {A W} (r : result A * W) (otherwise : A) :
  fst r = Return (returned (fst r) otherwise) ->
  r = (Return (returned (fst r) otherwise), snd r).
Proof. destruct r as [v w]. cbn [fst snd]. now intros <-. Qed.

Lemma returned_pair {A B} (a a' : A) (b b' : B) :
  (Return a, b) = (Return a', b') -> a = a' /\ b = b'.
Proof. intros [= -> ->]. now split. Qed.

Lemma return_inj {A} (a b : A) : @Return A a = Return b -> a = b.
Proof. now intros [= ->]. Qed.

Lemma firstn_length_le {A} (n : nat) (l : list A) :
  (length (firstn n l) <= n)%nat.
Proof. rewrite length_firstn. lia. Qed.

Lemma in_firstn {A} (n : nat) (l : list A) (x : A) :
  In x (firstn n l) -> In x l.
Proof.
  intros H. rewrite <- (firstn_skipn n l). apply in_or_app. now left.
Qed.

Lemma hd_in {A} (d : A) (l : list A) : l <> [] -> In (hd d l) l.
Proof. destruct l; [congruence|]. intros _. now left. Qed.

(** ** Ingestion ([app/services/ingest.py]) *)

Lemma chars_str (l : list ascii) : PyStr.chars (PyStr.str l) = l.
Proof. apply list_ascii_of_string_of_list_ascii. Qed.

Lemma str_chars (s : string) : PyStr.str (PyStr.chars s) = s.
Proof. apply string_of_list_ascii_of_string. Qed.

Lemma length_str (l : list ascii) : String.length (PyStr.str l) = length l.
Proof.
  unfold PyStr.str. induction l as [|c l IH]; [reflexivity|].
  cbn. now rewrite IH.
Qed.

Lemma truthy_chars (s : string) :
  PyStr.truthy s = true -> PyStr.chars s <> [].
Proof. destruct s; [discriminate|]. intros _. discriminate. Qed.

(** A character class replaces its characters one by one. *)
Lemma replace_all_class (p : ascii -> bool) (repl : list ascii)
    (prev : option ascii) (s : list ascii) :
  Re.replace_all (Re.Chr p) repl 0 prev s
  = flat_map (fun c => if p c then repl else [c]) s.
Proof.
  revert prev. induction s as [|c s IH]; intros prev; [reflexivity|].
  cbn [Re.replace_all flat_map]. unfold Re.match_here.
  cbn [Re.run]. destruct (p c) eqn:Hp.
  - replace (length (c :: s) - length s)%nat with 1%nat by (cbn; lia).
    cbn [firstn length]. now rewrite IH.
  - now rewrite IH.
Qed.

Lemma lstrip_by_suffix (f : ascii -> bool) (l : list ascii) :
  exists pre, l = pre ++ PyStr.lstrip_by f l.
Proof.
  induction l as [|c l [pre IH]]; [now exists []|].
  cbn. destruct (f c).
  - exists (c :: pre). cbn. now rewrite <- IH.
  - now exists [].
Qed.

Lemma lstrip_by_head (f : ascii -> bool) (l : list ascii) (c : ascii) :
  head (PyStr.lstrip_by f l) = Some c -> f c = false.
Proof.
  induction l as [|a l IH]; [discriminate|].
  cbn. destruct (f a) eqn:Hf; [exact IH|].
  cbn. now intros [= <-].
Qed.

Lemma lstrip_by_Forall (P : ascii -> Prop) (f : ascii -> bool)
    (l : list ascii) :
  Forall P l -> Forall P (PyStr.lstrip_by f l).
Proof.
  destruct (lstrip_by_suffix f l) as [pre H]. intros HP.
  rewrite H in HP. now apply Forall_app in HP.
Qed.

(** What [strip_by] leaves neither starts nor ends with a stripped
    character. *)
Lemma strip_by_ends (f : ascii -> bool) (s : string) (c : ascii) :
  head (PyStr.chars (PyStr.strip_by f s)) = Some c
  \/ head (rev (PyStr.chars (PyStr.strip_by f s))) = Some c ->
  f c = false.
Proof.
  unfold PyStr.strip_by. rewrite chars_str, rev_involutive.
  set (M := PyStr.lstrip_by f (PyStr.chars s)).
  intros [H|H]; [|now apply lstrip_by_head in H].
  destruct (lstrip_by_suffix f (rev M)) as [pre Hpre].
  set (L := PyStr.lstrip_by f (rev M)) in *.
  assert (HM : M = rev L ++ rev pre).
  { rewrite <- (rev_involutive M), Hpre, rev_app_distr. reflexivity. }
  apply (lstrip_by_head f (PyStr.chars s)). fold M. rewrite HM.
  destruct (rev L); [discriminate|]. exact H.
Qed.

Lemma strip_by_Forall (P : ascii -> Prop) (f : ascii -> bool) (s : string) :
  Forall P (PyStr.chars s) -> Forall P (PyStr.chars (PyStr.strip_by f s)).
Proof.
  intros H. unfold PyStr.strip_by. rewrite chars_str.
  apply Forall_rev, lstrip_by_Forall, Forall_rev, lstrip_by_Forall, H.
Qed.

(** X1. [_safe_filename] never returns an empty name; the name is made of
    letters, digits, dots, underscores and hyphens only, so it has no path
    separator, and it neither starts nor ends with a dot or an underscore:
    it is never [.] or [..] and never a hidden file. *)
Theorem safe_filename_is_safe (filename : string) :
  let name := IngestionService._safe_filename filename in
  name <> ""
  /\ Forall (fun c => PyStr.isalnum c || Re.one_of "._-" c = true)
            (PyStr.chars name)
  /\ ("/"%char ∉ PyStr.chars name)
  /\ (forall c, head (PyStr.chars name) = Some c
                \/ head (rev (PyStr.chars name)) = Some c ->
                c <> "."%char /\ c <> "_"%char).
Proof.
  cbv zeta.
  assert (Hsafe : Forall (fun c => PyStr.isalnum c || Re.one_of "._-" c = true)
                         (PyStr.chars (IngestionService._safe_filename filename))).
  { unfold IngestionService._safe_filename.
    destruct (PyStr.truthy _) eqn:Ht.
    - apply strip_by_Forall. unfold Re.sub.
      rewrite chars_str, replace_all_class.
      apply Forall_flat_map, Forall_forall. intros c _.
      destruct (PyStr.isalnum c || Re.one_of "._-" c) eqn:Hc; cbn.
      + now repeat constructor.
      + repeat constructor.
    - apply (bool_decide_unpack _). vm_compute. exact I. }
  split; [|split; [exact Hsafe|split]].
  - unfold IngestionService._safe_filename.
    destruct (PyStr.truthy _) eqn:Ht; [|discriminate].
    intros H. rewrite H in Ht. discriminate.
  - intros Hin. rewrite Forall_forall in Hsafe.
    specialize (Hsafe _ Hin). vm_compute in Hsafe. discriminate.
  - intros c Hc. unfold IngestionService._safe_filename in Hc.
    destruct (PyStr.truthy _) eqn:Ht.
    + apply strip_by_ends in Hc.
      split; intros ->; vm_compute in Hc; discriminate.
    + vm_compute in Hc. destruct Hc as [[= <-]|[= <-]]; split; discriminate.
Qed.

(** X2. [_detect_pii] reports at most 100 hits; each hit carries one of the
    four labels and a preview of at most 24 characters. *)
Theorem detect_pii_is_capped (text : string) :
  (length (IngestionService._detect_pii text) <= 100)%nat
  /\ Forall (fun h => (String.length (pii_value h) <= 24)%nat
                      /\ pii_type h ∈ ["email"; "phone"; "ssn"; "card"])
            (IngestionService._detect_pii text).
Proof.
  unfold IngestionService._detect_pii. cbv zeta. split.
  - apply firstn_length_le.
  - apply Forall_take, Forall_flat_map, Forall_forall.
    intros [label r] Hin. apply Forall_map, Forall_forall. intros m _.
    cbn [pii_value pii_type fst snd]. split.
    + unfold PyStr.take. rewrite length_str. apply firstn_length_le.
    + repeat (apply elem_of_cons in Hin as [[= <- _]|Hin];
              [set_solver|]).
      inversion Hin.
Qed.

(** ** Ingestion: normalizing the text *)

(** *** The matcher on a repeated character class *)

Lemma lstrip_by_length (f : ascii -> bool) (l : list ascii) :
  (length (PyStr.lstrip_by f l) <= length l)%nat.
Proof.
  induction l as [|c l IH]; [reflexivity|].
  cbn. destruct (f c); cbn; lia.
Qed.

(** A greedy repetition of a character class that nothing follows takes
    the whole run: it matches when the run has at least [lo] characters,
    and leaves what comes after the run. *)
Lemma rep_loop_class (p : ascii -> bool) : forall n lo prev s,
  (length s <= n)%nat ->
  Re.rep_loop (Re.run (Re.Chr p)) true (fun _ rest => Some rest) n lo prev s
  = if (lo <=? length s - length (PyStr.lstrip_by p s))%nat
    then Some (PyStr.lstrip_by p s) else None.
Proof.
  induction n as [|n IH]; intros lo prev s Hlen.
  - destruct s; [|cbn in Hlen; lia]. cbn. now destruct lo.
  - cbn [Re.rep_loop Re.run]. destruct s as [|c s].
    + cbn. now destruct lo.
    + cbn [PyStr.lstrip_by]. destruct (p c) eqn:Hp.
      * rewrite IH by (cbn in Hlen; lia).
        pose proof (lstrip_by_length p s) as Hl.
        replace (length (c :: s) - length (PyStr.lstrip_by p s))%nat
          with (S (length s - length (PyStr.lstrip_by p s)))
          by (cbn [length]; lia).
        destruct lo as [|lo]; cbn [Nat.pred].
        -- cbn. reflexivity.
        -- reflexivity.
      * rewrite Nat.sub_diag. destruct lo; reflexivity.
Qed.

Lemma match_here_class (p : ascii -> bool) (lo : nat) prev s :
  Re.match_here (Re.Rep (Re.Chr p) lo None true) prev s
  = if (lo <=? length s - length (PyStr.lstrip_by p s))%nat
    then Some (firstn (length s - length (PyStr.lstrip_by p s)) s)
    else None.
Proof.
  unfold Re.match_here.
  change (Re.run (Re.Rep (Re.Chr p) lo None true) prev s
                 (fun _ rest => Some rest))
    with (Re.rep_loop (Re.run (Re.Chr p)) true (fun _ rest => Some rest)
                      (lo + length s) lo prev s).
  rewrite rep_loop_class by lia.
  now destruct (_ <=? _)%nat.
Qed.

(** The length of the run of class characters at the head of a text. *)
Lemma run_length_cons_in (p : ascii -> bool) c s :
  p c = true ->
  (length (c :: s) - length (PyStr.lstrip_by p (c :: s))
   = S (length s - length (PyStr.lstrip_by p s)))%nat.
Proof.
  intros Hp. cbn [PyStr.lstrip_by]. rewrite Hp.
  pose proof (lstrip_by_length p s). cbn [length]. lia.
Qed.

Lemma run_length_cons_out (p : ascii -> bool) c s :
  p c = false ->
  (length (c :: s) - length (PyStr.lstrip_by p (c :: s)) = 0)%nat.
Proof. intros Hp. cbn [PyStr.lstrip_by]. rewrite Hp. lia. Qed.

Lemma run_length_le (p : ascii -> bool) s :
  (length s - length (PyStr.lstrip_by p s) <= length s)%nat.
Proof. lia. Qed.

(** [re.sub] of [cls+] by one space is [collapse_runs]. *)
Lemma replace_all_plus (p : ascii -> bool) (s : list ascii) :
  (forall prev,
     Re.replace_all (Re.plus (Re.Chr p)) [" "%char] 0 prev s
     = collapse_runs p false s)
  /\ (forall prev,
        Re.replace_all (Re.plus (Re.Chr p)) [" "%char]
          (length s - length (PyStr.lstrip_by p s)) prev s
        = collapse_runs p true s).
Proof.
  induction s as [|c s [IH0 IH1]].
  - split; intros prev; reflexivity.
  - split; intros prev.
    + cbn [Re.replace_all]. unfold Re.plus. rewrite match_here_class.
      destruct (p c) eqn:Hp.
      * rewrite (run_length_cons_in p c s Hp).
        cbn [Nat.leb firstn collapse_runs]. rewrite Hp.
        rewrite length_firstn, Nat.min_l by lia.
        cbn [app]. f_equal. apply IH1.
      * rewrite (run_length_cons_out p c s Hp).
        cbn [Nat.leb collapse_runs]. rewrite Hp. f_equal. apply IH0.
    + destruct (p c) eqn:Hp.
      * rewrite (run_length_cons_in p c s Hp).
        cbn [Re.replace_all collapse_runs]. rewrite Hp. apply IH1.
      * rewrite (run_length_cons_out p c s Hp).
        cbn [Re.replace_all]. unfold Re.plus. rewrite match_here_class.
        rewrite (run_length_cons_out p c s Hp).
        cbn [Nat.leb collapse_runs]. rewrite Hp. f_equal. apply IH0.
Qed.

(** [re.sub] of [c{3,}] by two [c] is [cap_runs]. The second part is the
    matcher inside a run it is skipping; the first one holds at every
    position where fewer than three [c] remain to be written. *)
Lemma replace_all_cap (c0 : ascii) (s : list ascii) :
  let p := Ascii.eqb c0 in
  let r := Re.Rep (Re.lit c0) 3 None true in
  (forall prev seen,
     seen = 0%nat
     \/ (seen + (length s - length (PyStr.lstrip_by p s)) <= 2)%nat ->
     Re.replace_all r [c0; c0] 0 prev s = cap_runs c0 seen s)
  /\ (forall prev,
        Re.replace_all r [c0; c0]
          (length s - length (PyStr.lstrip_by p s)) prev s
        = cap_runs c0 2 s).
Proof.
  cbv zeta. unfold Re.lit.
  induction s as [|c s [IH0 IH1]].
  - split; intros; reflexivity.
  - split.
    + intros prev seen Hseen.
      cbn [Re.replace_all]. rewrite match_here_class.
      destruct (Ascii.eqb c0 c) eqn:Hc.
      * rewrite (run_length_cons_in _ c s Hc) in Hseen |- *.
        set (rl := (length s - length (PyStr.lstrip_by (Ascii.eqb c0) s))%nat)
          in *.
        destruct (3 <=? S rl)%nat eqn:Hrl.
        -- apply Nat.leb_le in Hrl.
           assert (seen = 0%nat) by lia. subst seen.
           cbn [firstn]. rewrite length_firstn, Nat.min_l by (unfold rl; lia).
           rewrite IH1. fold rl.
           cbn [cap_runs app]. rewrite Hc.
           destruct s as [|c1 s]; [cbn in rl; lia|].
           destruct (Ascii.eqb c0 c1) eqn:Hc1.
           ++ apply Ascii.eqb_eq in Hc as <-. apply Ascii.eqb_eq in Hc1 as <-.
              cbn [cap_runs]. rewrite Ascii.eqb_refl. reflexivity.
           ++ unfold rl in Hrl.
              rewrite (run_length_cons_out _ c1 s Hc1) in Hrl. lia.
        -- apply Nat.leb_gt in Hrl.
           cbn [cap_runs]. rewrite Hc.
           destruct seen as [|[|seen]]; [| |lia].
           ++ f_equal. apply IH0. right. fold rl. lia.
           ++ f_equal. apply IH0. right. fold rl. lia.
      * rewrite (run_length_cons_out _ c s Hc).
        cbn [Nat.leb cap_runs]. rewrite Hc. f_equal. apply IH0. now left.
    + intros prev. destruct (Ascii.eqb c0 c) eqn:Hc.
      * rewrite (run_length_cons_in _ c s Hc).
        cbn [Re.replace_all cap_runs]. rewrite Hc. apply IH1.
      * rewrite (run_length_cons_out _ c s Hc).
        cbn [Re.replace_all]. rewrite match_here_class.
        rewrite (run_length_cons_out _ c s Hc).
        cbn [Nat.leb cap_runs]. rewrite Hc. f_equal. apply IH0. now left.
Qed.

(** *** [str.replace] of one character, and of an absent one *)

Lemma starts_head (pat l : list ascii) (c : ascii) :
  PyStr.starts (c :: pat) l = true -> head l = Some c.
Proof.
  destruct l as [|a l]; [discriminate|].
  cbn. intros H. apply andb_prop in H as [H _].
  apply Ascii.eqb_eq in H. now subst.
Qed.

Lemma replace_go_absent (c : ascii) (pat new l : list ascii) :
  Forall (fun a => a <> c) l ->
  PyStr.replace_go (c :: pat) new 0 l = l.
Proof.
  induction l as [|a l IH]; intros Hl; [reflexivity|].
  apply Forall_cons in Hl as [Ha Hl].
  cbn [PyStr.replace_go].
  destruct (PyStr.starts (c :: pat) (a :: l)) eqn:Hs.
  - apply starts_head in Hs. cbn in Hs. congruence.
  - now rewrite IH.
Qed.

Lemma replace_go_char (c new : ascii) (l : list ascii) :
  c <> new ->
  Forall (fun a => a <> c) (PyStr.replace_go [c] [new] 0 l).
Proof.
  intros Hne. induction l as [|a l IH]; [constructor|].
  cbn [PyStr.replace_go PyStr.starts length Nat.pred].
  destruct (Ascii.eqb c a) eqn:Ha; cbn [andb].
  - destruct l; cbn [app]; (constructor; [congruence|exact IH]).
  - constructor; [|exact IH].
    apply Ascii.eqb_neq in Ha. congruence.
Qed.

(** *** Substrings *)

Lemma starts_spec (pat l : list ascii) :
  PyStr.starts pat l = true <-> exists rest, l = pat ++ rest.
Proof.
  revert l. induction pat as [|a pat IH]; intros l.
  - cbn. split; [now exists l|reflexivity].
  - destruct l as [|b l]; cbn.
    + split; [discriminate|]. intros [rest H]. discriminate H.
    + rewrite andb_true_iff, Ascii.eqb_eq, IH. split.
      * intros [-> [rest ->]]. now exists rest.
      * intros [rest [= -> ->]]. split; [reflexivity|now exists rest].
Qed.

Lemma find_sub_spec (pat l : list ascii) :
  PyStr.find_sub pat l = true <-> exists pre post, l = pre ++ pat ++ post.
Proof.
  induction l as [|b l IH].
  - cbn. rewrite orb_false_r, starts_spec. split.
    + intros [rest H]. now exists [], rest.
    + intros (pre & post & H). destruct pre; [now exists post|discriminate H].
  - cbn [PyStr.find_sub]. rewrite orb_true_iff, starts_spec, IH. split.
    + intros [[rest H]|(pre & post & H)].
      * now exists [], rest.
      * exists (b :: pre), post. now rewrite H.
    + intros (pre & post & H). destruct pre as [|a pre].
      * left. now exists post.
      * right. injection H as _ H. now exists pre, post.
Qed.

(** A text without a substring has it in none of its parts, and neither
    has its reverse the reversed substring. *)
Lemma find_sub_infix (pat pre l post : list ascii) :
  PyStr.find_sub pat (pre ++ l ++ post) = false ->
  PyStr.find_sub pat l = false.
Proof.
  intros H. apply not_true_iff_false. intros Hl.
  apply not_true_iff_false in H. apply H.
  apply find_sub_spec in Hl as (a & b & ->).
  apply find_sub_spec. exists (pre ++ a), (b ++ post).
  now rewrite <- !app_assoc.
Qed.

Lemma strip_by_infix (f : ascii -> bool) (s : string) :
  exists pre post,
    PyStr.chars s = pre ++ PyStr.chars (PyStr.strip_by f s) ++ post.
Proof.
  unfold PyStr.strip_by. rewrite chars_str.
  destruct (lstrip_by_suffix f (PyStr.chars s)) as [pre Hpre].
  set (M := PyStr.lstrip_by f (PyStr.chars s)) in *.
  destruct (lstrip_by_suffix f (rev M)) as [pre' Hpre'].
  set (L := PyStr.lstrip_by f (rev M)) in *.
  exists pre, (rev pre'). rewrite Hpre at 1. f_equal.
  rewrite <- (rev_involutive M), Hpre', rev_app_distr. reflexivity.
Qed.

Lemma lstrip_by_fixed (f : ascii -> bool) (l : list ascii) :
  (forall c, head l = Some c -> f c = false) -> PyStr.lstrip_by f l = l.
Proof.
  destruct l as [|c l]; [reflexivity|].
  intros H. cbn. now rewrite (H c eq_refl).
Qed.

(** A text that neither starts nor ends with a stripped character is left
    as it is. *)
Lemma strip_by_fixed (f : ascii -> bool) (l : list ascii) :
  (forall c, head l = Some c \/ head (rev l) = Some c -> f c = false) ->
  PyStr.strip_by f (PyStr.str l) = PyStr.str l.
Proof.
  intros H. unfold PyStr.strip_by. rewrite chars_str.
  rewrite (lstrip_by_fixed f l) by (intros c Hc; apply H; now left).
  rewrite (lstrip_by_fixed f (rev l)) by (intros c Hc; apply H; now right).
  now rewrite rev_involutive.
Qed.

(** *** What the two substitutions leave *)

Lemma collapse_runs_Forall (P : ascii -> Prop) p b l :
  P " "%char -> Forall P l -> Forall P (collapse_runs p b l).
Proof.
  intros Hsp. revert b. induction l as [|c l IH]; intros b Hl; [constructor|].
  apply Forall_cons in Hl as [Hc Hl]. cbn [collapse_runs].
  destruct (p c); [destruct b|]; try constructor; auto.
Qed.

Lemma collapse_runs_shape p l :
  p " "%char = true ->
  forall b,
    Forall (fun c => p c = true -> c = " "%char) (collapse_runs p b l)
    /\ PyStr.find_sub [" "%char; " "%char] (collapse_runs p b l) = false
    /\ (b = true -> head (collapse_runs p b l) <> Some " "%char).
Proof.
  intros Hsp. induction l as [|c l IH]; intros b.
  - cbn. split; [constructor|]. split; [reflexivity|discriminate].
  - cbn [collapse_runs]. destruct (p c) eqn:Hc.
    + destruct (IH true) as (Hall & Hsub & Hhead).
      destruct b; [auto|].
      split; [constructor; auto|]. split; [|discriminate].
      cbn [PyStr.find_sub]. rewrite Hsub, orb_false_r.
      apply not_true_iff_false. intros Hs.
      apply starts_spec in Hs as [rest Hs]. injection Hs as Hs.
      apply (Hhead eq_refl). now rewrite Hs.
    + destruct (IH false) as (Hall & Hsub & _).
      split; [constructor; [congruence|exact Hall]|]. split.
      * cbn [PyStr.find_sub]. rewrite Hsub, orb_false_r.
        apply not_true_iff_false. intros Hs.
        apply starts_spec in Hs as [rest Hs]. injection Hs as Hc' _.
        rewrite Hc' in Hc. congruence.
      * intros _ [= Hc']. rewrite Hc' in Hc. congruence.
Qed.

Lemma collapse_runs_fixed p l :
  forall b,
    Forall (fun c => p c = true -> c = " "%char) l ->
    PyStr.find_sub [" "%char; " "%char] l = false ->
    (b = true -> head l <> Some " "%char) ->
    collapse_runs p b l = l.
Proof.
  induction l as [|c l IH]; intros b Hall Hsub Hhead; [reflexivity|].
  apply Forall_cons in Hall as [Hc Hall].
  cbn [PyStr.find_sub] in Hsub. apply orb_false_elim in Hsub as [Hs Hsub].
  cbn [collapse_runs]. destruct (p c) eqn:Hpc.
  - specialize (Hc eq_refl). subst c.
    destruct b; [exfalso; now apply Hhead|].
    f_equal. apply IH; [exact Hall|exact Hsub|].
    intros _ Hl. apply not_true_iff_false in Hs. apply Hs.
    apply starts_spec. destruct l as [|a l]; [discriminate|].
    injection Hl as ->. now exists l.
  - f_equal. apply IH; [exact Hall|exact Hsub|discriminate].
Qed.

Lemma cap_runs_Forall (P : ascii -> Prop) c0 l :
  forall n, Forall P l -> Forall P (cap_runs c0 n l).
Proof.
  induction l as [|c l IH]; intros n Hl; [constructor|].
  apply Forall_cons in Hl as [Hc Hl]. cbn [cap_runs].
  destruct (Ascii.eqb c0 c); [destruct n as [|[|n]]|];
    try constructor; auto.
Qed.

Lemma cap_runs_head c0 l n :
  (n < 2)%nat -> head (cap_runs c0 n l) = head l.
Proof.
  intros Hn. destruct l as [|c l]; [reflexivity|]. cbn [cap_runs].
  destruct (Ascii.eqb c0 c); [|reflexivity].
  destruct n as [|[|n]]; [reflexivity|reflexivity|lia].
Qed.

Lemma starts_pair_head (a : ascii) (l : list ascii) :
  PyStr.starts [a; a] l = true
  <-> head l = Some a /\ head (tl l) = Some a.
Proof.
  rewrite starts_spec. split.
  - intros [rest ->]. now split.
  - destruct l as [|x [|y l]]; cbn; intros [[= ->] H]; try discriminate.
    injection H as ->. now exists l.
Qed.

(** Dropping characters [c0] of a run brings no two [a] together. *)
Lemma cap_runs_no_pair c0 a l :
  a <> c0 ->
  forall n,
    PyStr.find_sub [a; a] l = false ->
    PyStr.find_sub [a; a] (cap_runs c0 n l) = false.
Proof.
  intros Hne. induction l as [|c l IH]; intros n Hsub; [reflexivity|].
  cbn [PyStr.find_sub] in Hsub. apply orb_false_elim in Hsub as [Hs Hsub].
  cbn [cap_runs]. destruct (Ascii.eqb c0 c) eqn:Hc.
  - apply Ascii.eqb_eq in Hc. subst c.
    assert (Hstep : forall m,
               PyStr.find_sub [a; a] (c0 :: cap_runs c0 m l) = false).
    { intros m. cbn [PyStr.find_sub]. rewrite (IH m Hsub), orb_false_r.
      apply not_true_iff_false. intros H.
      apply starts_pair_head in H as [[= H] _]. congruence. }
    destruct n as [|[|n]]; [apply Hstep|apply Hstep|apply IH, Hsub].
  - cbn [PyStr.find_sub]. rewrite (IH 0%nat Hsub), orb_false_r.
    apply not_true_iff_false. intros H.
    apply starts_pair_head in H as [H1 H2]. cbn [head tl] in H1, H2.
    rewrite cap_runs_head in H2 by lia.
    apply not_true_iff_false in Hs. apply Hs.
    apply starts_pair_head. now split.
Qed.

(** After [cap_runs] no three [c0] stand together, counting those seen
    before. *)
Lemma cap_runs_no_triple c0 l :
  forall n,
    (n <= 2)%nat ->
    PyStr.find_sub [c0; c0; c0] (cap_runs c0 n l) = false
    /\ (n = 1%nat -> PyStr.starts [c0; c0] (cap_runs c0 n l) = false)
    /\ (n = 2%nat -> head (cap_runs c0 n l) <> Some c0).
Proof.
  induction l as [|c l IH]; intros n Hn.
  - cbn. split; [reflexivity|]. split; [reflexivity|discriminate].
  - cbn [cap_runs]. destruct (Ascii.eqb c0 c) eqn:Hc.
    + apply Ascii.eqb_eq in Hc. subst c.
      destruct n as [|[|[|n]]]; [| | |lia].
      * destruct (IH 1%nat) as (Hsub & Hpair & _); [lia|].
        split; [|split; discriminate].
        cbn [PyStr.find_sub]. rewrite Hsub, orb_false_r.
        cbn [PyStr.starts]. rewrite Ascii.eqb_refl. cbn [andb].
        apply (Hpair eq_refl).
      * destruct (IH 2%nat) as (Hsub & _ & Hhead); [lia|].
        assert (Hpair : PyStr.starts [c0; c0] (c0 :: cap_runs c0 2 l)
                        = false).
        { apply not_true_iff_false. intros H.
          apply starts_pair_head in H as [_ H]. cbn [tl] in H.
          now apply Hhead. }
        split; [|split; [intros _; exact Hpair|discriminate]].
        cbn [PyStr.find_sub]. rewrite Hsub, orb_false_r.
        apply not_true_iff_false. intros H.
        apply starts_spec in H as [rest H]. injection H as H.
        apply (Hhead eq_refl). now rewrite H.
      * destruct (IH 2%nat) as (Hsub & _ & Hhead); [lia|].
        split; [exact Hsub|]. split; [discriminate|exact Hhead].
    + destruct (IH 0%nat) as (Hsub & _ & _); [lia|].
      apply Ascii.eqb_neq in Hc.
      split; [|split].
      * cbn [PyStr.find_sub]. rewrite Hsub, orb_false_r.
        apply not_true_iff_false. intros H.
        apply starts_spec in H as [rest H]. injection H as H _. congruence.
      * intros _. apply not_true_iff_false. intros H.
        apply starts_spec in H as [rest H]. injection H as H _. congruence.
      * intros _ [= H]. congruence.
Qed.

Lemma cap_runs_fixed c0 l :
  forall n,
    (n <= 2)%nat ->
    PyStr.find_sub [c0; c0; c0] l = false ->
    (n = 1%nat -> PyStr.starts [c0; c0] l = false) ->
    (n = 2%nat -> head l <> Some c0) ->
    cap_runs c0 n l = l.
Proof.
  induction l as [|c l IH]; intros n Hn Hsub Hpair Hhead; [reflexivity|].
  cbn [PyStr.find_sub] in Hsub. apply orb_false_elim in Hsub as [Hs Hsub].
  cbn [cap_runs]. destruct (Ascii.eqb c0 c) eqn:Hc.
  - apply Ascii.eqb_eq in Hc. subst c.
    destruct n as [|[|[|n]]]; [| | |lia].
    + f_equal. apply IH; [lia|exact Hsub| |discriminate].
      intros _. apply not_true_iff_false. intros H.
      apply not_true_iff_false in Hs. apply Hs.
      apply starts_spec in H as [rest ->]. apply starts_spec. now exists rest.
    + f_equal. apply IH; [lia|exact Hsub|discriminate|].
      intros _ Hl. specialize (Hpair eq_refl).
      apply not_true_iff_false in Hpair. apply Hpair.
      apply starts_pair_head. now split.
    + exfalso. now apply (Hhead eq_refl).
  - f_equal. apply IH; [lia|exact Hsub|discriminate|discriminate].
Qed.

(** *** The normalized text *)

(** What the four rewriting steps of [_normalize_text] establish, before
    and after the final [strip]: no carriage return, no tab, no two spaces
    together and no three line feeds together. *)
Lemma normalize_text_chars (text : string) :
  let l := PyStr.chars (IngestionService._normalize_text text) in
  Forall (fun c => c <> PyStr.CR) l
  /\ Forall (fun c => Ascii.eqb c PyStr.TAB || Ascii.eqb c " " = true ->
                      c = " "%char) l
  /\ PyStr.find_sub [" "%char; " "%char] l = false
  /\ PyStr.find_sub [PyStr.LF; PyStr.LF; PyStr.LF] l = false
  /\ (forall c, head l = Some c \/ head (rev l) = Some c ->
                PyStr.isspace c = false).
Proof.
  cbv zeta. unfold IngestionService._normalize_text, PyStr.strip.
  set (p := fun c => Ascii.eqb c PyStr.TAB || Ascii.eqb c " ").
  unfold Re.sub, PyStr.replace. rewrite !chars_str.
  change (PyStr.chars " ") with [" "%char].
  change (PyStr.chars (String PyStr.LF (String PyStr.LF "")))
    with [PyStr.LF; PyStr.LF].
  change (PyStr.chars (String PyStr.CR "")) with [PyStr.CR].
  change (PyStr.chars (String PyStr.LF "")) with [PyStr.LF].
  set (l1 := PyStr.replace_go _ [PyStr.LF] 0 (PyStr.chars text)).
  rewrite (proj1 (replace_all_plus p _)).
  rewrite (proj1 (replace_all_cap PyStr.LF _) None 0%nat) by now left.
  set (l2 := PyStr.replace_go [PyStr.CR] [PyStr.LF] 0 l1).
  set (l4 := cap_runs PyStr.LF 0 (collapse_runs p false l2)).
  assert (Hcr : Forall (fun c => c <> PyStr.CR) l4).
  { apply cap_runs_Forall, collapse_runs_Forall; [discriminate|].
    apply replace_go_char. discriminate. }
  destruct (collapse_runs_shape p l2 eq_refl false) as (Hcls & Hsp & _).
  assert (Hcls4 : Forall (fun c => p c = true -> c = " "%char) l4)
    by (apply cap_runs_Forall, Hcls).
  assert (Hsp4 : PyStr.find_sub [" "%char; " "%char] l4 = false)
    by (apply cap_runs_no_pair; [discriminate|exact Hsp]).
  destruct (cap_runs_no_triple PyStr.LF (collapse_runs p false l2) 0)
    as (Hlf4 & _); [lia|].
  destruct (strip_by_infix PyStr.isspace (PyStr.str l4))
    as (pre & post & Hinfix).
  rewrite chars_str in Hinfix.
  set (y := PyStr.chars (PyStr.strip_by PyStr.isspace (PyStr.str l4))) in *.
  fold l4 in Hlf4. rewrite Hinfix in Hcr, Hcls4, Hsp4, Hlf4.
  apply Forall_app in Hcr as [_ Hcr]. apply Forall_app in Hcr as [Hcr _].
  apply Forall_app in Hcls4 as [_ Hcls4].
  apply Forall_app in Hcls4 as [Hcls4 _].
  apply find_sub_infix in Hsp4, Hlf4.
  split; [exact Hcr|]. split; [exact Hcls4|]. split; [exact Hsp4|].
  split; [exact Hlf4|]. apply strip_by_ends.
Qed.

(** A text of that shape is left as it is. *)
Lemma normalize_text_fixed (l : list ascii) :
  Forall (fun c => c <> PyStr.CR) l ->
  Forall (fun c => Ascii.eqb c PyStr.TAB || Ascii.eqb c " " = true ->
                   c = " "%char) l ->
  PyStr.find_sub [" "%char; " "%char] l = false ->
  PyStr.find_sub [PyStr.LF; PyStr.LF; PyStr.LF] l = false ->
  (forall c, head l = Some c \/ head (rev l) = Some c ->
             PyStr.isspace c = false) ->
  IngestionService._normalize_text (PyStr.str l) = PyStr.str l.
Proof.
  intros Hcr Hcls Hsp Hlf Hends.
  unfold IngestionService._normalize_text, PyStr.strip, Re.sub,
    PyStr.replace.
  rewrite !chars_str.
  change (PyStr.chars " ") with [" "%char].
  change (PyStr.chars (String PyStr.LF (String PyStr.LF "")))
    with [PyStr.LF; PyStr.LF].
  change (PyStr.chars (String PyStr.CR (String PyStr.LF "")))
    with [PyStr.CR; PyStr.LF].
  change (PyStr.chars (String PyStr.CR "")) with [PyStr.CR].
  change (PyStr.chars (String PyStr.LF "")) with [PyStr.LF].
  rewrite (replace_go_absent PyStr.CR [PyStr.LF] [PyStr.LF] l Hcr).
  rewrite (replace_go_absent PyStr.CR [] [PyStr.LF] l Hcr).
  rewrite (proj1 (replace_all_plus _ _)).
  rewrite collapse_runs_fixed by (assumption || discriminate).
  rewrite (proj1 (replace_all_cap PyStr.LF _) None 0%nat) by now left.
  rewrite cap_runs_fixed by (assumption || lia || discriminate).
  apply strip_by_fixed, Hends.
Qed.

(** X3. The text [_normalize_text] returns has no carriage return and no tab,
    no two spaces in a row and no three line feeds in a row, and neither
    starts nor ends with white space. *)
Theorem normalized_text_shape (text : string) :
  let t := IngestionService._normalize_text text in
  Forall (fun c => c <> PyStr.CR /\ c <> PyStr.TAB) (PyStr.chars t)
  /\ PyStr.contains "  " t = false
  /\ PyStr.contains
       (String PyStr.LF (String PyStr.LF (String PyStr.LF ""))) t = false
  /\ PyStr.strip t = t.
Proof.
  cbv zeta.
  destruct (normalize_text_chars text) as (Hcr & Hcls & Hsp & Hlf & Hends).
  cbv zeta in *.
  split; [|split; [exact Hsp|split; [exact Hlf|]]].
  - rewrite List.Forall_forall in *. intros c Hc.
    split; [exact (Hcr c Hc)|].
    intros ->. specialize (Hcls _ Hc eq_refl). discriminate Hcls.
  - rewrite <- (str_chars (IngestionService._normalize_text text)) at 1 2.
    apply strip_by_fixed, Hends.
Qed.

(** X4. [_normalize_text] is idempotent: the stored text of a document
    normalizes to itself, so the near-duplicate search compares the
    candidates' texts as they were stored, and a text that is uploaded again
    as it was stored has the same hash. *)
Theorem normalize_text_is_idempotent (text : string) :
  IngestionService._normalize_text (IngestionService._normalize_text text)
  = IngestionService._normalize_text text.
Proof.
  destruct (normalize_text_chars text) as (Hcr & Hcls & Hsp & Hlf & Hends).
  cbv zeta in *.
  rewrite <- (str_chars (IngestionService._normalize_text text)).
  now apply normalize_text_fixed.
Qed.

(** A sample: Windows line ends, tabs, runs of spaces and blank lines. *)
Example normalize_sample :
  IngestionService._normalize_text
    ("  Returns" +:+ String PyStr.TAB ("policy  " +:+ String PyStr.CR
       (String PyStr.LF (String PyStr.LF (String PyStr.LF
          (String PyStr.LF "  30 days " +:+ String PyStr.LF ""))))))
  = "Returns policy " +:+ String PyStr.LF (String PyStr.LF " 30 days").
Proof. vm_compute. reflexivity. Qed.

(** *** Sections *)

Lemma join_truthy (sep : string) (lines : list string) :
  lines <> [] -> Forall (fun l => PyStr.truthy l = true) lines ->
  PyStr.truthy (PyStr.join sep lines) = true.
Proof.
  destruct lines as [|l lines]; [congruence|].
  intros _ H. apply Forall_cons in H as [Hl _].
  destruct lines; cbn [PyStr.join]; [exact Hl|].
  destruct l; [discriminate Hl|reflexivity].
Qed.

Lemma close_section_content (sc : IngestionService.SectionScan) :
  Forall (fun sec => PyStr.truthy (sec_content sec) = true)
         (IngestionService.sections sc) ->
  Forall (fun l => PyStr.truthy l = true)
         (IngestionService.current_lines sc) ->
  Forall (fun sec => PyStr.truthy (sec_content sec) = true)
         (IngestionService.close_section sc).
Proof.
  intros Hs Hl. unfold IngestionService.close_section.
  destruct (IngestionService.current_lines sc) as [|l lines] eqn:E;
    [exact Hs|].
  apply Forall_app. split; [exact Hs|].
  constructor; [|constructor]. cbn [sec_content].
  apply join_truthy; [discriminate|exact Hl].
Qed.

Lemma scan_lines_content (lines : list string) :
  forall sc,
    Forall (fun sec => PyStr.truthy (sec_content sec) = true)
           (IngestionService.sections sc) ->
    Forall (fun l => PyStr.truthy l = true)
           (IngestionService.current_lines sc) ->
    let sc' := fold_left IngestionService.scan_line lines sc in
    Forall (fun sec => PyStr.truthy (sec_content sec) = true)
           (IngestionService.sections sc')
    /\ Forall (fun l => PyStr.truthy l = true)
              (IngestionService.current_lines sc').
Proof.
  induction lines as [|line lines IH]; intros sc Hs Hl; [now split|].
  cbn [fold_left]. apply IH.
  - unfold IngestionService.scan_line.
    destruct (PyStr.truthy (PyStr.strip line)); cbn [negb]; [|exact Hs].
    destruct (IngestionService.is_header _);
      cbn [IngestionService.sections]; [|exact Hs].
    now apply close_section_content.
  - unfold IngestionService.scan_line.
    destruct (PyStr.truthy (PyStr.strip line)) eqn:Ht; cbn [negb];
      [|exact Hl].
    destruct (IngestionService.is_header _);
      cbn [IngestionService.current_lines]; [constructor|].
    apply Forall_app. split; [exact Hl|]. constructor; [exact Ht|constructor].
Qed.

(** X5. Every section [_extract_sections] returns has content: a header that
    no text line follows opens no section, and an empty text has none. *)
Theorem extracted_sections_have_content (text : string) :
  Forall (fun sec => sec_content sec <> "")
         (IngestionService._extract_sections text)
  /\ (text = "" -> IngestionService._extract_sections text = []).
Proof.
  split; [|now intros ->].
  unfold IngestionService._extract_sections.
  destruct (negb (PyStr.truthy text)); [constructor|].
  destruct (scan_lines_content (PyStr.splitlines text)
              {| IngestionService.sections := [];
                 IngestionService.current_title := "General";
                 IngestionService.current_lines := [] |})
    as [Hs Hl]; [constructor|constructor|].
  cbv zeta in Hs, Hl.
  eapply Forall_impl; [apply close_section_content; eassumption|].
  intros sec Hsec Hempty. cbv beta in Hsec. rewrite Hempty in Hsec.
  discriminate Hsec.
Qed.

(** Two headers in a row: only the second one gets a section. *)
Example sections_sample :
  IngestionService._extract_sections
    ("Scope:" +:+ String PyStr.LF ("# Returns" +:+ String PyStr.LF
       ("Keep the receipt." +:+ String PyStr.LF "- 30 days")))
  = [{| sec_title := "Returns";
        sec_content := "Keep the receipt. - 30 days" |}].
Proof. vm_compute. reflexivity. Qed.

Section Ingest.

Variable st : Settings.
Variable extract_external :
  string -> string -> result (string * IngestionService.ExtractionMeta).
Variable embedding_similarity : string -> string -> float.
Variable days_old : string -> option Z.

(** What a successful [ingest_upload] did: the text it stored, the two
    files it wrote and the row it added. *)
Lemma ingest_upload_returns new_id token tenant_id project_id filename
    content metadata w doc w' :
  IngestionService.ingest_upload st extract_external
    embedding_similarity days_old new_id token tenant_id project_id
    filename content metadata w
  = (Return doc, w') ->
  exists text sections raw_path near similarity extraction_meta,
    let duplicate :=
      IngestionService.exact_duplicate tenant_id project_id
                                       (Sha256.hexdigest text) w in
    doc_id doc = new_id
    /\ doc_tenant_id doc = tenant_id
    /\ doc_project_id doc = project_id
    /\ doc_sha256_hash doc = Sha256.hexdigest text
    /\ doc_pii_hits doc = IngestionService._detect_pii text
    /\ doc_quality_score doc
       = IngestionService._doc_quality_score days_old text extraction_meta
           metadata (doc_pii_hits doc) similarity
    /\ doc_status doc
       = IngestionService.decide_status st duplicate (doc_pii_hits doc)
           (doc_quality_score doc) near
    /\ doc_near_duplicate_of doc
       = match duplicate with
         | Some existing => Some (doc_id existing)
         | None => near
         end
    /\ match duplicate with
       | Some _ => near = None /\ similarity = 0.0%float
       | None =>
           IngestionService._find_near_duplicate st embedding_similarity
             tenant_id project_id text
             (IngestionService.write_file (doc_normalized_text_path doc)
                (FPayload {| payload_text := text;
                             payload_sections := sections |})
                (IngestionService.write_file raw_path (FRaw content) w))
           = Return (near, similarity)
       end
    /\ w' = IngestionService.add_document doc
              (IngestionService.write_file (doc_normalized_text_path doc)
                 (FPayload {| payload_text := text;
                              payload_sections := sections |})
                 (IngestionService.write_file raw_path (FRaw content) w)).
Proof.
  unfold IngestionService.ingest_upload.
  destruct (32000 <? dumps_length metadata); [discriminate|].
  destruct (negb (PyStr.truthy content)); [discriminate|].
  destruct (IngestionService._detect_file_type _) as [file_type|];
    [|discriminate].
  destruct (IngestionService._mock_virus_scan _ _ _); [|discriminate].
  destruct (IngestionService._extract_text _ _ _)
    as [[extracted extraction_meta]|]; [|discriminate].
  cbv zeta.
  set (text := IngestionService._normalize_text extracted).
  set (raw_path := path_join _ (token +:+ _)).
  set (normalized_path := path_join _ (Sha256.hexdigest text +:+ _)).
  destruct (IngestionService.exact_duplicate _ _ _ w) as [existing|] eqn:Hdup.
  - intros H. apply returned_pair in H as [<- <-].
    exists text, (IngestionService._extract_sections text), raw_path, None,
      0.0%float, extraction_meta.
    cbn [doc_id doc_tenant_id doc_project_id doc_sha256_hash doc_pii_hits
         doc_quality_score doc_status doc_near_duplicate_of
         doc_normalized_text_path].
    rewrite Hdup. repeat split; reflexivity.
  - destruct (IngestionService._find_near_duplicate _ _ _ _ _ _)
      as [[near similarity]|] eqn:Hnear; [|discriminate].
    intros H. apply returned_pair in H as [<- <-].
    exists text, (IngestionService._extract_sections text), raw_path, near,
      similarity, extraction_meta.
    cbn [doc_id doc_tenant_id doc_project_id doc_sha256_hash doc_pii_hits
         doc_quality_score doc_status doc_near_duplicate_of
         doc_normalized_text_path].
    rewrite Hdup. repeat split; try reflexivity. exact Hnear.
Qed.

Lemma decide_status_rejected duplicate hits quality near :
  IngestionService.decide_status st duplicate hits quality near
  = DocumentStatus.REJECTED <-> duplicate <> None.
Proof.
  unfold IngestionService.decide_status.
  destruct duplicate; [split; [discriminate|reflexivity]|].
  destruct hits; [destruct (_ || _)|]; split; congruence.
Qed.

Lemma exact_duplicate_spec tenant_id project_id sha_hash w :
  match IngestionService.exact_duplicate tenant_id project_id sha_hash w with
  | Some d =>
      d ∈ documents (db w) /\ doc_tenant_id d = tenant_id
      /\ doc_project_id d = project_id /\ doc_sha256_hash d = sha_hash
  | None =>
      forall d, d ∈ documents (db w) -> doc_tenant_id d = tenant_id ->
                doc_project_id d = project_id ->
                doc_sha256_hash d <> sha_hash
  end.
Proof.
  unfold IngestionService.exact_duplicate.
  destruct (List.find _ _) as [d|] eqn:Hfind.
  - apply find_some in Hfind as [Hin Hd].
    apply andb_prop in Hd as [Hd Hh]. apply andb_prop in Hd as [Ht Hp].
    apply String.eqb_eq in Ht, Hp, Hh.
    now rewrite list_elem_of_In.
  - intros d Hin Ht Hp Hh. rewrite list_elem_of_In in Hin.
    apply (find_none _ _ Hfind) in Hin.
    rewrite Ht, Hp, Hh, !String.eqb_refl in Hin. discriminate.
Qed.

(** X6. A stored document is REJECTED exactly when the project already holds
    a row with the hash of its normalized text; its near-duplicate
    reference is then the id of the first such row. *)
Theorem exact_duplicate_is_rejected new_id token tenant_id project_id
    filename content metadata w doc w' :
  IngestionService.ingest_upload st extract_external
    embedding_similarity days_old new_id token tenant_id project_id
    filename content metadata w
  = (Return doc, w') ->
  (doc_status doc = DocumentStatus.REJECTED
   <-> exists d, d ∈ documents (db w) /\ doc_tenant_id d = tenant_id
                 /\ doc_project_id d = project_id
                 /\ doc_sha256_hash d = doc_sha256_hash doc)
  /\ (forall d,
        IngestionService.exact_duplicate tenant_id project_id
          (doc_sha256_hash doc) w = Some d ->
        doc_status doc = DocumentStatus.REJECTED
        /\ doc_near_duplicate_of doc = Some (doc_id d)).
Proof.
  intros H. apply ingest_upload_returns in H
    as (text & sections & raw_path & near & similarity & meta & H).
  cbv zeta in H.
  destruct H as (_ & _ & _ & Hhash & _ & _ & Hstatus & Hnear & _ & _).
  rewrite Hhash, Hstatus, decide_status_rejected.
  pose proof (exact_duplicate_spec tenant_id project_id
                (Sha256.hexdigest text) w) as Hspec.
  split; [split|].
  - intros Hd. destruct (IngestionService.exact_duplicate _ _ _ w) as [d|];
      [|congruence]. now exists d.
  - intros (d & Hin & Ht & Hp & Hh).
    destruct (IngestionService.exact_duplicate _ _ _ w); [congruence|].
    now destruct (Hspec d Hin Ht Hp).
  - intros d Hd. rewrite Hd in Hnear |- *.
    split; [now apply decide_status_rejected|exact Hnear].
Qed.

(** X7. After a successful upload the normalized-text artifact of the new row
    can be read back, and the hash and the PII hits of the row are those of
    the stored text, for a rejected duplicate as for any other document. *)
Theorem stored_text_matches_row new_id token tenant_id project_id filename
    content metadata w doc w' :
  IngestionService.ingest_upload st extract_external
    embedding_similarity days_old new_id token tenant_id project_id
    filename content metadata w
  = (Return doc, w') ->
  exists payload,
    read_payload w' (doc_normalized_text_path doc) = Return payload
    /\ doc_sha256_hash doc = Sha256.hexdigest (payload_text payload)
    /\ doc_pii_hits doc
       = IngestionService._detect_pii (payload_text payload).
Proof.
  intros H. apply ingest_upload_returns in H
    as (text & sections & raw_path & near & similarity & meta & H).
  cbv zeta in H.
  destruct H as (_ & _ & _ & Hhash & Hpii & _ & _ & _ & _ & ->).
  exists {| payload_text := text; payload_sections := sections |}.
  split; [|split; assumption].
  unfold read_payload, IngestionService.add_document,
    IngestionService.write_file. cbn [fs].
  now rewrite lookup_insert_eq.
Qed.

(** X8. A stored document is READY only if the project held no row with its
    hash, no PII was detected, its quality score reaches the threshold and
    no near duplicate was found; with PII hits and no exact duplicate the
    status is REDACTION_REQUIRED whatever the score. *)
Theorem ready_document_is_clean new_id token tenant_id project_id filename
    content metadata w doc w' :
  IngestionService.ingest_upload st extract_external
    embedding_similarity days_old new_id token tenant_id project_id
    filename content metadata w
  = (Return doc, w') ->
  (doc_status doc = DocumentStatus.READY ->
   IngestionService.exact_duplicate tenant_id project_id
     (doc_sha256_hash doc) w = None
   /\ doc_pii_hits doc = []
   /\ doc_quality_threshold st <= doc_quality_score doc
   /\ (doc_near_duplicate_of doc = None
       \/ doc_near_duplicate_of doc = Some ""))
  /\ (IngestionService.exact_duplicate tenant_id project_id
        (doc_sha256_hash doc) w = None ->
      doc_pii_hits doc <> [] ->
      doc_status doc = DocumentStatus.REDACTION_REQUIRED).
Proof.
  intros H. apply ingest_upload_returns in H
    as (text & sections & raw_path & near & similarity & meta & H).
  cbv zeta in H.
  destruct H as (_ & _ & _ & Hhash & _ & _ & Hstatus & Hnear & _ & _).
  rewrite Hhash, Hstatus, Hnear.
  unfold IngestionService.decide_status.
  destruct (IngestionService.exact_duplicate _ _ _ w) as [d|].
  { split; [discriminate|discriminate]. }
  destruct (doc_pii_hits doc) as [|h hits].
  2:{ split; [discriminate|reflexivity]. }
  split; [|congruence].
  destruct (doc_quality_score doc <? doc_quality_threshold st) eqn:Hq;
    [discriminate|].
  apply Z.ltb_ge in Hq.
  destruct near as [id|]; [|now intros _; repeat split; try left].
  destruct id; [|discriminate].
  intros _. repeat split; try assumption. now right.
Qed.

(** X9. [ingest_upload] appends exactly the returned row to the document table
    and touches no other table; when it raises, whatever the reason, the
    database is as it was. *)
Theorem ingest_upload_adds_one_row_or_none new_id token tenant_id
    project_id filename content metadata w :
  let outcome :=
    IngestionService.ingest_upload st extract_external
      embedding_similarity days_old new_id token tenant_id project_id
      filename content metadata w in
  db (snd outcome)
  = match fst outcome with
    | Return doc => set_documents (documents (db w) ++ [doc]) (db w)
    | Raise _ => db w
    end.
Proof.
  cbv zeta. unfold IngestionService.ingest_upload.
  destruct (32000 <? dumps_length metadata); [reflexivity|].
  destruct (negb (PyStr.truthy content)); [reflexivity|].
  destruct (IngestionService._detect_file_type _); [|reflexivity].
  destruct (IngestionService._mock_virus_scan _ _ _); [|reflexivity].
  destruct (IngestionService._extract_text _ _ _) as [[extracted meta]|];
    [|reflexivity].
  cbv zeta.
  destruct (IngestionService.exact_duplicate _ _ _ w); [reflexivity|].
  destruct (IngestionService._find_near_duplicate _ _ _ _ _ _) as [[? ?]|];
    reflexivity.
Qed.

Lemma best_match_candidate w text docs best score id s :
  IngestionService.best_match embedding_similarity w text docs best score
  = Return (Some id, s) ->
  best = Some id \/ exists d, d ∈ docs /\ doc_id d = id.
Proof.
  revert best score. induction docs as [|d docs IH]; intros best score.
  - cbn. intros [= -> _]. now left.
  - cbn [IngestionService.best_match].
    destruct (read_payload _ _); [|discriminate].
    destruct (negb _).
    + intros H. apply IH in H as [H|(d' & Hin & Hid)]; [now left|].
      right. exists d'. split; [now right|exact Hid].
    + destruct (_ <? _)%float; intros H;
        apply IH in H as [H|(d' & Hin & Hid)].
      * right. exists d. split; [left|congruence].
      * right. exists d'. split; [now right|exact Hid].
      * now left.
      * right. exists d'. split; [now right|exact Hid].
Qed.

(** X10. The near-duplicate reference of a stored document, when there is one,
    is the id of a row that was in the table before the upload and belongs
    to the same tenant and the same project. *)
Theorem near_duplicate_reference_stays_in_project new_id token tenant_id
    project_id filename content metadata w doc w' id :
  IngestionService.ingest_upload st extract_external
    embedding_similarity days_old new_id token tenant_id project_id
    filename content metadata w
  = (Return doc, w') ->
  doc_near_duplicate_of doc = Some id ->
  exists d, d ∈ documents (db w) /\ doc_id d = id
            /\ doc_tenant_id d = tenant_id /\ doc_project_id d = project_id.
Proof.
  intros H. apply ingest_upload_returns in H
    as (text & sections & raw_path & near & similarity & meta & H).
  cbv zeta in H.
  destruct H as (_ & _ & _ & _ & _ & _ & _ & Hnear & Hfind & _).
  rewrite Hnear.
  pose proof (exact_duplicate_spec tenant_id project_id
                (Sha256.hexdigest text) w) as Hspec.
  destruct (IngestionService.exact_duplicate _ _ _ w) as [d|].
  - intros [= <-]. exists d. tauto.
  - intros ->. unfold IngestionService._find_near_duplicate in Hfind.
    destruct (IngestionService.best_match _ _ _ _ _ _) as [[best s]|] eqn:Hb;
      [|discriminate].
    destruct (_ <=? _)%float; [|discriminate].
    injection Hfind as -> ->.
    apply best_match_candidate in Hb as [Hb|(d & Hin & Hid)];
      [discriminate|].
    unfold IngestionService.candidate_docs in Hin.
    rewrite list_elem_of_In in Hin. apply filter_In in Hin as [Hin Hd].
    apply andb_prop in Hd as [Hd _]. apply andb_prop in Hd as [Ht Hp].
    apply String.eqb_eq in Ht, Hp.
    exists d. rewrite list_elem_of_In. cbn [db IngestionService.write_file] in Hin.
    tauto.
Qed.

Lemma find_append {A} (f : A -> bool) (l1 l2 : list A) :
  List.find f (l1 ++ l2)
  = match List.find f l1 with
    | Some x => Some x
    | None => List.find f l2
    end.
Proof.
  induction l1 as [|a l1 IH]; [reflexivity|].
  cbn. now destruct (f a).
Qed.

Lemma exact_duplicate_add tenant_id project_id sha_hash d w :
  IngestionService.exact_duplicate tenant_id project_id sha_hash
    (IngestionService.add_document d w)
  = match IngestionService.exact_duplicate tenant_id project_id sha_hash w
    with
    | Some x => Some x
    | None =>
        if String.eqb (doc_tenant_id d) tenant_id
           && String.eqb (doc_project_id d) project_id
           && String.eqb (doc_sha256_hash d) sha_hash
        then Some d else None
    end.
Proof.
  unfold IngestionService.exact_duplicate, IngestionService.add_document.
  cbn [db documents set_documents]. rewrite find_append.
  destruct (List.find _ (documents (db w))); reflexivity.
Qed.

Lemma exact_duplicate_write tenant_id project_id sha_hash path file w :
  IngestionService.exact_duplicate tenant_id project_id sha_hash
    (IngestionService.write_file path file w)
  = IngestionService.exact_duplicate tenant_id project_id sha_hash w.
Proof. reflexivity. Qed.

(** X11. When an upload was stored, uploading the same file again to the same
    project is stored too, with the same hash and the status REJECTED, and
    its near-duplicate reference names the first row of that hash: the row
    of the first upload, or the row that one was itself rejected for. The
    near-duplicate search is not run, so nothing read from the artifact
    directory can make the second upload fail. *)
Theorem reingest_is_rejected id1 token1 id2 token2 tenant_id project_id
    filename content metadata1 metadata2 w doc1 w1 :
  IngestionService.ingest_upload st extract_external
    embedding_similarity days_old id1 token1 tenant_id project_id
    filename content metadata1 w
  = (Return doc1, w1) ->
  dumps_length metadata2 <= 32000 ->
  exists doc2 w2,
    IngestionService.ingest_upload st extract_external
      embedding_similarity days_old id2 token2 tenant_id project_id
      filename content metadata2 w1
    = (Return doc2, w2)
    /\ doc_status doc2 = DocumentStatus.REJECTED
    /\ doc_sha256_hash doc2 = doc_sha256_hash doc1
    /\ doc_near_duplicate_of doc2
       = if bool_decide (doc_status doc1 = DocumentStatus.REJECTED)
         then doc_near_duplicate_of doc1
         else Some id1.
Proof.
  intros H Hsize. unfold IngestionService.ingest_upload in H |- *.
  destruct (32000 <? dumps_length metadata1); [discriminate|].
  replace (32000 <? dumps_length metadata2) with false
    by (symmetry; apply Z.ltb_ge; exact Hsize).
  destruct (negb (PyStr.truthy content)); [discriminate|].
  destruct (IngestionService._detect_file_type _) as [file_type|];
    [|discriminate].
  destruct (IngestionService._mock_virus_scan _ _ _); [|discriminate].
  destruct (IngestionService._extract_text _ _ _)
    as [[extracted extraction_meta]|]; [|discriminate].
  cbv zeta in H |- *.
  set (text := IngestionService._normalize_text extracted) in *.
  destruct (IngestionService.exact_duplicate _ _ _ w) as [existing|] eqn:Hdup.
  - apply returned_pair in H as [<- <-].
    rewrite exact_duplicate_add, !exact_duplicate_write, Hdup.
    eexists _, _. split; [reflexivity|].
    cbn [doc_status doc_sha256_hash doc_near_duplicate_of
         IngestionService.decide_status].
    rewrite bool_decide_eq_true_2 by reflexivity.
    split; [reflexivity|split; reflexivity].
  - destruct (IngestionService._find_near_duplicate _ _ _ _ _ _)
      as [[near similarity]|]; [|discriminate].
    apply returned_pair in H as [<- <-].
    rewrite exact_duplicate_add, !exact_duplicate_write, Hdup.
    cbn [doc_tenant_id doc_project_id doc_sha256_hash].
    rewrite !String.eqb_refl. cbn [andb].
    eexists _, _. split; [reflexivity|].
    cbn [doc_status doc_sha256_hash doc_near_duplicate_of doc_id
         IngestionService.decide_status].
    rewrite bool_decide_eq_false_2;
      [split; [reflexivity|split; reflexivity]|].
    destruct (IngestionService._detect_pii text); [|discriminate].
    destruct (_ || _); discriminate.
Qed.

Lemma detect_file_type_supported (name file_type : string) :
  IngestionService._detect_file_type name = Return file_type ->
  PyStr.lower (IngestionService.path_suffix name)
  ∈ [".pdf"; ".docx"; ".txt"; ".md"; ".html"; ".htm"; ".csv"].
Proof.
  unfold IngestionService._detect_file_type. cbv zeta.
  destruct (List.find _ _) as [entry|] eqn:Hfind; [|discriminate].
  intros _. apply find_some in Hfind as [Hin Heq].
  apply String.eqb_eq in Heq. rewrite <- Heq.
  cbn [In] in Hin.
  repeat (destruct Hin as [<-|Hin]; [cbn [fst]; set_solver|]).
  destruct Hin.
Qed.

(** X12. An upload whose metadata is too large, whose content is empty, whose
    stored name has none of the supported suffixes, or whose content
    exceeds the size limit is refused with an exception before anything is
    written: the database and the artifact directory are as they were. *)
Theorem refused_upload_writes_nothing new_id token tenant_id project_id
    filename content metadata w :
  let name :=
    IngestionService._safe_filename
      (match filename with
       | Some given => if PyStr.truthy given then given else "uploaded"
       | None => "uploaded"
       end) in
  32000 < dumps_length metadata
  \/ content = ""
  \/ PyStr.lower (IngestionService.path_suffix name)
     ∉ [".pdf"; ".docx"; ".txt"; ".md"; ".html"; ".htm"; ".csv"]
  \/ max_upload_mb st * 1024 * 1024 < PyStr.len content ->
  exists e,
    IngestionService.ingest_upload st extract_external
      embedding_similarity days_old new_id token tenant_id project_id
      filename content metadata w
    = (Raise e, w).
Proof.
  cbv zeta. intros Hbad. unfold IngestionService.ingest_upload.
  destruct (Z.ltb_spec 32000 (dumps_length metadata)) as [Hmeta|Hmeta];
    [eexists; reflexivity|].
  destruct (PyStr.truthy content) eqn:Hcontent; cbn [negb];
    [|eexists; reflexivity].
  destruct (IngestionService._detect_file_type _) as [file_type|e] eqn:Htype;
    [|eexists; reflexivity].
  apply detect_file_type_supported in Htype.
  unfold IngestionService._mock_virus_scan.
  destruct (Z.ltb_spec (max_upload_mb st * 1024 * 1024) (PyStr.len content))
    as [Hsize|Hsize]; [eexists; reflexivity|].
  exfalso. destruct Hbad as [H|[H|[H|H]]]; [lia| |now apply H|lia].
  rewrite H in Hcontent. discriminate Hcontent.
Qed.

End Ingest.

Lemma exact_duplicate_is_rejected_witness :
  doc_status (returned (fst second_upload) no_document)
  = DocumentStatus.REJECTED
  /\ doc_near_duplicate_of (returned (fst second_upload) no_document)
     = Some (doc_id (returned (fst first_upload) no_document)).
Proof.
  apply (exact_duplicate_is_rejected demo_settings no_external
           same_text_similarity undated "doc-2" "8899aabbccddeeff"
           "tenant-1" "project-1" (Some "policy.txt") policy_text
           demo_metadata (snd first_upload)
           (returned (fst second_upload) no_document)
           (snd second_upload)).
  - apply (outcome_returned second_upload). vm_compute. reflexivity.
  - vm_compute. reflexivity.
Defined.

Lemma stored_text_matches_row_witness :
  exists payload,
    read_payload (snd contact_again)
      (doc_normalized_text_path (returned (fst contact_again) no_document))
    = Return payload
    /\ doc_sha256_hash (returned (fst contact_again) no_document)
       = Sha256.hexdigest (payload_text payload)
    /\ doc_pii_hits (returned (fst contact_again) no_document)
       = IngestionService._detect_pii (payload_text payload).
Proof.
  apply (stored_text_matches_row demo_settings no_external
           same_text_similarity undated "doc-4" "fedcba9876543210"
           "tenant-1" "project-1" (Some "policy.txt") contact_text
           demo_metadata (snd contact_upload)).
  apply (outcome_returned contact_again). vm_compute. reflexivity.
Defined.

Lemma ready_document_is_clean_witness :
  IngestionService.exact_duplicate "tenant-1" "project-1"
    (doc_sha256_hash (returned (fst first_upload) no_document)) empty_world
  = None
  /\ doc_pii_hits (returned (fst first_upload) no_document) = []
  /\ doc_quality_threshold demo_settings
     <= doc_quality_score (returned (fst first_upload) no_document)
  /\ (doc_near_duplicate_of (returned (fst first_upload) no_document) = None
      \/ doc_near_duplicate_of (returned (fst first_upload) no_document)
         = Some "").
Proof.
  apply (ready_document_is_clean demo_settings no_external
           same_text_similarity undated "doc-1" "0011223344556677"
           "tenant-1" "project-1" (Some "policy.txt") policy_text
           demo_metadata empty_world
           (returned (fst first_upload) no_document) (snd first_upload)).
  - apply (outcome_returned first_upload). vm_compute. reflexivity.
  - vm_compute. reflexivity.
Defined.

Lemma near_duplicate_reference_stays_in_project_witness :
  exists d, d ∈ documents (db (snd first_upload)) /\ doc_id d = "doc-1"
            /\ doc_tenant_id d = "tenant-1"
            /\ doc_project_id d = "project-1".
Proof.
  apply (near_duplicate_reference_stays_in_project demo_settings
           no_external same_text_similarity undated "doc-2"
           "8899aabbccddeeff" "tenant-1" "project-1" (Some "policy.txt")
           policy_text demo_metadata (snd first_upload)
           (returned (fst second_upload) no_document)
           (snd second_upload)).
  - apply (outcome_returned second_upload). vm_compute. reflexivity.
  - vm_compute. reflexivity.
Defined.

Lemma reingest_is_rejected_witness :
  exists doc2 w2,
    demo_upload "doc-4" "fedcba9876543210" contact_text (snd contact_upload)
    = (Return doc2, w2)
    /\ doc_status doc2 = DocumentStatus.REJECTED
    /\ doc_sha256_hash doc2
       = doc_sha256_hash (returned (fst contact_upload) no_document)
    /\ doc_near_duplicate_of doc2
       = if bool_decide (doc_status (returned (fst contact_upload)
                                              no_document)
                         = DocumentStatus.REJECTED)
         then doc_near_duplicate_of (returned (fst contact_upload)
                                              no_document)
         else Some "doc-3".
Proof.
  apply (reingest_is_rejected demo_settings no_external
           same_text_similarity undated "doc-3" "0123456789abcdef" "doc-4"
           "fedcba9876543210" "tenant-1" "project-1" (Some "policy.txt")
           contact_text demo_metadata demo_metadata (snd first_upload)
           (returned (fst contact_upload) no_document)
           (snd contact_upload)).
  - apply (outcome_returned contact_upload). vm_compute. reflexivity.
  - vm_compute. discriminate.
Defined.

(** A rejected duplicate carries the PII hits of its text. *)
Example duplicate_keeps_pii_hits :
  doc_status (returned (fst contact_again) no_document)
  = DocumentStatus.REJECTED
  /\ doc_pii_hits (returned (fst contact_again) no_document)
     = [{| pii_type := "email"; pii_value := "jane.doe@example.com" |};
        {| pii_type := "phone"; pii_value := "555-123-4567" |}].
Proof. vm_compute. split; reflexivity. Qed.

Lemma refused_upload_writes_nothing_witness :
  exists e,
    IngestionService.ingest_upload demo_settings no_external
      same_text_similarity undated "doc-9" "00ff00ff00ff00ff" "tenant-1"
      "project-1" (Some "../setup.exe") "MZ" demo_metadata
      (snd first_upload)
    = (Raise e, snd first_upload).
Proof.
  apply (refused_upload_writes_nothing demo_settings no_external
           same_text_similarity undated "doc-9" "00ff00ff00ff00ff"
           "tenant-1" "project-1" (Some "../setup.exe") "MZ" demo_metadata
           (snd first_upload)).
  right. right. left. apply (bool_decide_unpack _). vm_compute. exact I.
Defined.

(** ** Dataset builder: chunking *)

Lemma chars_app (a b : string) :
  PyStr.chars (a +:+ b) = PyStr.chars a ++ PyStr.chars b.
Proof.
  unfold PyStr.chars. induction a as [|c a IH]; [reflexivity|].
  simpl. now rewrite IH.
Qed.

(** Reading a run of characters that are not white space extends the
    current word. *)
Lemma split_go_word (w cur l : list ascii) :
  Forall (fun c => PyStr.isspace c = false) w ->
  PyStr.split_go cur (w ++ l) = PyStr.split_go (rev w ++ cur) l.
Proof.
  revert cur. induction w as [|c w IH]; intros cur Hw; [reflexivity|].
  apply Forall_cons in Hw as [Hc Hw].
  cbn [app PyStr.split_go rev]. rewrite Hc, IH by exact Hw.
  now rewrite <- app_assoc.
Qed.

(** What [split_go] returns are words: not empty, without white space. *)
Lemma split_go_words (l cur : list ascii) :
  Forall (fun c => PyStr.isspace c = false) cur ->
  Forall (fun w => w <> [] /\ Forall (fun c => PyStr.isspace c = false) w)
         (PyStr.split_go cur l).
Proof.
  revert cur. induction l as [|c l IH]; intros cur Hcur.
  - cbn. destruct cur as [|a cur]; [constructor|].
    constructor; [|constructor]. split.
    + intros H. apply (f_equal (@length _)) in H.
      rewrite length_rev in H. discriminate H.
    + apply Forall_rev, Hcur.
  - cbn [PyStr.split_go]. destruct (PyStr.isspace c) eqn:Hc.
    + destruct cur as [|a cur]; [apply IH; constructor|].
      constructor; [|apply IH; constructor]. split.
      * intros H. apply (f_equal (@length _)) in H.
        rewrite length_rev in H. discriminate H.
      * apply Forall_rev, Hcur.
    + apply IH. constructor; assumption.
Qed.

(** Words joined by single spaces split into the same words. *)
Lemma split_go_join (ws : list (list ascii)) :
  Forall (fun w => w <> [] /\ Forall (fun c => PyStr.isspace c = false) w)
         ws ->
  PyStr.split_go [] (PyStr.chars (PyStr.join " " (map PyStr.str ws))) = ws.
Proof.
  induction ws as [|w ws IH]; intros Hws; [reflexivity|].
  apply Forall_cons in Hws as [[Hne Hw] Hws].
  destruct ws as [|w2 ws].
  - cbn [map PyStr.join]. rewrite chars_str.
    rewrite <- (app_nil_r w) at 1. rewrite split_go_word by exact Hw.
    rewrite app_nil_r. cbn [PyStr.split_go].
    destruct (rev w) eqn:Hrev.
    + apply (f_equal (@length _)) in Hrev. rewrite length_rev in Hrev.
      destruct w; [congruence|discriminate Hrev].
    + now rewrite <- Hrev, rev_involutive.
  - change (PyStr.join " " (map PyStr.str (w :: w2 :: ws)))
      with (PyStr.str w +:+ " " +:+ PyStr.join " " (map PyStr.str (w2 :: ws))).
    rewrite !chars_app, chars_str, split_go_word by exact Hw.
    rewrite app_nil_r. cbn [PyStr.chars list_ascii_of_string app
                            PyStr.split_go].
    change (PyStr.isspace " ") with true. cbv iota.
    destruct (rev w) eqn:Hrev.
    + apply (f_equal (@length _)) in Hrev. rewrite length_rev in Hrev.
      destruct w; [congruence|discriminate Hrev].
    + rewrite <- Hrev, rev_involutive. f_equal. apply IH, Hws.
Qed.

Lemma pieces_spec {A} (P : A -> Prop) (n : nat) :
  (0 < n)%nat -> forall fuel (l : list A),
  (length l <= fuel)%nat -> Forall P l ->
  concat (pieces fuel n l) = l
  /\ Forall (fun g => (1 <= length g <= n)%nat /\ Forall P g)
            (pieces fuel n l).
Proof.
  intros Hn. induction fuel as [|fuel IH]; intros l Hlen HP.
  - destruct l; [|cbn in Hlen; lia]. split; [reflexivity|constructor].
  - destruct l as [|a l]; [split; [reflexivity|constructor]|].
    cbn [pieces].
    destruct (IH (skipn n (a :: l))) as [Hcat Hall].
    { rewrite length_skipn. cbn [length] in *. lia. }
    { rewrite <- (firstn_skipn n (a :: l)) in HP.
      now apply Forall_app in HP. }
    split.
    + cbn [concat]. rewrite Hcat. apply firstn_skipn.
    + constructor; [|exact Hall]. split.
      * rewrite length_firstn. cbn [length]. lia.
      * rewrite <- (firstn_skipn n (a :: l)) in HP.
        now apply Forall_app in HP.
Qed.

Lemma resplit_groups (gs : list (list (list ascii))) :
  (forall g, In g gs ->
             PyStr.split_go []
               (PyStr.chars (PyStr.join " " (map PyStr.str g))) = g) ->
  flat_map PyStr.split
           (map (fun g => PyStr.join " " (map PyStr.str g)) gs)
  = map PyStr.str (concat gs).
Proof.
  induction gs as [|g gs IH]; intros Hgs; [reflexivity|].
  cbn [map flat_map concat]. rewrite map_app. unfold PyStr.split at 1.
  rewrite (Hgs g) by now left.
  f_equal. apply IH. intros g' Hg'. apply Hgs. now right.
Qed.

(** X13. [_chunk_text] loses no word and adds none: splitting the chunks again
    gives the words of the text, in order. Every chunk holds at least one
    and at most [max_words] words, so a text without words has no chunk. *)
Theorem chunk_text_keeps_the_words (text : string) (max_words : nat) :
  (0 < max_words)%nat ->
  flat_map PyStr.split (_chunk_text text max_words) = PyStr.split text
  /\ Forall (fun chunk =>
               (1 <= length (PyStr.split chunk) <= max_words)%nat)
            (_chunk_text text max_words).
Proof.
  intros Hn. unfold _chunk_text, PyStr.split. cbv zeta.
  set (ws := PyStr.split_go [] (PyStr.chars text)).
  assert (Hws : Forall (fun w => w <> []
                     /\ Forall (fun c => PyStr.isspace c = false) w) ws)
    by (apply split_go_words; constructor).
  destruct (pieces_spec
              (fun w => w <> []
                        /\ Forall (fun c => PyStr.isspace c = false) w)
              max_words Hn (length (map PyStr.str ws)) ws)
    as [Hcat Hall]; [now rewrite length_map|exact Hws|].
  assert (Hmap : forall fuel (l : list (list ascii)),
             pieces fuel max_words (map PyStr.str l)
             = map (map PyStr.str) (pieces fuel max_words l)).
  { intros fuel. induction fuel as [|fuel IH]; intros l; [reflexivity|].
    destruct l as [|w l]; [reflexivity|].
    change (map PyStr.str (w :: l))
      with (PyStr.str w :: map PyStr.str l) at 1.
    cbn [pieces].
    change (PyStr.str w :: map PyStr.str l)
      with (map PyStr.str (w :: l)).
    rewrite firstn_map, skipn_map, IH. reflexivity. }
  rewrite Hmap. rewrite map_map.
  assert (Hsplit : forall g,
             In g (pieces (length (map PyStr.str ws)) max_words ws) ->
             PyStr.split_go []
               (PyStr.chars (PyStr.join " " (map PyStr.str g))) = g).
  { intros g Hg. apply split_go_join.
    rewrite List.Forall_forall in Hall. apply (Hall g Hg). }
  split.
  - fold PyStr.split.
    change (fun s => map PyStr.str (PyStr.split_go [] (PyStr.chars s)))
      with PyStr.split.
    rewrite (resplit_groups _ Hsplit), Hcat. reflexivity.
  - apply Forall_map, List.Forall_forall. intros g Hg.
    rewrite length_map, (Hsplit g Hg).
    rewrite List.Forall_forall in Hall. apply (Hall g Hg).
Qed.

Lemma chunk_text_keeps_the_words_witness :
  flat_map PyStr.split
           (_chunk_text "Returns are accepted within 30 days" 4)
  = ["Returns"; "are"; "accepted"; "within"; "30"; "days"]
  /\ Forall (fun chunk => (1 <= length (PyStr.split chunk) <= 4)%nat)
            (_chunk_text "Returns are accepted within 30 days" 4).
Proof.
  apply (chunk_text_keeps_the_words "Returns are accepted within 30 days" 4).
  lia.
Defined.

(** ** Dataset builder: every example once, and only from eligible
    documents *)

Lemma bucket_items_partition scored :
  bucket_items train scored ++ bucket_items val scored
    ++ bucket_items test scored
  ≡ₚ map row_item scored.
Proof.
  unfold bucket_items. induction scored as [|p scored IH]; [reflexivity|].
  rewrite !filter_cons. cbn [map].
  destruct (row_bucket p) eqn:Hb; repeat case_decide; try congruence;
    cbn [map app]; rewrite <- IH.
  - reflexivity.
  - now rewrite <- Permutation_middle.
  - rewrite app_assoc, <- Permutation_middle. now rewrite <- app_assoc.
Qed.

Lemma move_front_perm (dst src : list Item) :
  fst (move_front dst src) ++ snd (move_front dst src) ≡ₚ dst ++ src.
Proof. unfold move_front. destruct dst, src; reflexivity. Qed.

(** The three slices written hold the items of the scored rows, each
    once. *)
Lemma split_examples_perm scored :
  let s := split_examples scored in
  train_rows s ++ val_rows s ++ test_rows s ≡ₚ map row_item scored.
Proof.
  cbv zeta.
  destruct (split_examples_slices scored) as (Hv & Ht & Htr & _).
  cbv zeta in *. rewrite Hv, Ht, Htr.
  set (v := move_front (bucket_items val scored)
                       (bucket_items train scored)).
  set (t := move_front (bucket_items test scored) (snd v)).
  rewrite <- bucket_items_partition.
  rewrite (Permutation_app_comm (snd t)), <- app_assoc.
  unfold t. rewrite (move_front_perm (bucket_items test scored) (snd v)).
  rewrite (Permutation_app_comm (bucket_items test scored)), app_assoc.
  unfold v. rewrite (move_front_perm (bucket_items val scored)
                                     (bucket_items train scored)).
  rewrite (Permutation_app_comm (bucket_items val scored)), <- app_assoc.
  reflexivity.
Qed.

(** A build that returns: its examples and the files and counts written. *)
Lemma build_dataset_returns st id tenant_id project_id name ids w d w' :
  build_dataset st id tenant_id project_id name ids w = (Return d, w') ->
  exists examples,
    collect_examples w (eligible_docs tenant_id project_id ids w)
      = Return examples
    /\ let s := split_examples (scored_rows examples) in
       read_jsonl w' (ds_train_path d) = train_rows s
       /\ read_jsonl w' (ds_val_path d) = val_rows s
       /\ read_jsonl w' (ds_test_path d) = test_rows s
       /\ read_jsonl w' (ds_gold_path d) = gold_rows s
       /\ read_jsonl w' (ds_review_path d) = review_rows s
       /\ ds_source_document_ids d
          = map doc_id (eligible_docs tenant_id project_id ids w)
       /\ ds_stats_json d
          = StatsBuilt (Z.of_nat (length examples))
              (Z.of_nat (length (train_rows s)))
              (Z.of_nat (length (val_rows s)))
              (Z.of_nat (length (test_rows s)))
              (Z.of_nat (length (gold_rows s)))
              (Z.of_nat (length (review_rows s)))
              (_task_mix examples)
              (int_mean (map _score_example examples)).
Proof.
  unfold build_dataset.
  destruct (eligible_docs tenant_id project_id ids w) as [|d0 docs] eqn:Hdocs;
    [discriminate|].
  destruct (collect_examples w (d0 :: docs)) as [[|e es]|msg] eqn:Hc;
    try discriminate.
  intros H. apply returned_pair in H as [<- <-].
  exists (e :: es). split; [reflexivity|].
  cbv zeta. unfold finished_dataset, new_dataset.
  cbn [ds_train_path ds_val_path ds_test_path ds_gold_path
       ds_review_path ds_source_document_ids ds_stats_json].
  set (s := split_examples (scored_rows (e :: es))).
  set (dir := ArtifactStore.datasets_dir st tenant_id project_id id).
  pose proof (read_five dir w (train_rows s) (val_rows s) (test_rows s)
                (gold_rows s) (review_rows s)) as H5.
  cbv zeta in H5. destruct H5 as (H1 & H2 & H3 & H4 & H5).
  unfold read_jsonl in *. unfold add_dataset. cbn [fs].
  rewrite H1, H2, H3, H4, H5. repeat split; reflexivity.
Qed.

(** X14. In a dataset that was built, every example of the eligible documents
    is in exactly one of the training, validation and test files: together
    the three files hold the scored examples, each once, also after the
    moves that fill an empty validation or test slice. The counts recorded
    in the statistics add up to the total. *)
Theorem slices_keep_every_example_once st id tenant_id project_id name ids
    w d w' :
  build_dataset st id tenant_id project_id name ids w = (Return d, w') ->
  exists examples,
    collect_examples w (eligible_docs tenant_id project_id ids w)
      = Return examples
    /\ read_jsonl w' (ds_train_path d) ++ read_jsonl w' (ds_val_path d)
         ++ read_jsonl w' (ds_test_path d)
       ≡ₚ map row_item (scored_rows examples)
    /\ match ds_stats_json d with
       | StatsBuilt total train_n val_n test_n _ _ _ _ =>
           total = Z.of_nat (length examples)
           /\ train_n + val_n + test_n = total
       | _ => False
       end.
Proof.
  intros H. apply build_dataset_returns in H as (examples & Hc & H).
  cbv zeta in H. destruct H as (Htr & Hv & Ht & _ & _ & _ & Hstats).
  exists examples. split; [exact Hc|].
  pose proof (split_examples_perm (scored_rows examples)) as Hperm.
  cbv zeta in Hperm.
  split; [now rewrite Htr, Hv, Ht|].
  rewrite Hstats. split; [reflexivity|].
  apply Permutation_length in Hperm.
  rewrite !length_app, length_map, scored_rows_length in Hperm. lia.
Qed.

Lemma slices_keep_every_example_once_witness :
  let d := returned (fst two_doc_build) no_dataset in
  let w' := snd two_doc_build in
  exists examples,
    collect_examples two_doc_world
      (eligible_docs "tenant-1" "project-1" None two_doc_world)
      = Return examples
    /\ read_jsonl w' (ds_train_path d) ++ read_jsonl w' (ds_val_path d)
         ++ read_jsonl w' (ds_test_path d)
       ≡ₚ map row_item (scored_rows examples)
    /\ match ds_stats_json d with
       | StatsBuilt total train_n val_n test_n _ _ _ _ =>
           total = Z.of_nat (length examples)
           /\ train_n + val_n + test_n = total
       | _ => False
       end.
Proof.
  cbv zeta.
  apply (slices_keep_every_example_once demo_settings "ds-2" "tenant-1"
           "project-1" "v2" None two_doc_world).
  apply (outcome_returned two_doc_build). vm_compute. reflexivity.
Defined.

Lemma examples_from_document_source doc_id payload ex :
  In ex (_examples_from_document doc_id payload) ->
  src_doc_id (ex_source ex) = doc_id.
Proof.
  unfold _examples_from_document. rewrite in_app_iff, in_flat_map.
  intros [(section & _ & Hex)|[<-|[]]]; [|reflexivity].
  unfold section_examples in Hex. cbv zeta in Hex.
  apply in_flat_map in Hex as ([idx chunk] & _ & Hex).
  unfold chunk_examples in Hex. cbv zeta in Hex. cbn [fst snd] in Hex.
  destruct Hex as [<-|[<-|[<-|[]]]]; reflexivity.
Qed.

Lemma collect_examples_sources w docs examples ex :
  collect_examples w docs = Return examples ->
  In ex examples ->
  exists doc, In doc docs /\ src_doc_id (ex_source ex) = doc_id doc.
Proof.
  revert examples. induction docs as [|doc rest IH]; intros examples.
  - cbn. intros [= <-] [].
  - cbn [collect_examples].
    destruct (read_payload w (doc_normalized_text_path doc)) as [p|e];
      [|discriminate].
    destruct (collect_examples w rest) as [more|e]; [|discriminate].
    intros H. apply return_inj in H. subst examples.
    rewrite in_app_iff. intros [Hex|Hex].
    + exists doc. split; [now left|].
      exact (examples_from_document_source _ _ _ Hex).
    + destruct (IH more eq_refl Hex) as (doc' & Hin & Hsrc).
      exists doc'. split; [now right|exact Hsrc].
Qed.

Lemma scored_rows_fst examples p :
  In p (scored_rows examples) -> In (fst p) examples.
Proof.
  unfold scored_rows. destruct p as [ex score]. intros H.
  apply in_combine_l in H. exact H.
Qed.

(** The rows of the five files are items of the scored rows. *)
Lemma split_examples_rows scored item :
  let s := split_examples scored in
  In item (train_rows s ++ val_rows s ++ test_rows s ++ gold_rows s
           ++ review_rows s) ->
  In item (map row_item scored).
Proof.
  cbv zeta. pose proof (split_examples_perm scored) as Hperm.
  cbv zeta in Hperm.
  assert (Hslices : forall x,
             In x (train_rows (split_examples scored)
                   ++ val_rows (split_examples scored)
                   ++ test_rows (split_examples scored)) ->
             In x (map row_item scored)).
  { intros x Hx. apply list_elem_of_In. rewrite <- Hperm.
    apply list_elem_of_In, Hx. }
  rewrite !app_assoc, in_app_iff, in_app_iff, <- !app_assoc.
  intros [[Hitem|Hgold]|Hreview]; [now apply Hslices| |].
  - destruct (split_examples_slices scored) as (Hv & Ht & Htr & Hg).
    cbv zeta in *. rewrite Hg in Hgold.
    destruct (hashed_gold scored) eqn:Hh.
    + apply Hslices. apply in_firstn in Hgold.
      unfold gold_candidates in Hgold.
      apply list_elem_of_In, list_elem_of_filter in Hgold as [_ Hgold].
      apply list_elem_of_In in Hgold. rewrite <- Hv, <- Ht, <- Htr in Hgold.
      rewrite !in_app_iff in *. tauto.
    + rewrite <- Hh in Hgold. unfold hashed_gold in Hgold.
      apply in_map_iff in Hgold as (p & <- & Hp).
      apply in_map. apply list_elem_of_In, list_elem_of_filter in Hp as [_ Hp].
      apply list_elem_of_In, Hp.
  - unfold split_examples in Hreview.
    rewrite fill_gold_review, fill_test_review, fill_val_review in Hreview.
    destruct (loop_rows scored) as (_ & _ & _ & _ & Hr). cbv zeta in Hr.
    rewrite Hr in Hreview. unfold flagged in Hreview.
    apply in_map_iff in Hreview as (p & <- & Hp).
    apply in_map. apply list_elem_of_In, list_elem_of_filter in Hp as [_ Hp].
    apply list_elem_of_In, Hp.
Qed.

(** X15. Every row of the five files of a dataset that was built names as its
    source a document of the tenant and project of the build, READY or
    NEEDS_REVIEW, that is listed among the source documents of the
    dataset. No row comes from another tenant, another project, or a
    rejected or unredacted document. *)
Theorem dataset_rows_come_from_eligible_documents st id tenant_id
    project_id name ids w d w' row :
  build_dataset st id tenant_id project_id name ids w = (Return d, w') ->
  In row (read_jsonl w' (ds_train_path d) ++ read_jsonl w' (ds_val_path d)
          ++ read_jsonl w' (ds_test_path d)
          ++ read_jsonl w' (ds_gold_path d)
          ++ read_jsonl w' (ds_review_path d)) ->
  exists doc,
    In doc (documents (db w))
    /\ src_doc_id (item_source row) = doc_id doc
    /\ doc_tenant_id doc = tenant_id
    /\ doc_project_id doc = project_id
    /\ (doc_status doc = DocumentStatus.READY
        \/ doc_status doc = DocumentStatus.NEEDS_REVIEW)
    /\ In (doc_id doc) (ds_source_document_ids d).
Proof.
  intros H. apply build_dataset_returns in H as (examples & Hc & H).
  cbv zeta in H. destruct H as (-> & -> & -> & -> & -> & -> & _).
  intros Hrow.
  apply (split_examples_rows (scored_rows examples)) in Hrow.
  apply in_map_iff in Hrow as (p & <- & Hp).
  apply scored_rows_fst in Hp.
  destruct (collect_examples_sources _ _ _ _ Hc Hp) as (doc & Hdoc & Hsrc).
  exists doc. unfold row_item, item_of. cbn [item_source].
  assert (Hel : doc ∈ eligible_docs tenant_id project_id ids w)
    by (apply list_elem_of_In, Hdoc).
  unfold eligible_docs in Hel. apply list_elem_of_filter in Hel as [Hel Hin].
  unfold eligible in Hel.
  apply andb_prop in Hel as [Hel _]. apply andb_prop in Hel as [Hel Hst].
  apply andb_prop in Hel as [Ht Hp']. apply String.eqb_eq in Ht, Hp'.
  split; [apply list_elem_of_In, Hin|]. split; [exact Hsrc|].
  split; [exact Ht|]. split; [exact Hp'|]. split.
  - apply orb_prop in Hst as [Hs|Hs]; apply bool_decide_eq_true in Hs; auto.
  - apply in_map, Hdoc.
Qed.

Lemma dataset_rows_come_from_eligible_documents_witness :
  let d := returned (fst two_doc_build) no_dataset in
  exists doc,
    In doc (documents (db two_doc_world))
    /\ src_doc_id (item_source (hd no_item (read_jsonl (snd two_doc_build)
                                              (ds_val_path d))))
       = doc_id doc
    /\ doc_tenant_id doc = "tenant-1"
    /\ doc_project_id doc = "project-1"
    /\ (doc_status doc = DocumentStatus.READY
        \/ doc_status doc = DocumentStatus.NEEDS_REVIEW)
    /\ In (doc_id doc) (ds_source_document_ids d).
Proof.
  cbv zeta.
  apply (dataset_rows_come_from_eligible_documents demo_settings "ds-2"
           "tenant-1" "project-1" "v2" None two_doc_world
           (returned (fst two_doc_build) no_dataset) (snd two_doc_build)).
  - apply (outcome_returned two_doc_build). vm_compute. reflexivity.
  - apply in_or_app. right. apply in_or_app. left. apply hd_in.
    vm_compute. discriminate.
Defined.

(** ** Training orchestrator: cancelling, retrying and creating runs *)

Lemma not_terminal_allows_cancel (state : RunState.t) :
  bool_decide (state ∈ [RunState.READY; RunState.FAILED; RunState.CANCELLED])
  = false ->
  allowed state RunState.CANCELLED = true.
Proof. destruct state; intros H; try reflexivity; discriminate H. Qed.

(** X16. [cancel_run] never raises. A run that is READY, FAILED or CANCELLED is
    returned as it is and nothing is written; from every other state the run
    becomes CANCELLED and exactly one event, from the old state to
    [cancelled], and one audit entry are recorded. *)
Theorem cancel_run_always_returns (user_id : option string) (s : Session) :
  exists s',
    cancel_run user_id s = (Return (run s'), s')
    /\ run_id (run s') = run_id (run s)
    /\ (if bool_decide (run_state (run s)
                        ∈ [RunState.READY; RunState.FAILED;
                           RunState.CANCELLED])
        then s' = s
        else run_state (run s') = RunState.CANCELLED
             /\ run_events (db (world s'))
                = run_events (db (world s))
                  ++ [{| ev_run_id := run_id (run s);
                         ev_from_state :=
                           Some (RunState.value (run_state (run s)));
                         ev_to_state := "cancelled";
                         ev_message := Some "Run cancelled by user";
                         ev_error := None |}]
             /\ map au_action (audit_events (db (world s')))
                = map au_action (audit_events (db (world s)))
                  ++ ["training_run_cancelled"]).
Proof.
  destruct s as [r w]. unfold cancel_run. cbn [run world].
  destruct (bool_decide (run_state r ∈ _)) eqn:Hterm.
  - exists {| run := r; world := w |}. unfold current_run. cbn [run].
    split; [reflexivity|]. split; reflexivity.
  - apply not_terminal_allows_cancel in Hterm.
    unfold _transition, _record_run_event, log_audit_event_by, bind, assign,
      commit, on_world, current_run.
    cbn [run world fst snd]. rewrite Hterm. cbn [run world fst snd].
    match goal with |- exists s', (_, ?b) = _ /\ _ => exists b end.
    split; [reflexivity|]. cbn. rewrite map_app. auto.
Qed.

(** X17. [retry_run] puts a FAILED or CANCELLED run back in the queue: the run is
    QUEUED, its progress is zero and its error message is cleared, and one
    event to [queued] is recorded. For a run in any other state it raises
    and changes nothing. *)
Theorem retry_run_requeues_or_refuses (user_id : option string)
    (s : Session) :
  if bool_decide (run_state (run s)
                  ∈ [RunState.FAILED; RunState.CANCELLED])
  then exists s',
      retry_run user_id s = (Return (run s'), s')
      /\ run_state (run s') = RunState.QUEUED
      /\ run_progress (run s') = 0.0%float
      /\ run_error_message (run s') = None
      /\ run_id (run s') = run_id (run s)
      /\ run_events (db (world s'))
         = run_events (db (world s))
           ++ [{| ev_run_id := run_id (run s);
                  ev_from_state := Some (RunState.value (run_state (run s)));
                  ev_to_state := "queued";
                  ev_message := Some "Retry queued";
                  ev_error := None |}]
  else retry_run user_id s
       = (Raise "Only failed or cancelled runs can be retried", s).
Proof.
  destruct s as [r w]. unfold retry_run. cbn [run world].
  destruct (bool_decide (run_state r ∈ _)) eqn:Hstate; cbn [negb];
    [|reflexivity].
  assert (Hal : allowed (run_state r) RunState.QUEUED = true).
  { destruct (run_state r); try reflexivity; discriminate Hstate. }
  unfold _transition, _record_run_event, log_audit_event_by, bind, assign,
    commit, on_world, current_run.
  cbn [run world fst snd]. rewrite Hal. cbn [run world fst snd].
  match goal with |- exists s', (_, ?b) = _ /\ _ => exists b end.
  split; [reflexivity|]. cbn. auto 10.
Qed.

(** *** The end state of a processed run *)

Lemma bind_returns {A B} (m : M A) (k : A -> M B) s b s' :
  bind m k s = (Return b, s') ->
  exists a s1, m s = (Return a, s1) /\ k a s1 = (Return b, s').
Proof.
  unfold bind. destruct (m s) as [[a|e] s1]; [|discriminate].
  intros H. now exists a, s1.
Qed.

Lemma assign_returns f s (a : unit) s' :
  assign f s = (Return a, s') -> run s' = f (run s).
Proof. unfold assign. now intros [= _ <-]. Qed.

Lemma commit_returns s (a : unit) s' :
  commit s = (Return a, s') -> run s' = run s.
Proof. unfold commit. now intros [= _ <-]. Qed.

Lemma on_world_returns f s (a : unit) s' :
  on_world f s = (Return a, s') -> run s' = run s.
Proof. unfold on_world. now intros [= _ <-]. Qed.

Lemma external_returns {A}
    (f : gmap string FileContent -> result A * gmap string FileContent)
    s (a : A) s' :
  external f s = (Return a, s') -> run s' = run s.
Proof.
  unfold external. destruct (f _) as [r files]. now intros [= _ <-].
Qed.

Lemma _transition_returns target message s (a : unit) s' :
  _transition target message s = (Return a, s') ->
  run s' = set_run_state_message (Some message)
             (set_run_state target (run s)).
Proof.
  unfold _transition. destruct (allowed _ _); [|discriminate].
  unfold _record_run_event, bind, assign, on_world, commit.
  cbn [run world]. now intros [= _ <-].
Qed.

Lemma log_audit_event_returns action s (a : unit) s' :
  log_audit_event action s = (Return a, s') -> run s' = run s.
Proof.
  unfold log_audit_event, bind, on_world, commit. cbn [run world].
  now intros [= _ <-].
Qed.

Lemma evaluate_returns fuzz_ratio sequence_ratio dataset report_id now
    elapsed s report s' :
  evaluate fuzz_ratio sequence_ratio dataset report_id now elapsed s
  = (Return report, s') -> run s' = run s /\ rep_id report = report_id.
Proof.
  unfold evaluate, evaluate_run. destruct (evaluation_rows _ _).
  - discriminate.
  - cbv zeta. now intros [= <- <-].
Qed.

Lemma _run_preflight_returns st dataset s (a : unit) s' :
  _run_preflight st dataset s = (Return a, s') ->
  run s' = set_run_vram_estimate_gb
             (fst (estimate_vram st (run_config_json (run s)))) (run s).
Proof.
  unfold _run_preflight. destruct (negb _); [discriminate|].
  destruct (List.find _ _); [|discriminate].
  destruct (estimate_vram st _) as [estimated_gb will_fit].
  unfold bind, assign. cbn [run world fst].
  destruct will_fit; [|discriminate]. unfold ret. now intros [= _ <-].
Qed.

(** One statement of a sequence that returned: its effect on the run
    object is kept, the rest of the sequence goes on. *)
Ltac run_step H :=
  let a := fresh "a" in
  let s1 := fresh "s" in
  let Hm := fresh "Hm" in
  apply bind_returns in H as (a & s1 & Hm & H);
  first
    [ apply assign_returns in Hm
    | apply commit_returns in Hm
    | apply on_world_returns in Hm
    | apply external_returns in Hm
    | apply _transition_returns in Hm
    | apply evaluate_returns in Hm as [Hm ?]
    | apply _run_preflight_returns in Hm
    | idtac ].

(** When the statements between [try] and [except] all return, the run is
    READY with progress 1, and it carries its checkpoint, adapter, report
    and package. *)
Lemma drive_returns_ready st fuzz_ratio sequence_ratio format_command
    subprocess_run packager_package dataset already_in_preflight report_id
    now elapsed s s' :
  drive st fuzz_ratio sequence_ratio format_command subprocess_run
        packager_package dataset already_in_preflight report_id now elapsed s
  = (Return tt, s') ->
  run_state (run s') = RunState.READY
  /\ run_progress (run s') = 1.0%float
  /\ run_id (run s') = run_id (run s)
  /\ run_error_message (run s') = run_error_message (run s)
  /\ run_eval_report_id (run s') = Some report_id
  /\ is_Some (run_package_path (run s'))
  /\ is_Some (run_adapter_path (run s')).
Proof.
  unfold drive. cbv zeta. intros H.
  apply bind_returns in H as (a0 & s0 & Hm0 & H).
  assert (Hid0 : run_id (run s0) = run_id (run s)
                 /\ run_error_message (run s0) = run_error_message (run s)).
  { destruct already_in_preflight.
    - unfold ret in Hm0. now injection Hm0 as _ <-.
    - apply _transition_returns in Hm0. now rewrite Hm0. }
  do 26 run_step H.
  apply log_audit_event_returns in H.
  repeat match goal with
         | E : run _ = _ |- _ => rewrite E; clear E
         end.
  cbn. destruct Hid0 as [-> ->].
  repeat split; eauto. congruence.
Qed.

(** *** The run object keeps its identity *)

Lemma bind_keeps_run_id {A B} (m : M A) (k : A -> M B) :
  keeps_run_id m -> (forall a, keeps_run_id (k a)) -> keeps_run_id (bind m k).
Proof.
  intros Hm Hk s r s'. unfold bind.
  destruct (m s) as [[a|e] s1] eqn:E.
  - intros H. apply Hk in H. apply Hm in E. congruence.
  - intros [= <- <-]. now apply Hm in E.
Qed.

Lemma ret_keeps_run_id {A} (a : A) : keeps_run_id (ret a).
Proof. intros s r s'. unfold ret. now intros [= _ <-]. Qed.

Lemma raise_keeps_run_id {A} msg : keeps_run_id (@raise A msg).
Proof. intros s r s'. unfold raise. now intros [= _ <-]. Qed.

Lemma commit_keeps_run_id : keeps_run_id commit.
Proof. intros s r s'. unfold commit. now intros [= _ <-]. Qed.

Lemma on_world_keeps_run_id f : keeps_run_id (on_world f).
Proof. intros s r s'. unfold on_world. now intros [= _ <-]. Qed.

Lemma assign_keeps_run_id f :
  (forall r, run_id (f r) = run_id r) -> keeps_run_id (assign f).
Proof.
  intros Hf s r s'. unfold assign. intros [= _ <-]. cbn [run]. apply Hf.
Qed.

Lemma external_keeps_run_id {A}
    (f : gmap string FileContent -> result A * gmap string FileContent) :
  keeps_run_id (external f).
Proof.
  intros s r s'. unfold external. destruct (f _). now intros [= _ <-].
Qed.

Lemma _transition_keeps_run_id target message :
  keeps_run_id (_transition target message).
Proof.
  intros s r s'. unfold _transition. destruct (allowed _ _).
  - unfold _record_run_event, bind, assign, on_world, commit.
    cbn [run world]. now intros [= _ <-].
  - unfold raise. now intros [= _ <-].
Qed.

Lemma log_audit_event_keeps_run_id action :
  keeps_run_id (log_audit_event action).
Proof.
  intros s r s'. unfold log_audit_event, bind, on_world, commit.
  cbn [run world]. now intros [= _ <-].
Qed.

Lemma evaluate_keeps_run_id fuzz_ratio sequence_ratio dataset report_id now
    elapsed :
  keeps_run_id (evaluate fuzz_ratio sequence_ratio dataset report_id now
                         elapsed).
Proof.
  intros s r s'. unfold evaluate. destruct (evaluate_run _ _ _ _ _ _ _ _).
  now intros [= _ <-].
Qed.

Lemma _run_preflight_keeps_run_id st dataset :
  keeps_run_id (_run_preflight st dataset).
Proof.
  intros s r s'. unfold _run_preflight.
  destruct (negb _); [apply raise_keeps_run_id|].
  destruct (List.find _ _); [|apply raise_keeps_run_id].
  destruct (estimate_vram st _) as [estimated_gb will_fit].
  apply bind_keeps_run_id; [now apply assign_keeps_run_id|].
  intros _. destruct will_fit;
    [apply ret_keeps_run_id|apply raise_keeps_run_id].
Qed.

Lemma drive_keeps_run_id st fuzz_ratio sequence_ratio format_command
    subprocess_run packager_package dataset already_in_preflight report_id
    now elapsed :
  keeps_run_id
    (drive st fuzz_ratio sequence_ratio format_command subprocess_run
           packager_package dataset already_in_preflight report_id now
           elapsed).
Proof.
  intros s res s'. unfold drive. cbv zeta.
  match goal with
  | |- ?m s = _ -> _ =>
      cut (keeps_run_id m); [intros Hk H; exact (Hk _ _ _ H)|]
  end.
  repeat match goal with
         | |- keeps_run_id (bind _ _) => apply bind_keeps_run_id; [|intros ?]
         end;
    try (apply assign_keeps_run_id; reflexivity);
    auto using commit_keeps_run_id, on_world_keeps_run_id,
      external_keeps_run_id, _transition_keeps_run_id,
      log_audit_event_keeps_run_id, evaluate_keeps_run_id,
      _run_preflight_keeps_run_id.
  destruct already_in_preflight;
    [apply ret_keeps_run_id|apply _transition_keeps_run_id].
Qed.

(** [_process_run] returns the run object it was given, READY or FAILED. *)
Lemma process_run_cases
    st fuzz_ratio sequence_ratio format_command subprocess_run
    packager_package already_in_preflight report_id now elapsed s :
  exists s',
    _process_run st fuzz_ratio sequence_ratio format_command subprocess_run
                 packager_package already_in_preflight report_id now elapsed s
    = (Return (run s'), s')
    /\ run_id (run s') = run_id (run s)
    /\ (run_state (run s') = RunState.READY
        \/ run_state (run s') = RunState.FAILED).
Proof.
  unfold _process_run.
  destruct (get_dataset (world s) (run_dataset_version_id (run s)))
    as [dataset|].
  - unfold bind, try_except, current_run.
    destruct (drive _ _ _ _ _ _ dataset _ _ _ _ s) as [[[]|msg] s1] eqn:Hd.
    + exists s1. split; [reflexivity|].
      apply drive_returns_ready in Hd as (Hst & _ & Hid & _).
      auto.
    + destruct (_fail_returns msg s1) as (s' & Hf & Hst & _ & _ & Hid & _).
      rewrite Hf. exists s'. split; [reflexivity|].
      split; [|now right].
      rewrite Hid. clear - Hd. revert Hd. apply drive_keeps_run_id.
  - unfold bind, current_run.
    destruct (_fail_returns "Dataset missing" s)
      as (s' & Hf & Hst & _ & _ & Hid & _).
    rewrite Hf. exists s'. auto.
Qed.

(** X18. [_process_run] never raises and never leaves the run in an
    intermediate state: it returns the run object, which is either READY,
    complete with progress 1, report and package, or FAILED with an error
    message. This holds from every starting state, whatever the external
    trainer, evaluation and packager do. *)
Theorem process_run_ends_ready_or_failed
    st fuzz_ratio sequence_ratio format_command subprocess_run
    packager_package already_in_preflight report_id now elapsed s :
  exists s',
    _process_run st fuzz_ratio sequence_ratio format_command subprocess_run
                 packager_package already_in_preflight report_id now elapsed s
    = (Return (run s'), s')
    /\ run_id (run s') = run_id (run s)
    /\ (run_state (run s') = RunState.READY
        /\ run_progress (run s') = 1.0%float
        /\ run_eval_report_id (run s') = Some report_id
        /\ is_Some (run_package_path (run s'))
        /\ run_error_message (run s') = run_error_message (run s)
        \/ run_state (run s') = RunState.FAILED
           /\ is_Some (run_error_message (run s'))
           /\ run_state_message (run s') = Some "Run failed").
Proof.
  unfold _process_run.
  destruct (get_dataset (world s) (run_dataset_version_id (run s)))
    as [dataset|].
  - unfold bind, try_except, current_run.
    destruct (drive _ _ _ _ _ _ dataset _ _ _ _ s) as [[[]|msg] s1] eqn:Hd.
    + exists s1. split; [reflexivity|].
      apply drive_returns_ready in Hd
        as (Hst & Hpr & Hid & Herr & Hrep & Hpk & _).
      split; [exact Hid|]. left. auto.
    + destruct (_fail_returns msg s1) as (s' & Hf & Hst & Herr & Hmsg & Hid & _).
      rewrite Hf. exists s'. split; [reflexivity|].
      split.
      * rewrite Hid. clear - Hd. revert Hd. apply drive_keeps_run_id.
      * right. rewrite Herr. eauto.
  - unfold bind, current_run.
    destruct (_fail_returns "Dataset missing" s)
      as (s' & Hf & Hst & Herr & Hmsg & Hid & _).
    rewrite Hf. exists s'. split; [reflexivity|]. split; [exact Hid|].
    right. rewrite Herr. eauto.
Qed.

(** *** Creating a run *)

Lemma put_run_fresh (r : TrainingRun) (runs : list TrainingRun) :
  (forall r0, In r0 runs -> run_id r0 <> run_id r) ->
  map (fun r' => if String.eqb (run_id r') (run_id r) then r else r')
      (runs ++ [r])
  = runs ++ [r].
Proof.
  intros Hfresh. rewrite map_app. cbn [map]. rewrite String.eqb_refl.
  f_equal. induction runs as [|x runs IH]; [reflexivity|].
  cbn [map]. rewrite IH by (intros r0 H; apply Hfresh; now right).
  assert (Hx : run_id x <> run_id r) by (apply Hfresh; now left).
  apply String.eqb_neq in Hx. now rewrite Hx.
Qed.


(** A run created for the sample dataset. *)
Example sample_run_is_created :
  run_state (returned (fst demo_create) (demo_run "" RunState.FAILED 0))
  = RunState.QUEUED
  /\ map run_id (training_runs (db (snd demo_create))) = ["run-9"].
Proof. vm_compute. split; reflexivity. Qed.


(** *** The worker *)

Lemma filter_empty_none {A} (P : A -> Prop) `{forall x, Decision (P x)}
    (l : list A) :
  filter P l = [] -> forall x, In x l -> ~ P x.
Proof.
  intros Hnil x Hin HP.
  assert (Hx : x ∈ filter P l).
  { apply list_elem_of_filter. split; [exact HP|].
    apply list_elem_of_In, Hin. }
  rewrite Hnil in Hx. inversion Hx.
Qed.

(** X20. With unique, non-empty run ids, [process_next_queued_run] returns
    [None] and changes nothing exactly when no run is QUEUED; otherwise it
    takes a QUEUED run that no other QUEUED run is older than and returns it
    READY or FAILED. *)
Theorem worker_processes_oldest_queued_run
    st fuzz_ratio sequence_ratio format_command subprocess_run
    packager_package report_id now elapsed w :
  NoDup (map run_id (training_runs (db w))) ->
  (forall r, In r (training_runs (db w)) -> run_id r <> "") ->
  match process_next_queued_run st fuzz_ratio sequence_ratio format_command
          subprocess_run packager_package report_id now elapsed w with
  | (None, w') =>
      w' = w
      /\ forall r, In r (training_runs (db w)) ->
                   run_state r <> RunState.QUEUED
  | (Some outcome, w') =>
      exists r0 final,
        In r0 (training_runs (db w))
        /\ run_state r0 = RunState.QUEUED
        /\ (forall r', In r' (training_runs (db w)) ->
                       run_state r' = RunState.QUEUED ->
                       run_created_at r0 <= run_created_at r')
        /\ outcome = Return final
        /\ run_id final = run_id r0
        /\ (run_state final = RunState.READY
            \/ run_state final = RunState.FAILED)
  end.
Proof.
  intros Hnd Hids. unfold process_next_queued_run, _claim_next_queued_run.
  cbn [claim_step].
  destruct (select_candidate w) as [c|] eqn:Hsel.
  - destruct (select_candidate_oldest w c Hsel)
      as (r0 & Hin & Hid & Hq & Hold).
    assert (Htruthy : PyStr.truthy c = true).
    { specialize (Hids r0 Hin). rewrite Hid in Hids.
      destruct c; [congruence|reflexivity]. }
    rewrite Htruthy.
    rewrite (update_wins w c r0 Hnd Hin Hid Hq).
    rewrite (record_returns_run w c r0 Hnd Hin Hid Hq).
    set (s := {| run := picked r0; world := _ |}).
    destruct (process_run_cases st fuzz_ratio sequence_ratio format_command
                subprocess_run packager_package true report_id now elapsed s)
      as (s' & Hp & Hsid & Hst).
    rewrite Hp. exists r0, (run s').
    split; [exact Hin|]. split; [exact Hq|]. split; [exact Hold|].
    split; [reflexivity|]. split; [exact Hsid|exact Hst].
  - cbn [claim_step]. split; [reflexivity|].
    unfold select_candidate in Hsel.
    pose proof (fold_oldest_spec
                  (filter (fun r => run_state r = RunState.QUEUED)
                          (training_runs (db w))) None) as Hs.
    destruct (fold_left oldest _ None) as [r|]; [discriminate|].
    destruct Hs as [_ Hnil]. apply (filter_empty_none _ _ Hnil).
Qed.

(** A round of the worker that took a run is the pair of that run and the
    world it left. *)
Lemma round_returned {W} (r : option (result TrainingRun) * W)
    (otherwise : TrainingRun) :
  fst r = Some (Return (returned (default (Raise "") (fst r)) otherwise)) ->
  r = (Some (Return (returned (default (Raise "") (fst r)) otherwise)),
       snd r).
Proof. destruct r as [v w]. cbn [fst snd]. now intros <-. Qed.

Lemma worker_processes_oldest_queued_run_witness :
  let round :=
    process_next_queued_run demo_settings demo_ratio demo_sequence_ratio
      demo_format_command failing_subprocess demo_packager "report-1" 30
      0.5%float queue_world in
  let final :=
    returned (default (Raise "") (fst round))
             (demo_run "" RunState.FAILED 0) in
  fst round = Some (Return final)
  /\ exists r0,
       In r0 (training_runs (db queue_world))
       /\ run_state r0 = RunState.QUEUED
       /\ run_id final = run_id r0
       /\ (run_state final = RunState.READY
           \/ run_state final = RunState.FAILED).
Proof.
  cbv zeta.
  assert (Hnd : NoDup (map run_id (training_runs (db queue_world)))).
  { apply (bool_decide_unpack _). vm_compute. exact I. }
  assert (Hids : forall r, In r (training_runs (db queue_world)) ->
                           run_id r <> "").
  { intros r Hin. vm_compute in Hin.
    destruct Hin as [<-|[<-|[]]]; discriminate. }
  pose proof (worker_processes_oldest_queued_run demo_settings demo_ratio
                demo_sequence_ratio demo_format_command failing_subprocess
                demo_packager "report-1" 30 0.5%float queue_world Hnd Hids)
    as H.
  rewrite (round_returned _ (demo_run "" RunState.FAILED 0)) in H
    by (vm_compute; reflexivity).
  split; [vm_compute; reflexivity|].
  destruct H as (r0 & final & Hin & Hq & _ & Hret & Hid & Hst).
  apply return_inj in Hret. rewrite <- Hret in Hid, Hst.
  exists r0. split; [exact Hin|]. split; [exact Hq|].
  split; [exact Hid|exact Hst].
Defined.

(** The round on the sample queue: the older run is taken and finished. *)
Example worker_round_on_sample_queue :
  let round :=
    process_next_queued_run demo_settings demo_ratio demo_sequence_ratio
      demo_format_command failing_subprocess demo_packager "report-1" 30
      0.5%float queue_world in
  option_map (fun outcome =>
                let r := returned outcome (demo_run "" RunState.FAILED 0) in
                (run_id r, run_state r))
             (fst round)
  = Some ("run-b", RunState.READY)
  /\ map run_state (training_runs (db (snd round)))
     = [RunState.QUEUED; RunState.READY].
Proof. vm_compute. split; reflexivity. Qed.

(** ** Evaluation: refusal rows and the stored report *)

Lemma tally_without_refusal_rows fuzz_ratio sequence_ratio rows : forall t,
  Forall (fun row => item_expected_refusal row = false) rows ->
  refusal_tp (fold_left (score_row fuzz_ratio sequence_ratio) rows t)
  = refusal_tp t.
Proof.
  induction rows as [|row rows IH]; intros t Hrows; [reflexivity|].
  apply Forall_cons in Hrows as [Hrow Hrows].
  cbn [fold_left]. rewrite IH by exact Hrows.
  unfold score_row. cbn [refusal_tp]. now rewrite Hrow.
Qed.

Lemma truediv_zero (b : Z) : 0 < b -> PyFloat.truediv 0 b = 0%float.
Proof.
  intros Hb. unfold PyFloat.truediv, PyFloat.truediv_pos.
  cbn [Z.abs Z.eqb Z.leb Z.compare].
  apply Z.ltb_lt in Hb. now rewrite Hb.
Qed.

(** X21. An evaluation whose verdict is true evaluated at least one row that
    expects a refusal: without such a row the refusal recall is 0, below
    the 0.8 the gate asks for, whatever the other rates are. *)
Theorem gate_needs_a_refusal_row
    fuzz_ratio sequence_ratio run dataset report_id now elapsed w report w' :
  evaluate_run fuzz_ratio sequence_ratio run dataset report_id now elapsed w
  = (Return report, w') ->
  rep_go_no_go report = true ->
  exists row,
    In row (evaluation_rows w dataset) /\ item_expected_refusal row = true.
Proof.
  unfold evaluate_run.
  destruct (evaluation_rows w dataset) as [|row0 rows] eqn:Hrows;
    [discriminate|].
  cbv zeta. intros H. apply returned_pair in H as [<- _].
  cbn [rep_go_no_go]. intros Hgo.
  destruct (existsb item_expected_refusal (row0 :: rows)) eqn:Hex.
  - apply existsb_exists in Hex as (row & Hin & Hrow). now exists row.
  - exfalso.
    assert (Hall : Forall (fun row => item_expected_refusal row = false)
                          (row0 :: rows)).
    { apply List.Forall_forall. intros row Hin.
      destruct (item_expected_refusal row) eqn:Hrow; [|reflexivity].
      rewrite <- Hex. symmetry. apply existsb_exists. now exists row. }
    assert (Hrecall : refusal_recall fuzz_ratio sequence_ratio (row0 :: rows)
                      = 0%float).
    { unfold refusal_recall, tally. cbv zeta.
      rewrite (tally_without_refusal_rows _ _ _ _ Hall).
      cbn [refusal_tp empty_tally]. apply truediv_zero. lia. }
    unfold go_no_go in Hgo. rewrite Hrecall in Hgo.
    apply andb_prop in Hgo as [Hgo _]. apply andb_prop in Hgo as [_ Hgo].
    vm_compute in Hgo. discriminate Hgo.
Qed.

Lemma gate_needs_a_refusal_row_witness :
  exists row,
    In row (evaluation_rows (gate_world 1 9) gate_dataset)
    /\ item_expected_refusal row = true.
Proof.
  apply (gate_needs_a_refusal_row demo_ratio demo_sequence_ratio
           (demo_run "run-1" RunState.EVALUATING 10) gate_dataset "report-1"
           70 0.5%float (gate_world 1 9)
           (returned (fst (gate_report 1 9)) no_report)
           (snd (gate_report 1 9))).
  - vm_compute. reflexivity.
  - vm_compute. reflexivity.
Defined.

(** A gold file of plain rows only: every answer is exact, and the verdict
    is false. *)
Example gate_rejects_gold_without_refusals :
  let report := returned (fst (gate_report 0 10)) no_report in
  m_exact_match (rep_metrics_json report) = 1.0%float
  /\ m_unsupported_claim_rate (rep_metrics_json report) = 0.0%float
  /\ m_refusal_recall (rep_metrics_json report) = 0.0%float
  /\ rep_go_no_go report = false.
Proof. vm_compute. repeat split; reflexivity. Qed.

(** X22. [evaluate_run] raises only for want of rows, and then writes nothing.
    Otherwise it appends the report it returns to the report table and
    writes the report file the row points to, holding the metrics and the
    failure examples of the row; at most 20 failure examples are kept, and
    the metrics count the rows evaluated. *)
Theorem evaluation_report_is_stored
    fuzz_ratio sequence_ratio run dataset report_id now elapsed w :
  match evaluate_run fuzz_ratio sequence_ratio run dataset report_id now
                     elapsed w with
  | (Raise e, w') =>
      w' = w /\ e = "No evaluation rows available"
      /\ read_jsonl w (ds_gold_path dataset) = []
      /\ read_jsonl w (ds_test_path dataset) = []
  | (Return report, w') =>
      evaluation_reports (db w') = evaluation_reports (db w) ++ [report]
      /\ fs w' !! rep_report_path report
         = Some (FReport (rep_metrics_json report)
                         (rep_failure_modes report))
      /\ (length (rep_failure_modes report) <= 20)%nat
      /\ m_gold_examples (rep_metrics_json report)
         = Z.of_nat (length (evaluation_rows w dataset))
      /\ evaluation_rows w dataset <> []
      /\ rep_id report = report_id
      /\ rep_training_run_id report = run_id run
      /\ rep_tenant_id report = run_tenant_id run
      /\ rep_project_id report = run_project_id run
  end.
Proof.
  unfold evaluate_run.
  destruct (evaluation_rows w dataset) as [|row0 rows] eqn:Hrows.
  - split; [reflexivity|]. split; [reflexivity|].
    unfold evaluation_rows in Hrows.
    destruct (read_jsonl w (ds_gold_path dataset)); [auto|discriminate].
  - cbv zeta.
    cbn [db fs add_report evaluation_reports rep_report_path
         rep_metrics_json rep_failure_modes m_gold_examples rep_id
         rep_training_run_id rep_tenant_id rep_project_id].
    rewrite lookup_insert_eq.
    split; [reflexivity|]. split; [reflexivity|].
    split; [apply firstn_length_le|].
    split; [unfold row_count; cbn [length]; lia|].
    split; [discriminate|]. auto.
Qed.

(** ** Deployment: the guard and the active package *)

(** X23. [create_deployment] returns only for a run of the same tenant and
    project that is READY and packaged, and the new package carries the
    package path of that run. When it raises, whether the run is missing,
    belongs to another tenant or project, or is not READY and packaged,
    nothing is written: no package is archived. *)
Theorem deployment_needs_ready_run deployment_id now tenant_id project_id
    training_run_id version endpoint_url user_id w :
  match create_deployment deployment_id now tenant_id project_id
          training_run_id version endpoint_url user_id w with
  | (Raise _, w') => w' = w
  | (Return d, w') =>
      exists r,
        get_run w training_run_id = Some r
        /\ run_tenant_id r = tenant_id /\ run_project_id r = project_id
        /\ run_state r = RunState.READY
        /\ run_package_path r = Some (dep_package_path d)
        /\ dep_package_path d <> ""
        /\ dep_training_run_id d = training_run_id
        /\ map au_action (audit_events (db w'))
           = map au_action (audit_events (db w)) ++ ["deployment_activated"]
  end.
Proof.
  unfold create_deployment.
  destruct (get_run w training_run_id) as [r|]; [|reflexivity].
  destruct (String.eqb (run_tenant_id r) tenant_id) eqn:Ht;
    cbn [negb orb]; [|reflexivity].
  destruct (String.eqb (run_project_id r) project_id) eqn:Hp;
    cbn [negb]; [|reflexivity].
  destruct (run_state r) eqn:Hst; try reflexivity;
    try (destruct (run_package_path r); reflexivity).
  destruct (run_package_path r) as [path|] eqn:Hpath; [|reflexivity].
  destruct (PyStr.truthy path) eqn:Htruthy; cbn [negb]; [|reflexivity].
  exists r. apply String.eqb_eq in Ht, Hp.
  cbn [dep_package_path dep_training_run_id db audit_events
       set_audit_events].
  rewrite map_app. repeat split; auto.
  intros ->. discriminate.
Qed.

Lemma fold_newest_single (d : DeploymentPackage) :
  fold_left newest [d] None = Some d.
Proof. reflexivity. Qed.

(** X24. After a successful [create_deployment], [active_deployment] of the
    tenant and project is the package just created, whatever the creation
    times of the earlier packages; for every other tenant or project
    [active_deployment] answers as before. *)
Theorem new_deployment_is_the_active_one deployment_id now tenant_id
    project_id training_run_id version endpoint_url user_id w d w' :
  create_deployment deployment_id now tenant_id project_id training_run_id
                    version endpoint_url user_id w = (Return d, w') ->
  active_deployment tenant_id project_id w' = Some d
  /\ forall t p,
       String.eqb t tenant_id && String.eqb p project_id = false ->
       active_deployment t p w' = active_deployment t p w.
Proof.
  intros Hc.
  destruct (create_deployment_ok _ _ _ _ _ _ _ _ _ _ _ Hc)
    as (Hst & Ht & Hp & _ & Hpk & _).
  unfold active_deployment, active_packages. rewrite Hpk. split.
  - rewrite List.filter_app, filter_archived.
    cbn [List.filter app]. unfold is_active_of.
    rewrite Ht, Hp, !String.eqb_refl, Hst.
    rewrite bool_decide_eq_true_2 by reflexivity. reflexivity.
  - intros t p Hne.
    rewrite List.filter_app, (filter_other_project _ _ _ _ _ Hne).
    cbn [List.filter]. unfold is_active_of at 2.
    rewrite Ht, Hp, (String.eqb_sym tenant_id t),
      (String.eqb_sym project_id p), Hne.
    cbn [andb]. now rewrite app_nil_r.
Qed.

Lemma new_deployment_is_the_active_one_witness :
  active_deployment "tenant-1" "project-1" (snd redeploy)
  = Some (returned (fst redeploy) no_deployment).
Proof.
  apply (new_deployment_is_the_active_one "dep-2" 60 "tenant-1" "project-1"
           "run-1" "v2" None "user-1" (snd first_deploy)
           (returned (fst redeploy) no_deployment) (snd redeploy)).
  vm_compute. reflexivity.
Defined.

(** ** Training engine *)

Lemma path_join_ne dir a b : a <> b -> path_join dir a <> path_join dir b.
Proof. intros Hne H. apply Hne. exact (path_join_inj _ _ _ H). Qed.

(** X25. When the engine returns, with the mock backend as with the command
    backend, the adapter directory it reports is [adapter] under the
    output directory and holds both the adapter weights and the adapter
    configuration. With the command backend this means that a trainer
    exiting with code 0 without writing the weights makes the engine
    raise. *)
Theorem engine_run_leaves_adapter_files format_command subprocess_run st
    output_dir base_model_id dataset_paths config files artifacts files' :
  TrainingEngine.engine_run format_command subprocess_run st output_dir
    base_model_id dataset_paths config files
  = (Return artifacts, files') ->
  snd artifacts = path_join output_dir "adapter"
  /\ is_Some (files' !! path_join (snd artifacts)
                                  "adapter_model.safetensors")
  /\ is_Some (files' !! path_join (snd artifacts) "adapter_config.json").
Proof.
  unfold TrainingEngine.engine_run.
  destruct (String.eqb (trainer_backend st) "command").
  - unfold TrainingEngine._run_command_backend.
    destruct (trainer_command_template st) as [template|]; [|discriminate].
    destruct (negb (PyStr.truthy template)); [discriminate|].
    destruct (subprocess_run _ _ _) as [returncode files1].
    destruct (negb (returncode =? 0)); [discriminate|].
    destruct (_ !! path_join (path_join output_dir "adapter")
                             "adapter_model.safetensors")
      as [weights|] eqn:Hw; [|discriminate].
    destruct (_ !! path_join (path_join output_dir "adapter")
                             "adapter_config.json")
      as [cfg|] eqn:Hc; intros H; apply returned_pair in H as [<- <-];
      cbn [snd]; (split; [reflexivity|]).
    + rewrite Hw, Hc. eauto.
    + rewrite lookup_insert_eq.
      rewrite lookup_insert_ne by (apply path_join_ne; discriminate).
      rewrite Hw. eauto.
  - unfold TrainingEngine._run_mock_backend. intros H.
    apply returned_pair in H as [<- <-]. cbn [snd].
    split; [reflexivity|]. rewrite lookup_insert_eq.
    rewrite lookup_insert_ne by (apply path_join_ne; discriminate).
    rewrite lookup_insert_eq. eauto.
Qed.

Lemma engine_run_leaves_adapter_files_witness :
  let out :=
    TrainingEngine.engine_run demo_format_command failing_subprocess
      demo_settings "runs/run-1" "base" ("t", "v", "s") demo_config ∅ in
  let artifacts := returned (fst out) ("", "") in
  snd artifacts = path_join "runs/run-1" "adapter"
  /\ is_Some (snd out !! path_join (snd artifacts)
                                   "adapter_model.safetensors")
  /\ is_Some (snd out !! path_join (snd artifacts) "adapter_config.json").
Proof.
  cbv zeta.
  apply (engine_run_leaves_adapter_files demo_format_command
           failing_subprocess demo_settings "runs/run-1" "base"
           ("t", "v", "s") demo_config ∅).
  apply outcome_returned. vm_compute. reflexivity.
Defined.
